(** * tf-controller: the Terraform status transitions and the reconciliation loop

    A shallow embedding of [api/v1alpha1/terraform_types.go] and
    [controllers/tf_controller.go].

    - Go strings are byte sequences: [string] (a list of 8-bit [ascii]),
      [len] is [String.length].
    - [time.Time] is an instant, a [Z] counting from the zero instant;
      [time.Now()] reads a clock that is threaded through the code as state.
    - [int64] generations and [time.Duration] are [Z].
    - The cluster behind [client.Client] is an abstract state with the
      operations the controller uses; a finite-map cluster instantiates it. *)

From Stdlib Require Import ZArith String Ascii List Lia Permutation Bool.
From stdpp Require Import base strings list gmap.

Open Scope Z_scope.
Open Scope string_scope.

(** ** The state monad the effectful code is written in *)

Definition State (S A : Type) : Type := S -> A * S.

Definition ret {S A} (a : A) : State S A := fun s => (a, s).

Definition bind {S A B} (m : State S A) (f : A -> State S B) : State S B :=
  fun s => let (a, s') := m s in f a s'.

Definition modify {S} (f : S -> S) : State S unit := fun s => (tt, f s).

Notation "x <-- c ;; k" := (bind c (fun x => k))
  (at level 100, c at next level, right associativity).
Notation "c ;;; k" := (bind c (fun _ => k))
  (at level 100, right associativity).

(** ** Package [strings] and [fmt], as far as the code uses them *)

Module strings.

(** [len(s)], a Go [int]. *)
Definition len (s : string) : Z := Z.of_nat (String.length s).

(** [s[lo:hi]], for [0 <= lo <= hi <= len s] (Go panics otherwise). *)
Definition slice (s : string) (lo hi : Z) : string :=
  substring (Z.to_nat lo) (Z.to_nat (hi - lo)) s.

(** [s[lo:]]. *)
Definition slice_from (s : string) (lo : Z) : string :=
  slice s lo (len s).

(** [strings.Index]: the position of the first occurrence, or -1. *)
Definition Index (s sep : string) : Z :=
  match String.index 0 sep s with
  | Some i => Z.of_nat i
  | None => -1
  end.

(** [strings.Replace(s, old, new, 1)]: only the first occurrence. *)
Definition Replace1 (s old new : string) : string :=
  let i := Index s old in
  if Z.ltb i 0 then s
  else slice s 0 i +:+ new +:+ slice_from s (i + len old).

(** [strings.SplitN(s, sep, 2)]: cut at the first separator, if any. *)
Definition SplitN2 (s sep : string) : list string :=
  let i := Index s sep in
  if Z.ltb i 0 then [s]
  else [slice s 0 i; slice_from s (i + len sep)].

(** [strings.HasPrefix] and [strings.TrimPrefix]. *)
Definition HasPrefix (s p : string) : bool := String.prefix p s.

Definition TrimPrefix (s p : string) : string :=
  if HasPrefix s p then slice_from s (len p) else s.

(** [strings.Join]. *)
Fixpoint Join (l : list string) (sep : string) : string :=
  match l with
  | [] => ""
  | [x] => x
  | x :: rest => x +:+ sep +:+ Join rest sep
  end.

(** The one-byte string holding a double quote. *)
Definition dquote : string := String (ascii_of_nat 34) EmptyString.

(** [strings.Contains]. *)
Definition Contains (s substr : string) : bool := Z.leb 0 (Index s substr).

(** [strings.ReplaceAll(s, old, new)] for an [old] of one byte. *)
Fixpoint ReplaceAllByte (s : string) (old : ascii) (new : string) : string :=
  match s with
  | EmptyString => EmptyString
  | String a rest =>
      (if Ascii.eqb a old then new else String a EmptyString)
      +:+ ReplaceAllByte rest old new
  end.

(** [s[lo:hi]] with its bounds check: [None] is the panic
    "slice bounds out of range". *)
Definition slice_checked (s : string) (lo hi : Z) : option string :=
  if Z.leb 0 lo && Z.leb lo hi && Z.leb hi (len s) then Some (slice s lo hi)
  else None.

End strings.

(** ** Package [metav1] *)

Module metav1.

(** An instant; the zero value of [time.Time] is instant 0. *)
Definition Time : Type := Z.

Definition IsZero (t : Time) : bool := Z.eqb t 0.

(** [t.After(u)]: strictly later. *)
Definition After (t u : Time) : bool := Z.ltb u t.

(** [IsZero] on a pointer to a [metav1.Time]: a nil pointer is zero. *)
Definition IsZeroPtr (t : option Time) : bool :=
  match t with
  | None => true
  | Some t => IsZero t
  end.

Definition Duration : Type := Z.

Inductive ConditionStatus : Type :=
| ConditionTrue
| ConditionFalse
| ConditionUnknown.

Definition ConditionStatus_eqb (a b : ConditionStatus) : bool :=
  match a, b with
  | ConditionTrue, ConditionTrue
  | ConditionFalse, ConditionFalse
  | ConditionUnknown, ConditionUnknown => true
  | _, _ => false
  end.

Record Condition : Type := mkCondition {
  Type_ : string;
  Status : ConditionStatus;
  ObservedGeneration : Z;
  LastTransitionTime : Time;
  Reason : string;
  Message : string
}.

(** The fields of [ObjectMeta] the controller reads or writes. *)
Record ObjectMeta : Type := mkObjectMeta {
  Name : string;
  Namespace : string;
  Generation : Z;
  DeletionTimestamp : option Time;
  Finalizers : list string
}.

(** The clock behind [time.Now()]: the readings it will give, and how many
    have been taken. *)
Record Clock : Type := mkClock {
  readings : nat -> Time;
  reads : nat
}.

Definition Now : State Clock Time :=
  fun k => (readings k (reads k), mkClock (readings k) (S (reads k))).

End metav1.

(** ** Package [apimeta] (k8s.io/apimachinery/pkg/api/meta): the condition
    helpers the status transitions are built on.  The package is a dependency
    of the repository; its functions are transcribed from the library. *)

Module apimeta.
Import metav1.

(** [FindStatusCondition]: the first condition of the type. *)
Fixpoint FindStatusCondition (conditions : list Condition) (conditionType : string)
  : option Condition :=
  match conditions with
  | [] => None
  | c :: rest =>
      if String.eqb (Type_ c) conditionType then Some c
      else FindStatusCondition rest conditionType
  end.

(** What [SetStatusCondition] writes through the pointer to the existing
    condition: status and time only on a status change, then reason,
    message and observed generation. *)
Definition updateExisting (existing newCondition : Condition)
  : State Clock Condition :=
  if ConditionStatus_eqb (Status existing) (Status newCondition) then
    ret (mkCondition (Type_ existing) (Status existing)
           (ObservedGeneration newCondition) (LastTransitionTime existing)
           (Reason newCondition) (Message newCondition))
  else if negb (IsZero (LastTransitionTime newCondition)) then
    ret (mkCondition (Type_ existing) (Status newCondition)
           (ObservedGeneration newCondition) (LastTransitionTime newCondition)
           (Reason newCondition) (Message newCondition))
  else
    now <-- Now ;;
    ret (mkCondition (Type_ existing) (Status newCondition)
           (ObservedGeneration newCondition) now
           (Reason newCondition) (Message newCondition)).

(** What is appended when no condition of the type exists. *)
Definition appendNew (newCondition : Condition) : State Clock Condition :=
  if IsZero (LastTransitionTime newCondition) then
    now <-- Now ;;
    ret (mkCondition (Type_ newCondition) (Status newCondition)
           (ObservedGeneration newCondition) now
           (Reason newCondition) (Message newCondition))
  else ret newCondition.

(** [SetStatusCondition(&conditions, newCondition)]. *)
Fixpoint SetStatusCondition (conditions : list Condition) (newCondition : Condition)
  : State Clock (list Condition) :=
  match conditions with
  | [] => c <-- appendNew newCondition ;; ret [c]
  | c :: rest =>
      if String.eqb (Type_ c) (Type_ newCondition) then
        c' <-- updateExisting c newCondition ;; ret (c' :: rest)
      else
        rest' <-- SetStatusCondition rest newCondition ;; ret (c :: rest')
  end.

(** [IsStatusConditionTrue]. *)
Definition IsStatusConditionTrue (conditions : list Condition) (conditionType : string)
  : bool :=
  match FindStatusCondition conditions conditionType with
  | Some c => ConditionStatus_eqb (Status c) ConditionTrue
  | None => false
  end.

End apimeta.

(** ** Package [meta] (github.com/fluxcd/pkg/apis/meta): constants and the
    dependency reference. *)

Module meta.

Definition ReadyCondition : string := "Ready".
Definition ProgressingReason : string := "Progressing".

Record NamespacedObjectReference : Type := mkNamespacedObjectReference {
  Name : string;
  Namespace : string
}.

End meta.

(** ** Package [infrav1] (api/v1alpha1/terraform_types.go) *)

Module infrav1.

Definition TerraformFinalizer : string := "finalizers.tf.contrib.fluxcd.io".
Definition MaxConditionMessageLength : Z := 20000.
Definition ApprovePlanAutoValue : string := "auto".
Definition ApprovePlanDisableValue : string := "disable".
Definition DefaultWorkspaceName : string := "default".

Definition ArtifactFailedReason : string := "ArtifactFailed".
Definition DeletionBlockedByDependants : string := "DeletionBlockedByDependantsReason".
Definition DependencyNotReadyReason : string := "DependencyNotReady".
Definition DriftDetectedReason : string := "DriftDetected".
Definition PostPlanningWebhookFailedReason : string := "PostPlanningWebhookFailed".
Definition HealthChecksFailedReason : string := "HealthChecksFailed".
Definition TFExecApplySucceedReason : string := "TerraformAppliedSucceed".
Definition TFExecLockHeldReason : string := "LockHeld".
Definition TFExecForceUnlockReason : string := "ForceUnlock".

Definition ConditionTypeApply : string := "Apply".
Definition ConditionTypeHealthCheck : string := "HealthCheck".
Definition ConditionTypeOutput : string := "Output".
Definition ConditionTypePlan : string := "Plan".
Definition ConditionTypeStateLocked : string := "StateLocked".

Definition TFDependencyOfPrefix : string := "tf.dependency.of.".

(** [CrossNamespaceSourceReference] is declared outside the two files; the
    controller reads its kind, name and namespace. *)
Record CrossNamespaceSourceReference : Type := mkSourceRef {
  Kind : string;
  Name : string;
  Namespace : string
}.

Record WriteOutputsToSecretSpec : Type := mkWriteOutputsToSecretSpec {
  SecretName : string;
  Outputs : list string
}.

(** The fields of [TerraformSpec] that the status transitions and the
    reconciliation loop read. *)
Record TerraformSpec : Type := mkTerraformSpec {
  ApprovePlan : string;
  Destroy : bool;
  Workspace : string;
  Interval : metav1.Duration;
  RetryInterval : option metav1.Duration;
  SourceRef : CrossNamespaceSourceReference;
  Suspend : bool;
  Force : bool;
  WriteOutputsToSecret : option WriteOutputsToSecretSpec;
  AlwaysCleanupRunnerPod : option bool;
  DependsOn : list meta.NamespacedObjectReference
}.

Module PlanStatus.
Record t : Type := mk {
  LastApplied : string;
  Pending : string;
  IsDestroyPlan : bool;
  IsDriftDetectionPlan : bool
}.
End PlanStatus.

Module LockStatus.
Record t : Type := mk {
  LastApplied : string;
  Pending : string
}.
End LockStatus.

(** Modelled from the spec: [ResourceRef] is declared outside the two files;
    the inventory is a list of applied resource references, opaque here. *)
Definition ResourceRef : Type := string.

Record ResourceInventory : Type := mkResourceInventory {
  Entries : list ResourceRef
}.

Record TerraformStatus : Type := mkTerraformStatus {
  ObservedGeneration : Z;
  Conditions : list metav1.Condition;
  LastAppliedRevision : string;
  LastAttemptedRevision : string;
  LastPlannedRevision : string;
  LastDriftDetectedAt : option metav1.Time;
  LastAppliedByDriftDetectionAt : option metav1.Time;
  AvailableOutputs : list string;
  Plan : PlanStatus.t;
  Inventory : option ResourceInventory;
  Lock : LockStatus.t
}.

Record Terraform : Type := mkTerraform {
  ObjectMeta : metav1.ObjectMeta;
  Spec : TerraformSpec;
  Status : TerraformStatus
}.

(** *** Field assignments *)

Definition set_Status (tf : Terraform) (st : TerraformStatus) : Terraform :=
  mkTerraform (ObjectMeta tf) (Spec tf) st.

Definition set_ObjectMeta (tf : Terraform) (m : metav1.ObjectMeta) : Terraform :=
  mkTerraform m (Spec tf) (Status tf).

Definition set_Conditions (st : TerraformStatus) (cs : list metav1.Condition) :=
  mkTerraformStatus (ObservedGeneration st) cs (LastAppliedRevision st)
    (LastAttemptedRevision st) (LastPlannedRevision st) (LastDriftDetectedAt st)
    (LastAppliedByDriftDetectionAt st) (AvailableOutputs st) (Plan st)
    (Inventory st) (Lock st).

Definition set_ObservedGeneration (st : TerraformStatus) (g : Z) :=
  mkTerraformStatus g (Conditions st) (LastAppliedRevision st)
    (LastAttemptedRevision st) (LastPlannedRevision st) (LastDriftDetectedAt st)
    (LastAppliedByDriftDetectionAt st) (AvailableOutputs st) (Plan st)
    (Inventory st) (Lock st).

Definition set_LastAppliedRevision (st : TerraformStatus) (r : string) :=
  mkTerraformStatus (ObservedGeneration st) (Conditions st) r
    (LastAttemptedRevision st) (LastPlannedRevision st) (LastDriftDetectedAt st)
    (LastAppliedByDriftDetectionAt st) (AvailableOutputs st) (Plan st)
    (Inventory st) (Lock st).

Definition set_LastAttemptedRevision (st : TerraformStatus) (r : string) :=
  mkTerraformStatus (ObservedGeneration st) (Conditions st) (LastAppliedRevision st)
    r (LastPlannedRevision st) (LastDriftDetectedAt st)
    (LastAppliedByDriftDetectionAt st) (AvailableOutputs st) (Plan st)
    (Inventory st) (Lock st).

Definition set_LastPlannedRevision (st : TerraformStatus) (r : string) :=
  mkTerraformStatus (ObservedGeneration st) (Conditions st) (LastAppliedRevision st)
    (LastAttemptedRevision st) r (LastDriftDetectedAt st)
    (LastAppliedByDriftDetectionAt st) (AvailableOutputs st) (Plan st)
    (Inventory st) (Lock st).

Definition set_LastDriftDetectedAt (st : TerraformStatus) (t : option metav1.Time) :=
  mkTerraformStatus (ObservedGeneration st) (Conditions st) (LastAppliedRevision st)
    (LastAttemptedRevision st) (LastPlannedRevision st) t
    (LastAppliedByDriftDetectionAt st) (AvailableOutputs st) (Plan st)
    (Inventory st) (Lock st).

Definition set_LastAppliedByDriftDetectionAt (st : TerraformStatus)
  (t : option metav1.Time) :=
  mkTerraformStatus (ObservedGeneration st) (Conditions st) (LastAppliedRevision st)
    (LastAttemptedRevision st) (LastPlannedRevision st) (LastDriftDetectedAt st)
    t (AvailableOutputs st) (Plan st) (Inventory st) (Lock st).

Definition set_AvailableOutputs (st : TerraformStatus) (o : list string) :=
  mkTerraformStatus (ObservedGeneration st) (Conditions st) (LastAppliedRevision st)
    (LastAttemptedRevision st) (LastPlannedRevision st) (LastDriftDetectedAt st)
    (LastAppliedByDriftDetectionAt st) o (Plan st) (Inventory st) (Lock st).

Definition set_Plan (st : TerraformStatus) (p : PlanStatus.t) :=
  mkTerraformStatus (ObservedGeneration st) (Conditions st) (LastAppliedRevision st)
    (LastAttemptedRevision st) (LastPlannedRevision st) (LastDriftDetectedAt st)
    (LastAppliedByDriftDetectionAt st) (AvailableOutputs st) p
    (Inventory st) (Lock st).

Definition set_Inventory (st : TerraformStatus) (i : option ResourceInventory) :=
  mkTerraformStatus (ObservedGeneration st) (Conditions st) (LastAppliedRevision st)
    (LastAttemptedRevision st) (LastPlannedRevision st) (LastDriftDetectedAt st)
    (LastAppliedByDriftDetectionAt st) (AvailableOutputs st) (Plan st)
    i (Lock st).

Definition set_Lock (st : TerraformStatus) (l : LockStatus.t) :=
  mkTerraformStatus (ObservedGeneration st) (Conditions st) (LastAppliedRevision st)
    (LastAttemptedRevision st) (LastPlannedRevision st) (LastDriftDetectedAt st)
    (LastAppliedByDriftDetectionAt st) (AvailableOutputs st) (Plan st)
    (Inventory st) l.

(** [terraform.Status.f = v], through the field assignment [set_f]. *)
Definition upd {V} (set : TerraformStatus -> V -> TerraformStatus)
  (tf : Terraform) (v : V) : Terraform :=
  set_Status tf (set (Status tf) v).

(** *** The helpers at the end of the file *)

Definition trimString (str : string) (limit : Z) : string :=
  if Z.leb (strings.len str) limit then str
  else strings.slice str 0 limit +:+ "...".

Definition GetRetryInterval (tf : Terraform) : metav1.Duration :=
  match RetryInterval (Spec tf) with
  | Some d => d
  | None => Interval (Spec tf)
  end.

Definition GetDependsOn (tf : Terraform) : list meta.NamespacedObjectReference :=
  DependsOn (Spec tf).

Definition WorkspaceName (tf : Terraform) : string :=
  if String.eqb (Workspace (Spec tf)) "" then DefaultWorkspaceName
  else Workspace (Spec tf).

Definition GetAlwaysCleanupRunnerPod (spec : TerraformSpec) : bool :=
  match AlwaysCleanupRunnerPod spec with
  | None => true
  | Some b => b
  end.

(** The body of the loop of [HasDrift], for one condition. *)
Definition driftedSince (lastDriftDetectedAt : option metav1.Time)
  (condition : metav1.Condition) : bool :=
  String.eqb (metav1.Type_ condition) ConditionTypeApply
  && metav1.ConditionStatus_eqb (metav1.Status condition) metav1.ConditionTrue
  && match lastDriftDetectedAt with
     | None => false
     | Some t => metav1.After t (metav1.LastTransitionTime condition)
     end.

Fixpoint HasDrift_loop (lastDriftDetectedAt : option metav1.Time)
  (conditions : list metav1.Condition) : bool :=
  match conditions with
  | [] => false
  | condition :: rest =>
      if driftedSince lastDriftDetectedAt condition then true
      else HasDrift_loop lastDriftDetectedAt rest
  end.

Definition HasDrift (tf : Terraform) : bool :=
  HasDrift_loop (LastDriftDetectedAt (Status tf)) (Conditions (Status tf)).

(** *** The status transitions *)

(** [apimeta.SetStatusCondition(terraform.GetStatusConditions(), c)]. *)
Definition setCondition (tf : Terraform) (c : metav1.Condition)
  : State metav1.Clock Terraform :=
  cs <-- apimeta.SetStatusCondition (Conditions (Status tf)) c ;;
  ret (upd set_Conditions tf cs).

(** A condition literal: the fields the code does not set are zero. *)
Definition newCondition (type : string) (status : metav1.ConditionStatus)
  (reason message : string) : metav1.Condition :=
  metav1.mkCondition type status 0 0 reason message.

Definition SetTerraformReadiness (tf : Terraform) (status : metav1.ConditionStatus)
  (reason message revision : string) : State metav1.Clock Terraform :=
  tf <-- setCondition tf
           (newCondition meta.ReadyCondition status reason
              (trimString message MaxConditionMessageLength)) ;;
  let tf := upd set_ObservedGeneration tf (metav1.Generation (ObjectMeta tf)) in
  ret (upd set_LastAttemptedRevision tf revision).

Definition TerraformApplying (tf : Terraform) (revision message : string)
  : State metav1.Clock Terraform :=
  tf <-- setCondition tf
           (newCondition ConditionTypeApply metav1.ConditionUnknown
              meta.ProgressingReason (trimString message MaxConditionMessageLength)) ;;
  ret (if negb (String.eqb revision "")
       then upd set_LastAttemptedRevision tf revision else tf).

Definition TerraformOutputsAvailable (tf : Terraform) (availableOutputs : list string)
  (message : string) : State metav1.Clock Terraform :=
  tf <-- setCondition tf
           (newCondition ConditionTypeOutput metav1.ConditionTrue
              "TerraformOutputsAvailable"
              (trimString message MaxConditionMessageLength)) ;;
  ret (upd set_AvailableOutputs tf availableOutputs).

Definition TerraformOutputsWritten (tf : Terraform) (revision message : string)
  : State metav1.Clock Terraform :=
  tf <-- setCondition tf
           (newCondition ConditionTypeOutput metav1.ConditionTrue
              "TerraformOutputsWritten"
              (trimString message MaxConditionMessageLength)) ;;
  SetTerraformReadiness tf metav1.ConditionTrue "TerraformOutputsWritten"
    (message +:+ ": " +:+ revision) revision.

Definition TerraformApplied (tf : Terraform) (revision message : string)
  (isDestroyApply : bool) (entries : list ResourceRef)
  : State metav1.Clock Terraform :=
  tf <-- setCondition tf
           (newCondition ConditionTypeApply metav1.ConditionTrue
              TFExecApplySucceedReason
              (trimString message MaxConditionMessageLength)) ;;
  tf <-- (if PlanStatus.IsDriftDetectionPlan (Plan (Status tf)) then
            now <-- metav1.Now ;;
            ret (upd set_LastAppliedByDriftDetectionAt tf (Some now))
          else ret tf) ;;
  let tf := upd set_Plan tf
              (PlanStatus.mk (PlanStatus.Pending (Plan (Status tf))) ""
                 isDestroyApply false) in
  let tf := if negb (String.eqb revision "")
            then upd set_LastAppliedRevision tf revision else tf in
  let tf := if (0 <? length entries)%nat
            then upd set_Inventory tf (Some (mkResourceInventory entries)) else tf in
  SetTerraformReadiness tf metav1.ConditionUnknown TFExecApplySucceedReason
    (message +:+ ": " +:+ revision) revision.

Definition GetPlanIdAndApproveMessage (revision message : string) : string * string :=
  let planRev := strings.Replace1 revision "/" "-" in
  let planId := "plan-" +:+ planRev in
  let parts := strings.SplitN2 revision "/" in
  let shortPlanId :=
    match parts with
    | [p0; p1] =>
        if Z.leb 10 (strings.len p1)
        then "plan-" +:+ p0 +:+ "-" +:+ strings.slice p1 0 10
        else planId
    | _ => planId
    end in
  let approveMessage :=
    message +:+ ": set approvePlan: " +:+ strings.dquote +:+ shortPlanId
    +:+ strings.dquote +:+ " to approve this plan." in
  (planId, approveMessage).

Definition TerraformPostPlanningWebhookFailed (tf : Terraform)
  (revision message : string) : State metav1.Clock Terraform :=
  tf <-- setCondition tf
           (newCondition ConditionTypePlan metav1.ConditionFalse
              PostPlanningWebhookFailedReason
              (trimString message MaxConditionMessageLength)) ;;
  let tf := upd set_Plan tf
              (PlanStatus.mk (PlanStatus.LastApplied (Plan (Status tf))) ""
                 (Destroy (Spec tf)) false) in
  ret (if negb (String.eqb revision "")
       then upd set_LastPlannedRevision (upd set_LastAttemptedRevision tf revision)
              revision
       else tf).

Definition TerraformPlannedWithChanges (tf : Terraform) (revision : string)
  (forceOrAutoApply : bool) (message : string) : State metav1.Clock Terraform :=
  let '(planId, approveMessage) := GetPlanIdAndApproveMessage revision message in
  tf <-- setCondition tf
           (newCondition ConditionTypePlan metav1.ConditionTrue
              "TerraformPlannedWithChanges"
              (trimString message MaxConditionMessageLength)) ;;
  let tf := upd set_Plan tf
              (PlanStatus.mk (PlanStatus.LastApplied (Plan (Status tf))) planId
                 (Destroy (Spec tf)) (HasDrift tf)) in
  let tf := if negb (String.eqb revision "")
            then upd set_LastPlannedRevision
                   (upd set_LastAttemptedRevision tf revision) revision
            else tf in
  if forceOrAutoApply then
    SetTerraformReadiness tf metav1.ConditionUnknown "TerraformPlannedWithChanges"
      message revision
  else
    SetTerraformReadiness tf metav1.ConditionUnknown "TerraformPlannedWithChanges"
      approveMessage revision.

Definition TerraformPlannedNoChanges (tf : Terraform) (revision message : string)
  : State metav1.Clock Terraform :=
  tf <-- setCondition tf
           (newCondition ConditionTypePlan metav1.ConditionFalse
              "TerraformPlannedNoChanges"
              (trimString message MaxConditionMessageLength)) ;;
  let tf := upd set_Plan tf
              (PlanStatus.mk (PlanStatus.LastApplied (Plan (Status tf))) ""
                 (Destroy (Spec tf)) false) in
  let tf := if negb (String.eqb revision "")
            then upd set_LastPlannedRevision
                   (upd set_LastAttemptedRevision tf revision) revision
            else tf in
  SetTerraformReadiness tf metav1.ConditionTrue "TerraformPlannedNoChanges"
    (message +:+ ": " +:+ revision) revision.

Definition TerraformProgressing (tf : Terraform) (message : string)
  : State metav1.Clock Terraform :=
  setCondition tf
    (newCondition meta.ReadyCondition metav1.ConditionUnknown
       meta.ProgressingReason (trimString message MaxConditionMessageLength)).

Definition TerraformNotReady (tf : Terraform) (revision reason message : string)
  : State metav1.Clock Terraform :=
  tf <-- SetTerraformReadiness tf metav1.ConditionFalse reason
           (trimString message MaxConditionMessageLength) revision ;;
  ret (if negb (String.eqb revision "")
       then upd set_LastAttemptedRevision tf revision else tf).

Definition TerraformAppliedFailResetPlanAndNotReady (tf : Terraform)
  (revision reason message : string) : State metav1.Clock Terraform :=
  tf <-- setCondition tf
           (newCondition ConditionTypeApply metav1.ConditionFalse
              "TerraformAppliedFail"
              (trimString message MaxConditionMessageLength)) ;;
  tf <-- TerraformNotReady tf revision reason message ;;
  let p := Plan (Status tf) in
  ret (upd set_Plan tf
         (PlanStatus.mk (PlanStatus.LastApplied p) ""
            (PlanStatus.IsDestroyPlan p) (PlanStatus.IsDriftDetectionPlan p))).

Definition TerraformDriftDetected (tf : Terraform) (revision reason message : string)
  : State metav1.Clock Terraform :=
  now <-- metav1.Now ;;
  let tf := upd set_LastDriftDetectedAt tf (Some now) in
  SetTerraformReadiness tf metav1.ConditionFalse reason
    (trimString message MaxConditionMessageLength) revision.

Definition TerraformNoDrift (tf : Terraform) (revision reason message : string)
  : State metav1.Clock Terraform :=
  SetTerraformReadiness tf metav1.ConditionTrue reason
    (message +:+ ": " +:+ revision) revision.

Definition TerraformHealthCheckFailed (tf : Terraform) (message : string)
  : State metav1.Clock Terraform :=
  setCondition tf
    (newCondition ConditionTypeHealthCheck metav1.ConditionFalse
       HealthChecksFailedReason (trimString message MaxConditionMessageLength)).

Definition TerraformHealthCheckSucceeded (tf : Terraform) (message : string)
  : State metav1.Clock Terraform :=
  setCondition tf
    (newCondition ConditionTypeHealthCheck metav1.ConditionTrue
       "HealthChecksSucceed" (trimString message MaxConditionMessageLength)).

(** The lock bookkeeping shared by [TerraformForceUnlock] and
    [TerraformStateLocked]: promote a differing pending holder, then set the
    pending one. *)
Definition rotateLock (tf : Terraform) (pending : string) : Terraform :=
  let l := Lock (Status tf) in
  let lastApplied :=
    if negb (String.eqb (LockStatus.Pending l) "")
       && negb (String.eqb (LockStatus.LastApplied l) (LockStatus.Pending l))
    then LockStatus.Pending l else LockStatus.LastApplied l in
  upd set_Lock tf (LockStatus.mk lastApplied pending).

Definition TerraformForceUnlock (tf : Terraform) (message : string)
  : State metav1.Clock Terraform :=
  tf <-- setCondition tf
           (newCondition ConditionTypeStateLocked metav1.ConditionFalse
              TFExecForceUnlockReason
              (trimString message MaxConditionMessageLength)) ;;
  ret (rotateLock tf "").

Definition TerraformStateLocked (tf : Terraform) (lockID message : string)
  : State metav1.Clock Terraform :=
  let c := newCondition ConditionTypeStateLocked metav1.ConditionTrue
             TFExecLockHeldReason (trimString message MaxConditionMessageLength) in
  tf <-- setCondition tf c ;;
  tf <-- SetTerraformReadiness tf metav1.ConditionFalse (metav1.Reason c)
           (metav1.Message c) "" ;;
  ret (rotateLock tf lockID).

(** [GetRunnerHostname(ip)]. *)
Definition GetRunnerHostname (tf : Terraform) (ip : string) : string :=
  let prefix := strings.ReplaceAllByte ip "."%char "-" in
  prefix +:+ "." +:+ metav1.Namespace (ObjectMeta tf) +:+ ".pod.cluster.local".

End infrav1.

(** ** Errors, requests and results *)

Module types.

Record NamespacedName : Type := mkNamespacedName {
  Namespace : string;
  Name : string
}.

(** [NamespacedName.String()], which [%s] prints. *)
Definition String (n : NamespacedName) : string :=
  Namespace n +:+ "/" +:+ Name n.

End types.

(** A Go [error] value, as far as the controller tells errors apart: an API
    status error with reason NotFound, any other error of a collaborator, an
    error made by [fmt.Errorf] without [%w], and one that wraps another. *)
Inductive error : Type :=
| NotFound (msg : string)
| Failure (msg : string)
| Errorf (msg : string)
| Wrapf (prefix : string) (inner : error).

(** [err.Error()]. *)
Fixpoint Error (e : error) : string :=
  match e with
  | NotFound msg | Failure msg | Errorf msg => msg
  | Wrapf prefix inner => prefix +:+ Error inner
  end.

Module apierrors.

(** [apierrors.IsNotFound] looks through wrapped errors. *)
Fixpoint IsNotFound (e : error) : bool :=
  match e with
  | NotFound _ => true
  | Wrapf _ inner => IsNotFound inner
  | _ => false
  end.

End apierrors.

Module ctrl.

(** [ctrl.Result]: the requeue directive. *)
Record Result : Type := mkResult {
  Requeue : bool;
  RequeueAfter : metav1.Duration
}.

(** [ctrl.Result{}]: no requeue. *)
Definition NoRequeue : Result := mkResult false 0.
Definition RequeueNow : Result := mkResult true 0.
Definition After (d : metav1.Duration) : Result := mkResult false d.

End ctrl.

Module sourcev1.

Definition GitRepositoryKind : string := "GitRepository".
Definition BucketKind : string := "Bucket".
Definition OCIRepositoryKind : string := "OCIRepository".

Record Artifact : Type := mkArtifact {
  URL : string;
  Revision : string;
  Checksum : string
}.

(** The [sourcev1.Source] interface: an object with [GetArtifact()]. *)
Record Source : Type := mkSource {
  GetArtifact : option Artifact
}.

End sourcev1.

Module controllerutil.

Definition ContainsFinalizer (tf : infrav1.Terraform) (finalizer : string) : bool :=
  existsb (String.eqb finalizer) (metav1.Finalizers (infrav1.ObjectMeta tf)).

Definition AddFinalizer (tf : infrav1.Terraform) (finalizer : string)
  : infrav1.Terraform :=
  if ContainsFinalizer tf finalizer then tf
  else
    let m := infrav1.ObjectMeta tf in
    infrav1.set_ObjectMeta tf
      (metav1.mkObjectMeta (metav1.Name m) (metav1.Namespace m)
         (metav1.Generation m) (metav1.DeletionTimestamp m)
         (metav1.Finalizers m ++ [finalizer])).

End controllerutil.

(** ** The cluster behind [client.Client]

    The reconciler reaches the cluster through an interface; [C] is the
    cluster's state, which also decides when a call fails. *)

Class Client (C : Type) : Type := {
  (** [r.Get(ctx, key, &terraform)] *)
  GetTerraform : types.NamespacedName -> State C (infrav1.Terraform + error);
  (** [r.Client.Get(ctx, key, &repository)] for a source of the given kind *)
  GetSource : string -> types.NamespacedName -> State C (sourcev1.Source + error);
  (** [r.Get(ctx, key, &corev1.Secret{})] *)
  GetSecret : types.NamespacedName -> State C (option error);
  (** [r.Patch(ctx, &terraform, patch, ...)] *)
  Patch : infrav1.Terraform -> State C (option error);
  (** [r.Status().Patch(ctx, &terraform, patch, ...)] *)
  StatusPatch : infrav1.Terraform -> State C (option error)
}.

(** ** Code with early [return]s and [defer]

    A procedure either returns a value of type [R] from the enclosing
    function or goes on with a value of type [A]. *)

Definition Proc (S R A : Type) : Type := S -> (R + A) * S.

Definition pret {S R A} (a : A) : Proc S R A := fun s => (inr a, s).

Definition Return {S R A} (r : R) : Proc S R A := fun s => (inl r, s).

Definition pbind {S R A B} (m : Proc S R A) (f : A -> Proc S R B) : Proc S R B :=
  fun s =>
    match m s with
    | (inl r, s') => (inl r, s')
    | (inr a, s') => f a s'
    end.

Definition lift {S R A} (m : State S A) : Proc S R A :=
  fun s => let (a, s') := m s in (inr a, s').

(** [defer d()] followed by [body]: [d] runs when the function leaves, on
    every path, and cannot change what is returned. *)
Definition Defer {S R A} (d : State S unit) (body : Proc S R A) : Proc S R A :=
  fun s => let (r, s') := body s in (r, snd (d s')).

(** The function whose body is [body]: falling off the end returns too. *)
Definition run {S R} (body : Proc S R R) : State S R :=
  fun s =>
    match body s with
    | (inl r, s') | (inr r, s') => (r, s')
    end.

Notation "x <~ c ;; k" := (pbind c (fun x => k))
  (at level 100, c at next level, right associativity).
Notation "c ;;~ k" := (pbind c (fun _ => k))
  (at level 100, right associativity).

(** ** Package [controllers] (controllers/tf_controller.go) *)

Module controllers.

(** *** Artifact download and verification *)

(** [fmt.Sprintf("%x", bytes)]: two lower-case hexadecimal digits a byte. *)
Definition hexDigit (n : nat) : ascii :=
  if (n <? 10)%nat then ascii_of_nat (48 + n) else ascii_of_nat (87 + n).

Definition hexByte (b : ascii) : string :=
  let n := nat_of_ascii b in
  String (hexDigit (n / 16)) (String (hexDigit (n mod 16)) EmptyString).

Fixpoint hex (bytes : string) : string :=
  match bytes with
  | EmptyString => ""
  | String b rest => hexByte b +:+ hex rest
  end.

(** An [io.Reader] as [io.Copy] sees it: the bytes it delivers, then the
    end of the stream or an error. *)
Record Reader : Type := mkReader {
  delivered : string;
  failure : option error
}.

Record Response : Type := mkResponse {
  StatusCode : Z;
  Status : string;
  Body : Reader
}.

(** What [downloadAsBytes] reaches outside the repository: the environment
    variable, package [url] ([url.Parse], setting the host, [String()]) and
    the retrying HTTP client. *)
Record HTTP : Type := mkHTTP {
  SOURCE_CONTROLLER_LOCALHOST : string;
  withHost : string -> string -> string + error;
  NewRequest : string -> option error;
  Do : string -> Response + error
}.

Definition StatusOK : Z := 200.

Section Artifacts.

(** [crypto/sha1] and [crypto/sha256]: the digest of the bytes written to
    the hasher. *)
Variables sha1 sha256 : string -> string.

(** The hasher [verifyArtifact] ends up with. *)
Definition hasherFor (checksum : string) : string -> string :=
  if Z.eqb (strings.len checksum) 40 then sha1 else sha256.

(** [verifyArtifact(artifact, buf, reader)]: what [buf] holds afterwards,
    and the error. *)
Definition verifyArtifact (artifact : sourcev1.Artifact) (reader : Reader)
  : string * option error :=
  let hasher := hasherFor (sourcev1.Checksum artifact) in
  let buf := delivered reader in
  match failure reader with
  | Some err => (buf, Some err)
  | None =>
      let checksum := hex (hasher (delivered reader)) in
      if negb (String.eqb checksum (sourcev1.Checksum artifact)) then
        (buf, Some (Errorf ("failed to verify artifact: computed checksum '"
                            +:+ checksum +:+ "' doesn't match advertised '"
                            +:+ sourcev1.Checksum artifact +:+ "'")))
      else (buf, None)
  end.

(** The first lines of [downloadAsBytes]: the URL to fetch, with the
    host replaced when the environment says so. *)
Definition artifactURL (http : HTTP) (artifact : sourcev1.Artifact)
  : string + error :=
  if negb (String.eqb (SOURCE_CONTROLLER_LOCALHOST http) "")
  then withHost http (sourcev1.URL artifact) (SOURCE_CONTROLLER_LOCALHOST http)
  else inl (sourcev1.URL artifact).

(** [downloadAsBytes(artifact)]: the buffer, or the error with no buffer. *)
Definition downloadAsBytes (http : HTTP) (artifact : sourcev1.Artifact)
  : string + error :=
  match artifactURL http artifact with
  | inr err => inr err
  | inl artifactURL =>
      match NewRequest http artifactURL with
      | Some err => inr (Wrapf "failed to create a new request: " err)
      | None =>
          match Do http artifactURL with
          | inr err => inr (Wrapf "failed to download artifact, error: " err)
          | inl resp =>
              if negb (Z.eqb (StatusCode resp) StatusOK) then
                inr (Errorf ("failed to download artifact from " +:+ artifactURL
                             +:+ ", status: " +:+ Status resp))
              else
                match verifyArtifact artifact (Body resp) with
                | (_, Some err) => inr err
                | (buf, None) => inl buf
                end
          end
      end
  end.

End Artifacts.

Definition isBeingDeleted (tf : infrav1.Terraform) : bool :=
  negb (metav1.IsZeroPtr (metav1.DeletionTimestamp (infrav1.ObjectMeta tf))).

(** *** Dependencies *)

Section Dependencies.

Context {C : Type} `{Client C}.

Definition dependencyName (terraform : infrav1.Terraform)
  (d : meta.NamespacedObjectReference) : types.NamespacedName :=
  let dNamespace :=
    if String.eqb (meta.Namespace d) ""
    then metav1.Namespace (infrav1.ObjectMeta terraform)
    else meta.Namespace d in
  types.mkNamespacedName dNamespace (meta.Name d).

(** Lines 485 to 505, the first half of the loop's body: fetch the
    dependency [d] and add the dependant's finalizer to it.  [Return] is
    the loop's [return err]. *)
Definition fetchDependency (terraform : infrav1.Terraform)
  (d : meta.NamespacedObjectReference) : Proc C error infrav1.Terraform :=
  let dependantFinalizer :=
    infrav1.TFDependencyOfPrefix +:+ metav1.Name (infrav1.ObjectMeta terraform) in
  let dName := dependencyName terraform d in
  r <~ lift (GetTerraform dName) ;;
  match r with
  | inr err =>
      Return (Wrapf ("unable to get '" +:+ types.String dName +:+ "' dependency: ") err)
  | inl tf =>
      if negb (controllerutil.ContainsFinalizer tf dependantFinalizer) then
        let tf := controllerutil.AddFinalizer tf dependantFinalizer in
        e <~ lift (Patch tf) ;;
        match e with
        | Some err =>
            Return (Wrapf ("unable to add finalizer to '" +:+ types.String dName
                           +:+ "' dependency: ") err)
        | None => pret tf
        end
      else pret tf
  end.

(** Lines 507 to 533, the second half: the checks on the fetched
    dependency [tf]. *)
Definition judgeDependency (source : sourcev1.Source) (terraform : infrav1.Terraform)
  (dName : types.NamespacedName) (tf : infrav1.Terraform) : Proc C error unit :=
  if (length (infrav1.Conditions (infrav1.Status tf)) =? 0)%nat
     || negb (Z.eqb (metav1.Generation (infrav1.ObjectMeta tf))
                (infrav1.ObservedGeneration (infrav1.Status tf)))
  then Return (Errorf ("dependency '" +:+ types.String dName +:+ "' is not ready"))
  else if negb (apimeta.IsStatusConditionTrue
                  (infrav1.Conditions (infrav1.Status tf)) meta.ReadyCondition)
  then Return (Errorf ("dependency '" +:+ types.String dName +:+ "' is not ready"))
  else
    match sourcev1.GetArtifact source with
    | None =>
        (* [source.GetArtifact().Revision] on a nil artifact panics;
           [Reconcile] calls with an artifact only *)
        Return (Failure "invalid memory address or nil pointer dereference")
    | Some artifact =>
        let revision := sourcev1.Revision artifact in
        let ref := infrav1.SourceRef (infrav1.Spec tf) in
        let own := infrav1.SourceRef (infrav1.Spec terraform) in
        if String.eqb (infrav1.Name ref) (infrav1.Name own)
           && String.eqb (infrav1.Namespace ref) (infrav1.Namespace own)
           && String.eqb (infrav1.Kind ref) (infrav1.Kind own)
           && negb (String.eqb revision (infrav1.LastAppliedRevision (infrav1.Status tf)))
           && negb (String.eqb revision (infrav1.LastPlannedRevision (infrav1.Status tf)))
        then Return (Errorf ("dependency '" +:+ types.String dName
                             +:+ "' is not updated yet"))
        else
          match infrav1.WriteOutputsToSecret (infrav1.Spec tf) with
          | Some w =>
              let outputSecret := infrav1.SecretName w in
              let outputSecretName :=
                types.mkNamespacedName (metav1.Namespace (infrav1.ObjectMeta tf))
                  outputSecret in
              e <~ lift (GetSecret outputSecretName) ;;
              match e with
              | Some _ =>
                  Return (Errorf ("dependency output secret: '" +:+ outputSecret
                                  +:+ "' of '" +:+ types.String dName
                                  +:+ "' is not ready yet"))
              | None => pret tt
              end
          | None => pret tt
          end
    end.

(** The body of the loop of [checkDependencies]. *)
Definition checkDependency (source : sourcev1.Source) (terraform : infrav1.Terraform)
  (d : meta.NamespacedObjectReference) : Proc C error unit :=
  tf <~ fetchDependency terraform d ;;
  judgeDependency source terraform (dependencyName terraform d) tf.

Fixpoint checkDependencies_loop (source : sourcev1.Source)
  (terraform : infrav1.Terraform) (ds : list meta.NamespacedObjectReference)
  : Proc C error unit :=
  match ds with
  | [] => pret tt
  | d :: rest =>
      checkDependency source terraform d ;;~
      checkDependencies_loop source terraform rest
  end.

(** [checkDependencies(source, terraform)]: [None] is Go's nil error. *)
Definition checkDependencies (source : sourcev1.Source) (terraform : infrav1.Terraform)
  : State C (option error) :=
  fun c =>
    match checkDependencies_loop source terraform
            (infrav1.DependsOn (infrav1.Spec terraform)) c with
    | (inl err, c') => (Some err, c')
    | (inr _, c') => (None, c')
    end.

(** [getSource(ctx, terraform)]. *)
Definition getSource (terraform : infrav1.Terraform)
  : State C (sourcev1.Source + error) :=
  let ref := infrav1.SourceRef (infrav1.Spec terraform) in
  let sourceNamespace :=
    if negb (String.eqb (infrav1.Namespace ref) "")
    then infrav1.Namespace ref
    else metav1.Namespace (infrav1.ObjectMeta terraform) in
  let namespacedName := types.mkNamespacedName sourceNamespace (infrav1.Name ref) in
  if String.eqb (infrav1.Kind ref) sourcev1.GitRepositoryKind
     || String.eqb (infrav1.Kind ref) sourcev1.BucketKind
     || String.eqb (infrav1.Kind ref) sourcev1.OCIRepositoryKind
  then
    r <-- GetSource (infrav1.Kind ref) namespacedName ;;
    match r with
    | inl sourceObj => ret (inl sourceObj)
    | inr err =>
        if apierrors.IsNotFound err then ret (inr err)
        else ret (inr (Wrapf ("unable to get source '"
                              +:+ types.String namespacedName +:+ "': ") err))
    end
  else
    ret (inr (Errorf ("source `" +:+ infrav1.Name ref +:+ "` kind '"
                      +:+ infrav1.Kind ref +:+ "' not supported"))).

(** [patchStatus(ctx, objectKey, newStatus)]. *)
Definition patchStatus (objectKey : types.NamespacedName)
  (newStatus : infrav1.TerraformStatus) : State C (option error) :=
  r <-- GetTerraform objectKey ;;
  match r with
  | inr err => ret (Some err)
  | inl terraform => StatusPatch (infrav1.set_Status terraform newStatus)
  end.

End Dependencies.

(** *** The reconciliation loop *)

(** What the loop does to the world outside the cluster's objects, in
    order. *)
Inductive Action : Type :=
| TriggerCARotation
| CloseConn
| Finalize (terraform : infrav1.Terraform)
| RunReconcile (terraform : infrav1.Terraform)
| AnnotatedEvent (revision : string) (eventType reason msg : string)
| ReadinessMetric (terraform : infrav1.Terraform)
| SuspensionMetric (terraform : infrav1.Terraform).


(** The parts of the reconciler that are declared in other files of the
    repository or outside it, taken as parameters: the certificate rotator,
    the runner lifecycle, [finalize], the plan/apply/drift cycle
    [reconcile], the approval predicates [shouldApply] and
    [forceOrAutoApply], the environment and two [String()] methods. *)
Record Collaborators (C : Type) : Type := mkCollaborators {
  IsCAValid : bool;
  hasTriggerCARotation : bool;
  LookupOrCreateRunner : infrav1.Terraform -> State C (bool * option error);
  cleanupRunnerPod : infrav1.Terraform -> State C unit;
  finalize : infrav1.Terraform -> sourcev1.Source -> State C (ctrl.Result * option error);
  reconcile : infrav1.Terraform -> sourcev1.Source
              -> State C (infrav1.Terraform * option error);
  shouldApply : infrav1.Terraform -> bool;
  forceOrAutoApply : infrav1.Terraform -> bool;
  INSECURE_LOCAL_RUNNER : string;
  SourceRefString : infrav1.CrossNamespaceSourceReference -> string;
  DurationString : metav1.Duration -> string
}.

Arguments IsCAValid {C}.
Arguments hasTriggerCARotation {C}.
Arguments LookupOrCreateRunner {C}.
Arguments cleanupRunnerPod {C}.
Arguments finalize {C}.
Arguments reconcile {C}.
Arguments shouldApply {C}.
Arguments forceOrAutoApply {C}.
Arguments INSECURE_LOCAL_RUNNER {C}.
Arguments SourceRefString {C}.
Arguments DurationString {C}.

(** The state one reconciliation runs in. *)
Record World (C : Type) : Type := mkWorld {
  cluster : C;
  clock : metav1.Clock;
  log : list Action
}.

Arguments mkWorld {C}.
Arguments cluster {C}.
Arguments clock {C}.
Arguments log {C}.

Definition EventSeverityInfo : string := "info".
Definition EventSeverityError : string := "error".

Section Reconciler.

Context {C : Type} `{Client C} (r : Collaborators C).

Definition onCluster {A} (m : State C A) : State (World C) A :=
  fun w => let (a, c) := m (cluster w) in (a, mkWorld c (clock w) (log w)).

Definition onClock {A} (m : State metav1.Clock A) : State (World C) A :=
  fun w => let (a, k) := m (clock w) in (a, mkWorld (cluster w) k (log w)).

Definition act (a : Action) : State (World C) unit :=
  modify (fun w => mkWorld (cluster w) (clock w) (log w ++ [a])).

(** [r.event(ctx, terraform, revision, severity, msg, nil)]. *)
Definition event (terraform : infrav1.Terraform) (revision severity msg : string)
  : State (World C) unit :=
  let reason :=
    match apimeta.FindStatusCondition
            (infrav1.Conditions (infrav1.Status terraform)) meta.ReadyCondition with
    | Some c => metav1.Reason c
    | None => severity
    end in
  let eventType :=
    if String.eqb severity EventSeverityError then "Warning" else "Normal" in
  act (AnnotatedEvent revision eventType reason msg).

Definition recordReadinessMetric (terraform : infrav1.Terraform)
  : State (World C) unit :=
  act (ReadinessMetric terraform).

Definition recordSuspensionMetric (terraform : infrav1.Terraform)
  : State (World C) unit :=
  act (SuspensionMetric terraform).

Definition Outcome : Type := (ctrl.Result * option error)%type.

(** [r.patchStatus] followed by the [return ctrl.Result{Requeue: true}, err]
    that every call site has. *)
Definition patchStatusOrReturn (key : types.NamespacedName)
  (status : infrav1.TerraformStatus) : Proc (World C) Outcome unit :=
  e <~ lift (onCluster (patchStatus key status)) ;;
  match e with
  | Some err => Return (ctrl.RequeueNow, Some err)
  | None => pret tt
  end.

(** The deferred runner cleanup. *)
Definition runnerCleanup (closeConn : bool) (terraform : infrav1.Terraform)
  : State (World C) unit :=
  (if closeConn then act CloseConn else ret tt) ;;;
  if String.eqb (INSECURE_LOCAL_RUNNER r) "1" then ret tt
  else if infrav1.GetAlwaysCleanupRunnerPod (infrav1.Spec terraform)
  then onCluster (cleanupRunnerPod r terraform)
  else ret tt.

Definition dependantsOf (terraform : infrav1.Terraform) : list string :=
  map (fun finalizer => strings.TrimPrefix finalizer infrav1.TFDependencyOfPrefix)
    (List.filter (fun finalizer =>
                    strings.HasPrefix finalizer infrav1.TFDependencyOfPrefix)
       (metav1.Finalizers (infrav1.ObjectMeta terraform))).

Definition clearPending (terraform : infrav1.Terraform) : infrav1.Terraform :=
  let p := infrav1.Plan (infrav1.Status terraform) in
  infrav1.upd infrav1.set_Plan terraform
    (infrav1.PlanStatus.mk (infrav1.PlanStatus.LastApplied p) ""
       (infrav1.PlanStatus.IsDestroyPlan p)
       (infrav1.PlanStatus.IsDriftDetectionPlan p)).

Definition pendingPlan (terraform : infrav1.Terraform) : string :=
  infrav1.PlanStatus.Pending (infrav1.Plan (infrav1.Status terraform)).

(** Lines 98 to 336 of [Reconcile], after the object is fetched and up to
    the runner: every step that can stop the attempt before the plan is
    looked at.  It goes on with the object, the source, its artifact and
    whether there is a connection to close. *)
Definition Reconcile_prepare (req : types.NamespacedName)
  (terraform : infrav1.Terraform)
  : Proc (World C) Outcome
      (infrav1.Terraform * sourcev1.Source * sourcev1.Artifact * bool) :=
  (* add our finalizer if it does not exist *)
  terraform <~
    (if negb (controllerutil.ContainsFinalizer terraform infrav1.TerraformFinalizer)
     then
       let terraform :=
         controllerutil.AddFinalizer terraform infrav1.TerraformFinalizer in
       e <~ lift (onCluster (Patch terraform)) ;;
       match e with
       | Some err => Return (ctrl.NoRequeue, Some err)
       | None => pret terraform
       end
     else pret terraform) ;;
  (* return early if the Terraform is suspended *)
  (if infrav1.Suspend (infrav1.Spec terraform)
   then Return (ctrl.NoRequeue, None) else pret tt) ;;~
  (* under deletion, blocked by dependants *)
  (if isBeingDeleted terraform
      && (0 <? length (dependantsOf terraform))%nat
   then
     let msg := "Deletion in progress, but blocked. Please delete "
                +:+ strings.Join (dependantsOf terraform) ", "
                +:+ " to resume ..." in
     terraform <~ lift (onClock (infrav1.TerraformNotReady terraform ""
                                   infrav1.DeletionBlockedByDependants msg)) ;;
     patchStatusOrReturn req (infrav1.Status terraform) ;;~
     Return (ctrl.After (infrav1.GetRetryInterval terraform), None)
   else pret tt) ;;~
  (* resolve source reference *)
  got <~ lift (onCluster (getSource terraform)) ;;
  sourceObj <~
    match got with
    | inl sourceObj => pret sourceObj
    | inr err =>
        if apierrors.IsNotFound err then
          let msg := "Source '"
                     +:+ SourceRefString r (infrav1.SourceRef (infrav1.Spec terraform))
                     +:+ "' not found" in
          terraform <~ lift (onClock (infrav1.TerraformNotReady terraform ""
                                        infrav1.ArtifactFailedReason msg)) ;;
          patchStatusOrReturn req (infrav1.Status terraform) ;;~
          lift (recordReadinessMetric terraform) ;;~
          Return (ctrl.After (infrav1.GetRetryInterval terraform), None)
        else Return (ctrl.RequeueNow, Some err)
    end ;;
  (* the source has no artifact yet *)
  artifact <~
    match sourcev1.GetArtifact sourceObj with
    | Some artifact => pret artifact
    | None =>
        let msg := "Source is not ready, artifact not found" in
        terraform <~ lift (onClock (infrav1.TerraformNotReady terraform ""
                                      infrav1.ArtifactFailedReason msg)) ;;
        patchStatusOrReturn req (infrav1.Status terraform) ;;~
        lift (recordReadinessMetric terraform) ;;~
        Return (ctrl.After (infrav1.GetRetryInterval terraform), None)
    end ;;
  (* check dependencies, if not being deleted *)
  (if (0 <? length (infrav1.DependsOn (infrav1.Spec terraform)))%nat
      && negb (isBeingDeleted terraform)
   then
     e <~ lift (onCluster (checkDependencies sourceObj terraform)) ;;
     match e with
     | Some err =>
         terraform <~ lift (onClock (infrav1.TerraformNotReady terraform
                                       (sourcev1.Revision artifact)
                                       infrav1.DependencyNotReadyReason (Error err))) ;;
         patchStatusOrReturn req (infrav1.Status terraform) ;;~
         let msg := "Dependencies do not meet ready condition, retrying in "
                    +:+ DurationString r (infrav1.GetRetryInterval terraform) in
         lift (event terraform (sourcev1.Revision artifact) EventSeverityInfo msg) ;;~
         lift (recordReadinessMetric terraform) ;;~
         Return (ctrl.After (infrav1.GetRetryInterval terraform), None)
     | None => pret tt
     end
   else pret tt) ;;~
  (* skip the status update while the ready condition is still unknown *)
  terraform <~
    (let ready := apimeta.FindStatusCondition
                    (infrav1.Conditions (infrav1.Status terraform))
                    meta.ReadyCondition in
     if match ready with
        | None => true
        | Some c => negb (metav1.ConditionStatus_eqb (metav1.Status c)
                            metav1.ConditionUnknown)
        end
     then
       let msg := if isBeingDeleted terraform then "Deletion in progress"
                  else "Reconciliation in progress" in
       terraform <~ lift (onClock (infrav1.TerraformProgressing terraform msg)) ;;
       patchStatusOrReturn req (infrav1.Status terraform) ;;~
       lift (recordReadinessMetric terraform) ;;~
       pret terraform
     else pret terraform) ;;
  (* create the runner pod, wait for it to start *)
  looked <~ lift (onCluster (LookupOrCreateRunner r terraform)) ;;
  match looked with
  | (closeConn, Some err) =>
      lift (if closeConn then act CloseConn else ret tt) ;;~
      Return (ctrl.NoRequeue, Some err)
  | (closeConn, None) => pret (terraform, sourceObj, artifact, closeConn)
  end.

(** Lines 329 to 336: the finalization of an object under deletion. *)
Definition Reconcile_finalize (terraform : infrav1.Terraform)
  (sourceObj : sourcev1.Source) : Proc (World C) Outcome unit :=
  if negb (metav1.IsZeroPtr (metav1.DeletionTimestamp (infrav1.ObjectMeta terraform)))
  then
    lift (act (Finalize terraform)) ;;~
    res <~ lift (onCluster (finalize r terraform sourceObj)) ;;
    match res with
    | (result, Some err) => Return (result, Some err)
    | (_, None) => pret tt
    end
  else pret tt.

(** Lines 338 to 355: the stale pending plan, and the manual-approval
    gate.  It goes on with the object the cycle is run on. *)
Definition Reconcile_gate (req : types.NamespacedName)
  (terraform : infrav1.Terraform) (sourceObj : sourcev1.Source)
  (artifact : sourcev1.Artifact) : Proc (World C) Outcome infrav1.Terraform :=
  (* revision changed and no intent to apply: clear the pending plan *)
  terraform <~
    (if negb (String.eqb (sourcev1.Revision artifact)
                (infrav1.LastAttemptedRevision (infrav1.Status terraform)))
        && negb (shouldApply r terraform)
     then
       let terraform := clearPending terraform in
       patchStatusOrReturn req (infrav1.Status terraform) ;;~
       pret terraform
     else pret terraform) ;;
  (* return early if it is manual mode and pending *)
  if negb (String.eqb (pendingPlan terraform) "")
     && negb (forceOrAutoApply r terraform)
     && negb (shouldApply r terraform)
  then Return (ctrl.NoRequeue, None)
  else pret terraform.

(** Lines 357 to 400: the cycle and the requeue decision.  [terraform]
    is the object the gate let through. *)
Definition Reconcile_cycle (req : types.NamespacedName)
  (terraform : infrav1.Terraform) (sourceObj : sourcev1.Source)
  (artifact : sourcev1.Artifact) : Proc (World C) Outcome Outcome :=
  lift (act (RunReconcile terraform)) ;;~
  res <~ lift (onCluster (reconcile r terraform sourceObj)) ;;
  let '(reconciledTerraform, reconcileErr) := res in
  patchStatusOrReturn req (infrav1.Status reconciledTerraform) ;;~
  lift (recordReadinessMetric reconciledTerraform) ;;~
  match reconcileErr with
  | Some err =>
      if String.eqb (Error err) infrav1.DriftDetectedReason
      then Return (ctrl.After (infrav1.GetRetryInterval terraform), None)
      else
        lift (event reconciledTerraform (sourcev1.Revision artifact)
                EventSeverityError (Error err)) ;;~
        Return (ctrl.After (infrav1.GetRetryInterval terraform), None)
  | None =>
      if negb (String.eqb (pendingPlan reconciledTerraform) "")
         && negb (forceOrAutoApply r reconciledTerraform)
      then Return (ctrl.NoRequeue, None)
      else Return (ctrl.After (infrav1.Interval (infrav1.Spec terraform)), None)
  end.

(** The body of [Reconcile] once the object is fetched. *)
Definition Reconcile_fetched (req : types.NamespacedName)
  (terraform : infrav1.Terraform) : Proc (World C) Outcome Outcome :=
  prepared <~ Reconcile_prepare req terraform ;;
  let '(terraform, sourceObj, artifact, closeConn) := prepared in
  Defer (runnerCleanup closeConn terraform)
    (Reconcile_finalize terraform sourceObj ;;~
     terraform <~ Reconcile_gate req terraform sourceObj artifact ;;
     Reconcile_cycle req terraform sourceObj artifact).

(** Lines 106 to 117: a rotation of the certificate authority is asked for
    when it is not valid.  (The waits on the rotator's channels block; they
    do nothing else.) *)
Definition certRotation : State (World C) unit :=
  if negb (IsCAValid r) && hasTriggerCARotation r
  then act TriggerCARotation else ret tt.

(** [Reconcile(ctx, req)]. *)
Definition Reconcile (req : types.NamespacedName) : State (World C) Outcome :=
  run
    (lift certRotation ;;~
     got <~ lift (onCluster (GetTerraform req)) ;;
     match got with
     | inr err =>
         Return (ctrl.NoRequeue,
                 if apierrors.IsNotFound err then None else Some err)
     | inl terraform =>
         Defer (recordSuspensionMetric terraform) (Reconcile_fetched req terraform)
     end).

End Reconciler.

(** *** The helpers beside the loop *)

(** [shortRev(revision)]: [None] is the panic of a slice out of range. *)
Definition shortRev (revision : string) : option string :=
  let maxLength := 8 in
  if strings.Contains revision "/"
  then strings.slice_checked revision 0 (strings.Index revision "/" + maxLength)
  else strings.slice_checked revision 0 maxLength.

(** [IndexBy(kind)(o)], for a Terraform object [o]. *)
Definition IndexBy (kind : string) (terraform : infrav1.Terraform) : list string :=
  let ref := infrav1.SourceRef (infrav1.Spec terraform) in
  if String.eqb (infrav1.Kind ref) kind then
    let namespace :=
      if negb (String.eqb (infrav1.Namespace ref) "")
      then infrav1.Namespace ref
      else metav1.Namespace (infrav1.ObjectMeta terraform) in
    [namespace +:+ "/" +:+ infrav1.Name ref]
  else [].

(** [requestsForRevisionChangeOf(indexKey)(obj)], for a source [obj] named
    [objKey].  [List] is [r.List] with [client.MatchingFields{indexKey: value}]
    and [Sort] is [dependency.Sort], both outside the repository. *)
Definition requestsForRevisionChangeOf
  (List : string -> string -> list infrav1.Terraform + error)
  (Sort : list infrav1.Terraform -> list meta.NamespacedObjectReference + error)
  (indexKey : string) (objKey : types.NamespacedName) (obj : sourcev1.Source)
  : list types.NamespacedName :=
  match sourcev1.GetArtifact obj with
  | None => []
  | Some artifact =>
      match List indexKey (types.String objKey) with
      | inr _ => []
      | inl items =>
          let dd :=
            List.filter
              (fun d => negb (String.eqb (sourcev1.Revision artifact)
                                (infrav1.LastAttemptedRevision (infrav1.Status d))))
              items in
          match Sort dd with
          | inr _ => []
          | inl sorted =>
              map (fun t => types.mkNamespacedName (meta.Namespace t) (meta.Name t))
                sorted
          end
      end
  end.

End controllers.

(** ** A cluster held in finite maps

    An implementation of [Client] in the manner of controller-runtime's fake
    client: objects by namespace and name, sources by kind too, the names of
    the secrets, and a switch that makes every write fail. *)

Module fake.

Record Cluster : Type := mkCluster {
  terraforms : gmap (string * string) infrav1.Terraform;
  sources : gmap (string * (string * string)) sourcev1.Source;
  secrets : gset (string * string);
  readOnly : bool
}.

Definition key (n : types.NamespacedName) : string * string :=
  (types.Namespace n, types.Name n).

Definition keyOf (tf : infrav1.Terraform) : string * string :=
  (metav1.Namespace (infrav1.ObjectMeta tf), metav1.Name (infrav1.ObjectMeta tf)).

Definition notFound (n : types.NamespacedName) : error :=
  NotFound (types.String n +:+ " not found").

Definition get (n : types.NamespacedName) : State Cluster (infrav1.Terraform + error) :=
  fun c =>
    match terraforms c !! key n with
    | Some tf => (inl tf, c)
    | None => (inr (notFound n), c)
    end.

Definition getSource (kind : string) (n : types.NamespacedName)
  : State Cluster (sourcev1.Source + error) :=
  fun c =>
    match sources c !! (kind, key n) with
    | Some src => (inl src, c)
    | None => (inr (notFound n), c)
    end.

Definition getSecret (n : types.NamespacedName) : State Cluster (option error) :=
  fun c =>
    if bool_decide (key n ∈ secrets c) then (None, c)
    else (Some (notFound n), c).

(** A write replaces, in the stored object, the part [merge] takes from the
    object given. *)
Definition write (merge : infrav1.Terraform -> infrav1.Terraform -> infrav1.Terraform)
  (tf : infrav1.Terraform) : State Cluster (option error) :=
  fun c =>
    if readOnly c then (Some (Failure "the cluster is read-only"), c)
    else
      match terraforms c !! keyOf tf with
      | None =>
          (Some (NotFound (types.String (types.mkNamespacedName (fst (keyOf tf))
                                           (snd (keyOf tf))) +:+ " not found")), c)
      | Some stored =>
          (None, mkCluster (<[keyOf tf := merge stored tf]> (terraforms c))
                   (sources c) (secrets c) (readOnly c))
      end.

(** [Patch] writes metadata and spec, [Status().Patch] the status. *)
Definition patch : infrav1.Terraform -> State Cluster (option error) :=
  write (fun stored tf => infrav1.set_Status tf (infrav1.Status stored)).

Definition statusPatch : infrav1.Terraform -> State Cluster (option error) :=
  write (fun stored tf => infrav1.set_Status stored (infrav1.Status tf)).

#[global] Instance client : Client Cluster := {
  GetTerraform := get;
  GetSource := getSource;
  GetSecret := getSecret;
  Patch := patch;
  StatusPatch := statusPatch
}.

End fake.

(** ** The approval predicates

    Modelled from the spec: [shouldApply] and [forceOrAutoApply] are methods
    of the reconciler declared in another file of the repository.  Approval
    is forced by the force flag, automatic when the approval field is
    ["auto"], and otherwise names a plan: applying is called for when
    approval is forced, automatic, or names the pending plan id exactly. *)

Module approval.

Definition forceOrAutoApply (tf : infrav1.Terraform) : bool :=
  infrav1.Force (infrav1.Spec tf)
  || String.eqb (infrav1.ApprovePlan (infrav1.Spec tf)) infrav1.ApprovePlanAutoValue.

Definition shouldApply (tf : infrav1.Terraform) : bool :=
  forceOrAutoApply tf
  || String.eqb (infrav1.ApprovePlan (infrav1.Spec tf)) (controllers.pendingPlan tf).

End approval.

(** ** Concrete objects *)

Module examples.

(** A clock that starts at instant 100 and advances by one a reading. *)
Definition clock : metav1.Clock := metav1.mkClock (fun n => 100 + Z.of_nat n) 0.

Definition applied : metav1.Condition :=
  metav1.mkCondition "Apply" metav1.ConditionTrue 0 40
    "TerraformAppliedSucceed" "Applied successfully".

Definition planned : metav1.Condition :=
  metav1.mkCondition "Plan" metav1.ConditionTrue 0 30
    "TerraformPlannedWithChanges" "Plan generated".

Definition awaiting : metav1.Condition :=
  metav1.mkCondition "Ready" metav1.ConditionUnknown 0 50
    "TerraformPlannedWithChanges" "Plan generated".

Definition ready : metav1.Condition :=
  metav1.mkCondition "Ready" metav1.ConditionTrue 0 50
    "TerraformOutputsWritten" "Outputs written".

Definition repo : infrav1.CrossNamespaceSourceReference :=
  infrav1.mkSourceRef "GitRepository" "repo" "".

(** Manual approval, reconciled every 60, no retry interval. *)
Definition spec : infrav1.TerraformSpec :=
  infrav1.mkTerraformSpec "" false "default" 60 None repo false false None None [].

(** A plan for revision [main/abc] is pending. *)
Definition status : infrav1.TerraformStatus :=
  infrav1.mkTerraformStatus 1 [planned; awaiting] "" "main/abc" "main/abc"
    None None [] (infrav1.PlanStatus.mk "" "plan-main-abc" false false) None
    (infrav1.LockStatus.mk "" "").

Definition app : infrav1.Terraform :=
  infrav1.mkTerraform
    (metav1.mkObjectMeta "app" "infra" 1 None [infrav1.TerraformFinalizer])
    spec status.

(** An applied object on which drift was detected at instant 70. *)
Definition drifted : infrav1.Terraform :=
  infrav1.set_Status app
    (infrav1.mkTerraformStatus 1 [ready; applied] "main/abc" "main/abc" "main/abc"
       (Some 70) None [] (infrav1.PlanStatus.mk "plan-main-abc" "" false false) None
       (infrav1.LockStatus.mk "" "")).

Definition artifact : sourcev1.Artifact :=
  sourcev1.mkArtifact "http://source-controller/repo.tar.gz" "main/abc" "".

Definition source : sourcev1.Source := sourcev1.mkSource (Some artifact).

Definition request : types.NamespacedName := types.mkNamespacedName "infra" "app".

Definition cluster : fake.Cluster :=
  fake.mkCluster {[ ("infra", "app") := app ]}
    {[ ("GitRepository", ("infra", "repo")) := source ]} ∅ false.

(** Collaborators that succeed, with the approval predicates of the spec;
    the cycle hands its object back unchanged. *)
Definition collaborators : controllers.Collaborators fake.Cluster :=
  controllers.mkCollaborators fake.Cluster true false
    (fun _ => ret (true, None))
    (fun _ => ret tt)
    (fun _ _ => ret (ctrl.NoRequeue, None))
    (fun tf _ => ret (tf, None))
    approval.shouldApply approval.forceOrAutoApply ""
    (fun ref => infrav1.Kind ref +:+ "/" +:+ infrav1.Name ref)
    (fun _ => "1m0s").

Definition world : controllers.World fake.Cluster :=
  controllers.mkWorld cluster clock [].

(** A dependency [base] of [app] on the same source: Ready, but its spec
    (generation 2) was not observed yet. *)
Definition base : infrav1.Terraform :=
  infrav1.mkTerraform
    (metav1.mkObjectMeta "base" "infra" 2 None [infrav1.TerraformFinalizer])
    spec
    (infrav1.mkTerraformStatus 1 [ready; applied] "main/abc" "main/abc" "main/abc"
       None None [] (infrav1.PlanStatus.mk "plan-main-abc" "" false false) None
       (infrav1.LockStatus.mk "" "")).

(** The same dependency, observed, still at the revision [main/abc]. *)
Definition baseObserved : infrav1.Terraform :=
  infrav1.set_ObjectMeta base
    (metav1.mkObjectMeta "base" "infra" 1 None [infrav1.TerraformFinalizer]).

Definition dependsOnBase : meta.NamespacedObjectReference :=
  meta.mkNamespacedObjectReference "base" "".

(** [app] declaring the dependency. *)
Definition dependent : infrav1.Terraform :=
  infrav1.mkTerraform (infrav1.ObjectMeta app)
    (infrav1.mkTerraformSpec "" false "default" 60 None repo false false None None
       [dependsOnBase])
    status.

Definition clusterWith (dependency : infrav1.Terraform) : fake.Cluster :=
  fake.mkCluster {[ ("infra", "app") := dependent; ("infra", "base") := dependency ]}
    {[ ("GitRepository", ("infra", "repo")) := source ]} ∅ false.

(** The source has moved on to [main/def]. *)
Definition newSource : sourcev1.Source :=
  sourcev1.mkSource
    (Some (sourcev1.mkArtifact "http://source-controller/repo.tar.gz" "main/def" "")).

(** A stand-in for the two hash functions: the digest is the input. *)
Definition digest (bytes : string) : string := bytes.

(** An artifact whose body is [ok], with the checksum of that body under
    [digest], and an HTTP client that serves it. *)
Definition body : controllers.Reader := controllers.mkReader "ok" None.

Definition checked : sourcev1.Artifact :=
  sourcev1.mkArtifact "http://source-controller/repo.tar.gz" "main/abc" "6f6b".

Definition http : controllers.HTTP :=
  controllers.mkHTTP "" (fun url _ => inl url) (fun _ => None)
    (fun _ => inl (controllers.mkResponse 200 "200 OK" body)).

(** The same object before any plan: nothing is pending. *)
Definition fresh : infrav1.Terraform :=
  infrav1.set_Status app
    (infrav1.mkTerraformStatus 1 [awaiting] "" "main/abc" "" None None []
       (infrav1.PlanStatus.mk "" "" false false) None (infrav1.LockStatus.mk "" "")).

Definition freshWorld : controllers.World fake.Cluster :=
  controllers.mkWorld
    (fake.mkCluster {[ ("infra", "app") := fresh ]}
       {[ ("GitRepository", ("infra", "repo")) := source ]} ∅ false)
    clock [].


(** A world in which the source of [app] does not exist. *)
Definition sourceless : controllers.World fake.Cluster :=
  controllers.mkWorld (fake.mkCluster {[ ("infra", "app") := app ]} ∅ ∅ false) clock [].

(** A message one byte longer than [MaxConditionMessageLength]. *)
Fixpoint replicate (n : nat) (b : ascii) : string :=
  match n with
  | O => EmptyString
  | S n => String b (replicate n b)
  end.

Definition longMessage : string :=
  replicate (Z.to_nat (infrav1.MaxConditionMessageLength + 1)) "x"%char.

(** [app], suspended. *)
Definition suspended : infrav1.Terraform :=
  infrav1.mkTerraform (infrav1.ObjectMeta app)
    (infrav1.mkTerraformSpec "" false "default" 60 None repo true false None None [])
    status.

(** [app] with a source of a kind the controller does not know. *)
Definition charted : infrav1.Terraform :=
  infrav1.mkTerraform (infrav1.ObjectMeta app)
    (infrav1.mkTerraformSpec "" false "default" 60 None
       (infrav1.mkSourceRef "HelmChart" "chart" "") false false None None [])
    status.

(** [base] under deletion since instant 90, with the finalizer of its
    dependant [app]. *)
Definition deleting : infrav1.Terraform :=
  infrav1.set_ObjectMeta baseObserved
    (metav1.mkObjectMeta "base" "infra" 1 (Some 90)
       [infrav1.TerraformFinalizer; "tf.dependency.of.app"]).

(** A world whose cluster holds the object [tf] and the source [repo]. *)
Definition worldOf (tf : infrav1.Terraform) : controllers.World fake.Cluster :=
  controllers.mkWorld
    (fake.mkCluster {[ fake.keyOf tf := tf ]}
       {[ ("GitRepository", ("infra", "repo")) := source ]} ∅ false)
    clock [].

(** Stand-ins for [r.List] and [dependency.Sort]: every object is listed
    under every key, and sorting keeps the order. *)
Definition listed (items : list infrav1.Terraform)
  : string -> string -> list infrav1.Terraform + error :=
  fun _ _ => inl items.

Definition unsorted (dd : list infrav1.Terraform)
  : list meta.NamespacedObjectReference + error :=
  inl (map (fun d => meta.mkNamespacedObjectReference
                       (metav1.Name (infrav1.ObjectMeta d))
                       (metav1.Namespace (infrav1.ObjectMeta d))) dd).

End examples.

(** ** Notions the statements use *)

(** [downloadAsBytes] gets as far as verifying the body [reader]: the
    request is made, and answered with status 200 and that body. *)
Definition fetches (http : controllers.HTTP) (artifact : sourcev1.Artifact)
  (reader : controllers.Reader) : Prop :=
  exists url resp,
    controllers.artifactURL http artifact = inl url
    /\ controllers.NewRequest http url = None
    /\ controllers.Do http url = inl resp
    /\ controllers.StatusCode resp = controllers.StatusOK
    /\ controllers.Body resp = reader.

(** The clock [k'] is the clock [k] after some readings. *)
Definition extends (k k' : metav1.Clock) : Prop :=
  metav1.readings k' = metav1.readings k
  /\ (metav1.reads k <= metav1.reads k')%nat.




(** The object the first gate lets through: no plan is pending, or one of
    the approval predicates holds. *)
Definition gateOpen {C : Type} (r : controllers.Collaborators C)
  (tf : infrav1.Terraform) : Prop :=
  controllers.pendingPlan tf = ""
  \/ controllers.forceOrAutoApply r tf = true
  \/ controllers.shouldApply r tf = true.

(** An action the loop may take: the cycle is run on objects the gate lets
    through only. *)
Definition gated {C : Type} (r : controllers.Collaborators C)
  (a : controllers.Action) : Prop :=
  match a with
  | controllers.RunReconcile tf => gateOpen r tf
  | _ => True
  end.

(** The requeue directives [Reconcile] decides for the object [fetched]
    itself: none, at once, after the retry interval, or after the interval.
    (The result of a failed finalization of an object under deletion is the
    finalizer's own.) *)
Definition decided (fetched : infrav1.Terraform) (o : controllers.Outcome) : Prop :=
  controllers.isBeingDeleted fetched = true
  \/ ctrl.RequeueAfter (fst o) = 0
  \/ ctrl.RequeueAfter (fst o) = infrav1.GetRetryInterval fetched
  \/ ctrl.RequeueAfter (fst o) = infrav1.Interval (infrav1.Spec fetched).

(** The object the loop works on keeps the spec and the deletion timestamp
    of the object fetched. *)
Definition sameObject (fetched tf : infrav1.Terraform) : Prop :=
  infrav1.Spec tf = infrav1.Spec fetched
  /\ metav1.DeletionTimestamp (infrav1.ObjectMeta tf)
     = metav1.DeletionTimestamp (infrav1.ObjectMeta fetched).

Section Attempt.

Context {C : Type} `{Client C} (r : controllers.Collaborators C).



(** A procedure that adds only actions satisfying [P] to the log, returns
    only values satisfying [QR] and goes on only with values satisfying
    [QA]. *)
Definition triple {R A : Type} (P : controllers.Action -> Prop)
  (QR : R -> Prop) (QA : A -> Prop) (p : Proc (controllers.World C) R A) : Prop :=
  forall w,
    (exists added,
        controllers.log (snd (p w)) = (controllers.log w ++ added)%list
        /\ Forall P added)
    /\ match fst (p w) with
       | inl res => QR res
       | inr a => QA a
       end.

(** The same for a step that cannot return. *)
Definition step {A : Type} (P : controllers.Action -> Prop) (QA : A -> Prop)
  (m : State (controllers.World C) A) : Prop :=
  forall w,
    (exists added,
        controllers.log (snd (m w)) = (controllers.log w ++ added)%list
        /\ Forall P added)
    /\ QA (fst (m w)).

End Attempt.

(** ** The status transitions as one family *)

(** A call of one of the functions of the file that change the status. *)
Inductive Transition : Type :=
| Readiness (status : metav1.ConditionStatus) (reason message revision : string)
| Applying (revision message : string)
| OutputsAvailable (availableOutputs : list string) (message : string)
| OutputsWritten (revision message : string)
| Applied (revision message : string) (isDestroyApply : bool)
    (entries : list infrav1.ResourceRef)
| PostPlanningWebhookFailed (revision message : string)
| PlannedWithChanges (revision : string) (forceOrAutoApply : bool) (message : string)
| PlannedNoChanges (revision message : string)
| Progressing (message : string)
| NotReady (revision reason message : string)
| AppliedFailResetPlanAndNotReady (revision reason message : string)
| DriftDetected (revision reason message : string)
| NoDrift (revision reason message : string)
| HealthCheckFailed (message : string)
| HealthCheckSucceeded (message : string)
| ForceUnlock (message : string)
| StateLocked (lockID message : string).

Definition transition (t : Transition) (tf : infrav1.Terraform)
  : State metav1.Clock infrav1.Terraform :=
  match t with
  | Readiness status reason message revision =>
      infrav1.SetTerraformReadiness tf status reason message revision
  | Applying revision message => infrav1.TerraformApplying tf revision message
  | OutputsAvailable availableOutputs message =>
      infrav1.TerraformOutputsAvailable tf availableOutputs message
  | OutputsWritten revision message => infrav1.TerraformOutputsWritten tf revision message
  | Applied revision message isDestroyApply entries =>
      infrav1.TerraformApplied tf revision message isDestroyApply entries
  | PostPlanningWebhookFailed revision message =>
      infrav1.TerraformPostPlanningWebhookFailed tf revision message
  | PlannedWithChanges revision forceOrAutoApply message =>
      infrav1.TerraformPlannedWithChanges tf revision forceOrAutoApply message
  | PlannedNoChanges revision message =>
      infrav1.TerraformPlannedNoChanges tf revision message
  | Progressing message => infrav1.TerraformProgressing tf message
  | NotReady revision reason message =>
      infrav1.TerraformNotReady tf revision reason message
  | AppliedFailResetPlanAndNotReady revision reason message =>
      infrav1.TerraformAppliedFailResetPlanAndNotReady tf revision reason message
  | DriftDetected revision reason message =>
      infrav1.TerraformDriftDetected tf revision reason message
  | NoDrift revision reason message => infrav1.TerraformNoDrift tf revision reason message
  | HealthCheckFailed message => infrav1.TerraformHealthCheckFailed tf message
  | HealthCheckSucceeded message => infrav1.TerraformHealthCheckSucceeded tf message
  | ForceUnlock message => infrav1.TerraformForceUnlock tf message
  | StateLocked lockID message => infrav1.TerraformStateLocked tf lockID message
  end.

(** What the transition does to the Ready condition: the status it sets, or
    nothing. *)
Definition readiness (t : Transition) : option metav1.ConditionStatus :=
  match t with
  | Readiness status _ _ _ => Some status
  | OutputsWritten _ _ | PlannedNoChanges _ _ | NoDrift _ _ _ => Some metav1.ConditionTrue
  | Applied _ _ _ _ | PlannedWithChanges _ _ _ | Progressing _ =>
      Some metav1.ConditionUnknown
  | NotReady _ _ _ | AppliedFailResetPlanAndNotReady _ _ _ | DriftDetected _ _ _
  | StateLocked _ _ => Some metav1.ConditionFalse
  | Applying _ _ | OutputsAvailable _ _ | PostPlanningWebhookFailed _ _
  | HealthCheckFailed _ | HealthCheckSucceeded _ | ForceUnlock _ => None
  end.

(** The revision the transition passes to [SetTerraformReadiness], when it
    calls it. *)
Definition attempted (t : Transition) : option string :=
  match t with
  | Readiness _ _ _ revision | OutputsWritten revision _ | Applied revision _ _ _
  | PlannedWithChanges revision _ _ | PlannedNoChanges revision _
  | NotReady revision _ _ | AppliedFailResetPlanAndNotReady revision _ _
  | DriftDetected revision _ _ | NoDrift revision _ _ => Some revision
  | StateLocked _ _ => Some ""
  | _ => None
  end.

(** The conditions [cs'] come from [cs] by setting conditions whose message
    went through [trimString]. *)
Inductive upserts : list metav1.Condition -> list metav1.Condition -> Prop :=
| upserts_refl (cs : list metav1.Condition) : upserts cs cs
| upserts_step (cs cs' : list metav1.Condition) (type : string)
    (status : metav1.ConditionStatus) (reason message : string) (k : metav1.Clock) :
    upserts cs cs' ->
    upserts cs
      (fst (apimeta.SetStatusCondition cs'
              (infrav1.newCondition type status reason
                 (infrav1.trimString message infrav1.MaxConditionMessageLength)) k)).

(** No two conditions have the same type. *)
Definition uniqueTypes (cs : list metav1.Condition) : Prop :=
  NoDup (map metav1.Type_ cs).

(** No message is longer than the limit and the three dots. *)
Definition boundedMessages (cs : list metav1.Condition) : Prop :=
  Forall (fun c => strings.len (metav1.Message c)
                   <= infrav1.MaxConditionMessageLength + 3) cs.

(** The readings of the clock never go back. *)
Definition monotone (k : metav1.Clock) : Prop :=
  forall n m, (n <= m)%nat -> metav1.readings k n <= metav1.readings k m.


(** ** What the loop is careful about *)

(** The object is not suspended, and no dependant's finalizer stands in the
    way of its deletion. *)
Definition unblocked (tf : infrav1.Terraform) : Prop :=
  infrav1.Suspend (infrav1.Spec tf) = false
  /\ (controllers.isBeingDeleted tf = true -> controllers.dependantsOf tf = []).

(** An action the loop may take: it finalizes objects under deletion that
    are not suspended and have no dependants left, and runs the cycle on
    objects that are not suspended. *)
Definition careful (a : controllers.Action) : Prop :=
  match a with
  | controllers.Finalize tf =>
      controllers.isBeingDeleted tf = true
      /\ infrav1.Suspend (infrav1.Spec tf) = false
      /\ controllers.dependantsOf tf = []
  | controllers.RunReconcile tf => infrav1.Suspend (infrav1.Spec tf) = false
  | _ => True
  end.

(** The same, for the actions before the deferred calls: the suspension
    metric is not among them. *)
Definition withinAttempt (a : controllers.Action) : Prop :=
  match a with
  | controllers.SuspensionMetric _ => False
  | _ => careful a
  end.

(** An error comes with no delay, unless the object fetched is under
    deletion (the result is then the finalizer's own). *)
Definition undelayed (fetched : infrav1.Terraform) (o : controllers.Outcome) : Prop :=
  controllers.isBeingDeleted fetched = true
  \/ snd o = None
  \/ ctrl.RequeueAfter (fst o) = 0.

(** * Properties of the status transitions *)

Section StateMonad.

Context {S A B : Type}.

Lemma bind_run (m : State S A) (f : A -> State S B) (s : S) :
  bind m f s = f (fst (m s)) (snd (m s)).
Proof. unfold bind. destruct (m s); reflexivity. Qed.

Lemma ret_run (a : A) (s : S) : ret a s = (a, s).
Proof. reflexivity. Qed.

End StateMonad.

(** ** [HasDrift] *)

Lemma driftedSince_true (d : option metav1.Time) (c : metav1.Condition) :
  infrav1.driftedSince d c = true <->
  metav1.Type_ c = infrav1.ConditionTypeApply
  /\ metav1.Status c = metav1.ConditionTrue
  /\ exists t, d = Some t /\ (metav1.LastTransitionTime c < t)%Z.
Proof.
  unfold infrav1.driftedSince. rewrite !andb_true_iff, String.eqb_eq.
  split.
  - intros [[Hty Hst] Hd]. split; [exact Hty|]. split.
    + destruct (metav1.Status c); simpl in Hst; congruence.
    + destruct d as [t|]; [|discriminate]. exists t. split; [reflexivity|].
      unfold metav1.After in Hd. apply Z.ltb_lt in Hd. exact Hd.
  - intros (Hty & Hst & t & -> & Hlt). repeat split.
    + exact Hty.
    + rewrite Hst. reflexivity.
    + unfold metav1.After. apply Z.ltb_lt. exact Hlt.
Qed.

Lemma HasDrift_loop_true (d : option metav1.Time) (conds : list metav1.Condition) :
  infrav1.HasDrift_loop d conds = true <->
  exists c, In c conds /\ infrav1.driftedSince d c = true.
Proof.
  induction conds as [|c conds IH]; simpl.
  - split; [discriminate | intros (c & [] & _)].
  - destruct (infrav1.driftedSince d c) eqn:Hc.
    + split; [|reflexivity]. intros _. exists c. auto.
    + rewrite IH. split.
      * intros (c' & Hin & Hd). exists c'. auto.
      * intros (c' & [<- | Hin] & Hd); [congruence|]. exists c'. auto.
Qed.

Lemma HasDrift_loop_perm (d : option metav1.Time) (l l' : list metav1.Condition) :
  Permutation l l' -> infrav1.HasDrift_loop d l = infrav1.HasDrift_loop d l'.
Proof.
  intros Hp.
  destruct (infrav1.HasDrift_loop d l) eqn:H1, (infrav1.HasDrift_loop d l') eqn:H2;
    try reflexivity.
  - apply HasDrift_loop_true in H1 as (c & Hin & Hc).
    assert (In c l') as Hin' by (eapply Permutation_in; eassumption).
    rewrite <- H2. symmetry. apply HasDrift_loop_true. exists c. auto.
  - apply HasDrift_loop_true in H2 as (c & Hin & Hc).
    assert (In c l) as Hin' by (eapply Permutation_in; [symmetry|]; eassumption).
    rewrite <- H1. apply HasDrift_loop_true. exists c. auto.
Qed.

(** C1. [HasDrift] is true exactly when some condition of type Apply has
    status True and the recorded drift instant is strictly after that
    condition's last transition; it is false when no drift instant is
    recorded and when no Apply condition is True; and reordering the
    conditions does not change it. *)
Theorem HasDrift_iff (tf : infrav1.Terraform) (conds' : list metav1.Condition)
  (Hperm : Permutation (infrav1.Conditions (infrav1.Status tf)) conds') :
  (infrav1.HasDrift tf = true <->
   exists c t,
     In c (infrav1.Conditions (infrav1.Status tf))
     /\ metav1.Type_ c = infrav1.ConditionTypeApply
     /\ metav1.Status c = metav1.ConditionTrue
     /\ infrav1.LastDriftDetectedAt (infrav1.Status tf) = Some t
     /\ (metav1.LastTransitionTime c < t)%Z)
  /\ (infrav1.LastDriftDetectedAt (infrav1.Status tf) = None ->
      infrav1.HasDrift tf = false)
  /\ ((forall c, In c (infrav1.Conditions (infrav1.Status tf)) ->
                 metav1.Type_ c = infrav1.ConditionTypeApply ->
                 metav1.Status c <> metav1.ConditionTrue) ->
      infrav1.HasDrift tf = false)
  /\ infrav1.HasDrift (infrav1.upd infrav1.set_Conditions tf conds')
     = infrav1.HasDrift tf.
Proof.
  assert (Hiff : infrav1.HasDrift tf = true <->
                 exists c t,
                   In c (infrav1.Conditions (infrav1.Status tf))
                   /\ metav1.Type_ c = infrav1.ConditionTypeApply
                   /\ metav1.Status c = metav1.ConditionTrue
                   /\ infrav1.LastDriftDetectedAt (infrav1.Status tf) = Some t
                   /\ (metav1.LastTransitionTime c < t)%Z).
  { unfold infrav1.HasDrift. rewrite HasDrift_loop_true. split.
    - intros (c & Hin & Hd). apply driftedSince_true in Hd as (Hty & Hst & t & Ht & Hlt).
      exists c, t. auto.
    - intros (c & t & Hin & Hty & Hst & Ht & Hlt). exists c. split; [exact Hin|].
      apply driftedSince_true. eauto. }
  split; [exact Hiff|]. split; [|split].
  - intros Hnone. apply not_true_is_false. intros E.
    apply Hiff in E as (c & t & _ & _ & _ & Ht & _). congruence.
  - intros Hno. apply not_true_is_false. intros E.
    apply Hiff in E as (c & t & Hin & Hty & Hst & _). eapply Hno; eassumption.
  - unfold infrav1.HasDrift. destruct tf as [m sp st]. destruct st. simpl in *.
    symmetry. apply HasDrift_loop_perm. exact Hperm.
Qed.

Lemma HasDrift_iff_witness :
  (infrav1.HasDrift examples.drifted = true <->
   exists c t,
     In c (infrav1.Conditions (infrav1.Status examples.drifted))
     /\ metav1.Type_ c = infrav1.ConditionTypeApply
     /\ metav1.Status c = metav1.ConditionTrue
     /\ infrav1.LastDriftDetectedAt (infrav1.Status examples.drifted) = Some t
     /\ (metav1.LastTransitionTime c < t)%Z)
  /\ (infrav1.LastDriftDetectedAt (infrav1.Status examples.drifted) = None ->
      infrav1.HasDrift examples.drifted = false)
  /\ ((forall c, In c (infrav1.Conditions (infrav1.Status examples.drifted)) ->
                 metav1.Type_ c = infrav1.ConditionTypeApply ->
                 metav1.Status c <> metav1.ConditionTrue) ->
      infrav1.HasDrift examples.drifted = false)
  /\ infrav1.HasDrift
       (infrav1.upd infrav1.set_Conditions examples.drifted
          [examples.applied; examples.ready])
     = infrav1.HasDrift examples.drifted.
Proof.
  apply (HasDrift_iff examples.drifted [examples.applied; examples.ready]).
  simpl. apply perm_swap.
Defined.

(** ** Strings *)

Lemma length_append (s1 s2 : string) :
  String.length (s1 +:+ s2) = (String.length s1 + String.length s2)%nat.
Proof. induction s1 as [|a s1 IH]; simpl; [reflexivity | rewrite IH; reflexivity]. Qed.

Lemma length_substring (s : string) (n m : nat) :
  (n + m <= String.length s)%nat -> String.length (substring n m s) = m.
Proof.
  revert n m. induction s as [|a s IH]; intros n m Hle; simpl in *.
  - destruct n, m; simpl in *; try reflexivity; lia.
  - destruct n as [|n].
    + destruct m as [|m]; [reflexivity|]. simpl. rewrite (IH 0%nat m); [reflexivity | lia].
    + apply IH. lia.
Qed.

Lemma length_replicate (n : nat) (b : ascii) :
  String.length (examples.replicate n b) = n.
Proof. induction n as [|n IH]; simpl; [reflexivity | rewrite IH; reflexivity]. Qed.

(** What [trimString] returns is as long as the input up to the limit, and
    three bytes longer than the limit beyond it. *)
Lemma trimString_length (str : string) (limit : Z) :
  0 <= limit ->
  strings.len (infrav1.trimString str limit)
  = if Z.leb (strings.len str) limit then strings.len str else limit + 3.
Proof.
  intros Hpos. unfold infrav1.trimString, strings.len, strings.slice.
  destruct (Z.leb (Z.of_nat (String.length str)) limit) eqn:Hle; [reflexivity|].
  apply Z.leb_gt in Hle.
  rewrite length_append, length_substring by lia. simpl String.length. lia.
Qed.

(** ** Conditions *)

Lemma ConditionStatus_eqb_eq (a b : metav1.ConditionStatus) :
  metav1.ConditionStatus_eqb a b = true <-> a = b.
Proof. destruct a, b; simpl; split; congruence. Qed.

Lemma updateExisting_run (old c : metav1.Condition) (k : metav1.Clock) :
  metav1.IsZero (metav1.LastTransitionTime c) = true ->
  fst (apimeta.updateExisting old c k)
  = metav1.mkCondition (metav1.Type_ old) (metav1.Status c)
      (metav1.ObservedGeneration c)
      (if metav1.ConditionStatus_eqb (metav1.Status old) (metav1.Status c)
       then metav1.LastTransitionTime old
       else metav1.readings k (metav1.reads k))
      (metav1.Reason c) (metav1.Message c).
Proof.
  intros Hz. unfold apimeta.updateExisting.
  destruct (metav1.ConditionStatus_eqb (metav1.Status old) (metav1.Status c)) eqn:E.
  - apply ConditionStatus_eqb_eq in E. rewrite E. reflexivity.
  - rewrite Hz. reflexivity.
Qed.

Lemma updateExisting_Type (old c : metav1.Condition) (k : metav1.Clock) :
  metav1.Type_ (fst (apimeta.updateExisting old c k)) = metav1.Type_ old.
Proof.
  unfold apimeta.updateExisting.
  destruct (metav1.ConditionStatus_eqb _ _); [reflexivity|].
  destruct (negb _); reflexivity.
Qed.

(** After [SetStatusCondition] the condition of the type set has the new
    status, reason and message; its transition time is the stored one when
    the stored status is the new status, and the clock's reading otherwise. *)
Lemma SetStatusCondition_find (conds : list metav1.Condition) (c : metav1.Condition)
  (k : metav1.Clock) :
  metav1.IsZero (metav1.LastTransitionTime c) = true ->
  apimeta.FindStatusCondition (fst (apimeta.SetStatusCondition conds c k)) (metav1.Type_ c)
  = Some (metav1.mkCondition (metav1.Type_ c) (metav1.Status c)
            (metav1.ObservedGeneration c)
            match apimeta.FindStatusCondition conds (metav1.Type_ c) with
            | Some old =>
                if metav1.ConditionStatus_eqb (metav1.Status old) (metav1.Status c)
                then metav1.LastTransitionTime old
                else metav1.readings k (metav1.reads k)
            | None => metav1.readings k (metav1.reads k)
            end
            (metav1.Reason c) (metav1.Message c)).
Proof.
  intros Hz. induction conds as [|c0 conds IH]; simpl.
  - unfold apimeta.appendNew. rewrite Hz. cbn. rewrite String.eqb_refl. reflexivity.
  - destruct (String.eqb (metav1.Type_ c0) (metav1.Type_ c)) eqn:E.
    + rewrite bind_run, ret_run. cbn [fst apimeta.FindStatusCondition].
      rewrite updateExisting_run by exact Hz. cbn [metav1.Type_].
      rewrite E. apply String.eqb_eq in E. rewrite E. reflexivity.
    + rewrite bind_run, ret_run. cbn [fst apimeta.FindStatusCondition].
      rewrite E. exact IH.
Qed.

(** The conditions of the other types are left as they are. *)
Lemma SetStatusCondition_find_other (conds : list metav1.Condition)
  (c : metav1.Condition) (k : metav1.Clock) (type : string) :
  type <> metav1.Type_ c ->
  apimeta.FindStatusCondition (fst (apimeta.SetStatusCondition conds c k)) type
  = apimeta.FindStatusCondition conds type.
Proof.
  intros Hne. induction conds as [|c0 conds IH]; simpl.
  - rewrite bind_run, ret_run. cbn [fst apimeta.FindStatusCondition].
    replace (metav1.Type_ (fst (apimeta.appendNew c k))) with (metav1.Type_ c)
      by (unfold apimeta.appendNew; destruct (metav1.IsZero _); reflexivity).
    apply String.eqb_neq in Hne. rewrite String.eqb_sym, Hne. reflexivity.
  - destruct (String.eqb (metav1.Type_ c0) (metav1.Type_ c)) eqn:E.
    + rewrite bind_run, ret_run. cbn [fst apimeta.FindStatusCondition].
      rewrite updateExisting_Type.
      apply String.eqb_eq in E. rewrite <- E in Hne.
      apply String.eqb_neq in Hne. rewrite String.eqb_sym, Hne. reflexivity.
    + rewrite bind_run, ret_run. cbn [fst apimeta.FindStatusCondition].
      rewrite IH. reflexivity.
Qed.

Lemma SetStatusCondition_extends (conds : list metav1.Condition) (c : metav1.Condition)
  (k : metav1.Clock) :
  extends k (snd (apimeta.SetStatusCondition conds c k)).
Proof.
  unfold extends. induction conds as [|c0 conds IH]; simpl.
  - rewrite bind_run. cbn. unfold apimeta.appendNew.
    destruct (metav1.IsZero _); cbn; split; (reflexivity || lia).
  - destruct (String.eqb _ _); rewrite bind_run; cbn.
    + unfold apimeta.updateExisting.
      destruct (metav1.ConditionStatus_eqb _ _); cbn; [split; (reflexivity || lia)|].
      destruct (negb _); cbn; split; (reflexivity || lia).
    + exact IH.
Qed.


(** ** The transitions write the fields they name *)

Lemma setCondition_fst (tf : infrav1.Terraform) (c : metav1.Condition) (k : metav1.Clock) :
  fst (infrav1.setCondition tf c k)
  = infrav1.upd infrav1.set_Conditions tf
      (fst (apimeta.SetStatusCondition (infrav1.Conditions (infrav1.Status tf)) c k)).
Proof. unfold infrav1.setCondition. rewrite bind_run. reflexivity. Qed.

Lemma setCondition_snd (tf : infrav1.Terraform) (c : metav1.Condition) (k : metav1.Clock) :
  snd (infrav1.setCondition tf c k)
  = snd (apimeta.SetStatusCondition (infrav1.Conditions (infrav1.Status tf)) c k).
Proof. unfold infrav1.setCondition. rewrite bind_run. reflexivity. Qed.

Lemma SetTerraformReadiness_fst (tf : infrav1.Terraform) (status : metav1.ConditionStatus)
  (reason message revision : string) (k : metav1.Clock) :
  fst (infrav1.SetTerraformReadiness tf status reason message revision k)
  = infrav1.upd infrav1.set_LastAttemptedRevision
      (infrav1.upd infrav1.set_ObservedGeneration
         (infrav1.upd infrav1.set_Conditions tf
            (fst (apimeta.SetStatusCondition (infrav1.Conditions (infrav1.Status tf))
                    (infrav1.newCondition meta.ReadyCondition status reason
                       (infrav1.trimString message infrav1.MaxConditionMessageLength)) k)))
         (metav1.Generation (infrav1.ObjectMeta tf)))
      revision.
Proof.
  unfold infrav1.SetTerraformReadiness. rewrite bind_run, ret_run.
  cbn [fst]. rewrite setCondition_fst. reflexivity.
Qed.

Lemma SetTerraformReadiness_snd (tf : infrav1.Terraform) (status : metav1.ConditionStatus)
  (reason message revision : string) (k : metav1.Clock) :
  snd (infrav1.SetTerraformReadiness tf status reason message revision k)
  = snd (apimeta.SetStatusCondition (infrav1.Conditions (infrav1.Status tf))
           (infrav1.newCondition meta.ReadyCondition status reason
              (infrav1.trimString message infrav1.MaxConditionMessageLength)) k).
Proof.
  unfold infrav1.SetTerraformReadiness. rewrite bind_run, ret_run.
  cbn [snd]. apply setCondition_snd.
Qed.

(** C3, as amended. [SetTerraformReadiness] upserts the Ready condition:
    afterwards the Ready condition holds the status, the reason and the
    trimmed message given; its [lastTransitionTime] is the stored one
    whenever the stored Ready condition already had that status, whatever
    its reason and message were, and is the clock's reading when the status
    differs or no Ready condition was stored.  The conditions of the other
    types are not touched. *)
Theorem SetTerraformReadiness_upsert (tf : infrav1.Terraform)
  (status : metav1.ConditionStatus) (reason message revision : string)
  (k : metav1.Clock) :
  let stored := infrav1.Conditions (infrav1.Status tf) in
  let set := infrav1.Conditions (infrav1.Status
               (fst (infrav1.SetTerraformReadiness tf status reason message revision k))) in
  apimeta.FindStatusCondition set meta.ReadyCondition
  = Some (metav1.mkCondition meta.ReadyCondition status 0
            match apimeta.FindStatusCondition stored meta.ReadyCondition with
            | Some old =>
                if metav1.ConditionStatus_eqb (metav1.Status old) status
                then metav1.LastTransitionTime old
                else metav1.readings k (metav1.reads k)
            | None => metav1.readings k (metav1.reads k)
            end
            reason (infrav1.trimString message infrav1.MaxConditionMessageLength))
  /\ forall type, type <> meta.ReadyCondition ->
       apimeta.FindStatusCondition set type = apimeta.FindStatusCondition stored type.
Proof.
  cbv zeta. rewrite SetTerraformReadiness_fst. cbn [infrav1.upd infrav1.set_Status
    infrav1.Status infrav1.Conditions infrav1.set_LastAttemptedRevision
    infrav1.set_ObservedGeneration infrav1.set_Conditions].
  split.
  - apply (SetStatusCondition_find _
             (infrav1.newCondition meta.ReadyCondition status reason
                (infrav1.trimString message infrav1.MaxConditionMessageLength))).
    reflexivity.
  - intros type Hne. apply SetStatusCondition_find_other. exact Hne.
Qed.

(** C3, the counterexample.  The stored Ready condition is True since
    instant 50; setting Ready to True with another reason and another
    message at instant 100 changes both and leaves the transition time at
    50. *)
Lemma SetTerraformReadiness_reason_change_keeps_time :
  apimeta.FindStatusCondition
    (infrav1.Conditions (infrav1.Status examples.drifted)) meta.ReadyCondition
  = Some (metav1.mkCondition "Ready" metav1.ConditionTrue 0 50
            "TerraformOutputsWritten" "Outputs written")
  /\ metav1.readings examples.clock (metav1.reads examples.clock) = 100
  /\ apimeta.FindStatusCondition
       (infrav1.Conditions (infrav1.Status
          (fst (infrav1.SetTerraformReadiness examples.drifted metav1.ConditionTrue
                  "TerraformPlannedNoChanges" "No changes" "main/abc" examples.clock))))
       meta.ReadyCondition
     = Some (metav1.mkCondition "Ready" metav1.ConditionTrue 0 50
               "TerraformPlannedNoChanges" "No changes").
Proof. vm_compute. repeat split. Qed.

Lemma Now_run (k : metav1.Clock) :
  metav1.Now k
  = (metav1.readings k (metav1.reads k),
     metav1.mkClock (metav1.readings k) (S (metav1.reads k))).
Proof. reflexivity. Qed.

Lemma extends_trans (k1 k2 k3 : metav1.Clock) :
  extends k1 k2 -> extends k2 k3 -> extends k1 k3.
Proof. unfold extends. intros [E1 L1] [E2 L2]. split; [congruence | lia]. Qed.

Lemma setCondition_extends (tf : infrav1.Terraform) (c : metav1.Condition)
  (k : metav1.Clock) : extends k (snd (infrav1.setCondition tf c k)).
Proof. rewrite setCondition_snd. apply SetStatusCondition_extends. Qed.

Lemma SetTerraformReadiness_extends (tf : infrav1.Terraform)
  (status : metav1.ConditionStatus) (reason message revision : string)
  (k : metav1.Clock) :
  extends k (snd (infrav1.SetTerraformReadiness tf status reason message revision k)).
Proof. rewrite SetTerraformReadiness_snd. apply SetStatusCondition_extends. Qed.

(** C5. [TerraformApplied] moves the pending plan id to [Plan.LastApplied]
    and clears [Plan.Pending], records whether the apply was a destroy
    apply, replaces the inventory when entries are supplied and leaves it
    when there are none, and stamps [LastAppliedByDriftDetectionAt] with a
    reading of the clock taken during the call exactly when the plan applied
    was flagged as a drift-detection plan (otherwise the field is left as it
    was). *)
Theorem TerraformApplied_status (tf : infrav1.Terraform) (revision message : string)
  (isDestroyApply : bool) (entries : list infrav1.ResourceRef) (k : metav1.Clock) :
  let before := infrav1.Status tf in
  let after := infrav1.Status
                 (fst (infrav1.TerraformApplied tf revision message isDestroyApply
                         entries k)) in
  let k' := snd (infrav1.TerraformApplied tf revision message isDestroyApply entries k) in
  infrav1.PlanStatus.LastApplied (infrav1.Plan after)
  = infrav1.PlanStatus.Pending (infrav1.Plan before)
  /\ infrav1.PlanStatus.Pending (infrav1.Plan after) = ""
  /\ infrav1.PlanStatus.IsDestroyPlan (infrav1.Plan after) = isDestroyApply
  /\ infrav1.Inventory after
     = match entries with
       | [] => infrav1.Inventory before
       | _ :: _ => Some (infrav1.mkResourceInventory entries)
       end
  /\ if infrav1.PlanStatus.IsDriftDetectionPlan (infrav1.Plan before)
     then exists n, (metav1.reads k <= n < metav1.reads k')%nat
                    /\ infrav1.LastAppliedByDriftDetectionAt after
                       = Some (metav1.readings k n)
     else infrav1.LastAppliedByDriftDetectionAt after
          = infrav1.LastAppliedByDriftDetectionAt before.
Proof.
  cbv zeta. unfold infrav1.TerraformApplied.
  set (c := infrav1.newCondition infrav1.ConditionTypeApply metav1.ConditionTrue
              infrav1.TFExecApplySucceedReason
              (infrav1.trimString message infrav1.MaxConditionMessageLength)).
  rewrite bind_run.
  pose proof (setCondition_extends tf c k) as Hk1.
  rewrite setCondition_fst.
  set (k1 := snd (infrav1.setCondition tf c k)) in *.
  set (cs := fst (apimeta.SetStatusCondition _ c k)).
  rewrite bind_run.
  assert (Hflag : infrav1.PlanStatus.IsDriftDetectionPlan
                    (infrav1.Plan (infrav1.Status
                       (infrav1.upd infrav1.set_Conditions tf cs)))
                  = infrav1.PlanStatus.IsDriftDetectionPlan
                      (infrav1.Plan (infrav1.Status tf))) by reflexivity.
  rewrite Hflag. clear Hflag.
  destruct (infrav1.PlanStatus.IsDriftDetectionPlan (infrav1.Plan (infrav1.Status tf))).
  - rewrite bind_run, Now_run, ret_run. cbn [fst snd].
    match goal with
    | |- context [infrav1.SetTerraformReadiness ?t ?s ?r ?m ?v ?kk] =>
        pose proof (SetTerraformReadiness_extends t s r m v kk) as Hk2;
        rewrite (SetTerraformReadiness_fst t s r m v kk)
    end.
    destruct Hk1 as [Hr1 Hl1]. destruct Hk2 as [Hr2 Hl2]. cbn [metav1.reads] in Hl2.
    repeat split.
    + destruct (negb _), (0 <? length entries)%nat; reflexivity.
    + destruct (negb _), (0 <? length entries)%nat; reflexivity.
    + destruct (negb _), (0 <? length entries)%nat; reflexivity.
    + destruct entries; destruct (negb _); reflexivity.
    + exists (metav1.reads k1). split; [lia|].
      rewrite <- Hr1.
      destruct (negb _), (0 <? length entries)%nat; reflexivity.
  - rewrite ret_run. cbn [fst snd].
    match goal with
    | |- context [infrav1.SetTerraformReadiness ?t ?s ?r ?m ?v ?kk] =>
        rewrite (SetTerraformReadiness_fst t s r m v kk)
    end.
    repeat split.
    + destruct (negb _), (0 <? length entries)%nat; reflexivity.
    + destruct (negb _), (0 <? length entries)%nat; reflexivity.
    + destruct (negb _), (0 <? length entries)%nat; reflexivity.
    + destruct entries; destruct (negb _); reflexivity.
    + destruct (negb _), (0 <? length entries)%nat; reflexivity.
Qed.

(** C9. For the revision [main/abcdefabcdefabcdefabcdefabcdefabcdefabcd] and
    the message [msg], [GetPlanIdAndApproveMessage] returns the plan id
    [plan-main-abcdefabcdefabcdefabcdefabcdefabcdefabcd] and an approval
    message that quotes the short plan id [plan-main-abcdefabcd]. *)
Theorem GetPlanIdAndApproveMessage_example :
  infrav1.GetPlanIdAndApproveMessage "main/abcdefabcdefabcdefabcdefabcdefabcdefabcd" "msg"
  = ("plan-main-abcdefabcdefabcdefabcdefabcdefabcdefabcd",
     "msg: set approvePlan: " +:+ strings.dquote +:+ "plan-main-abcdefabcd"
     +:+ strings.dquote +:+ " to approve this plan.").
Proof. vm_compute. reflexivity. Qed.

(** ** The length of the stored message *)

Lemma trimString_long (str : string) (limit : Z) :
  0 <= limit < strings.len str ->
  strings.len (infrav1.trimString str limit) = limit + 3.
Proof.
  intros [Hpos Hlt]. rewrite trimString_length by exact Hpos.
  destruct (Z.leb (strings.len str) limit) eqn:E; [|reflexivity].
  apply Z.leb_le in E. lia.
Qed.

Lemma TerraformNotReady_fst (tf : infrav1.Terraform) (revision reason message : string)
  (k : metav1.Clock) :
  infrav1.Conditions (infrav1.Status
    (fst (infrav1.TerraformNotReady tf revision reason message k)))
  = fst (apimeta.SetStatusCondition (infrav1.Conditions (infrav1.Status tf))
           (infrav1.newCondition meta.ReadyCondition metav1.ConditionFalse reason
              (infrav1.trimString
                 (infrav1.trimString message infrav1.MaxConditionMessageLength)
                 infrav1.MaxConditionMessageLength)) k).
Proof.
  unfold infrav1.TerraformNotReady. rewrite bind_run, ret_run. cbn [fst].
  rewrite SetTerraformReadiness_fst. destruct (negb _); reflexivity.
Qed.

Lemma TerraformNotReady_message_length (tf : infrav1.Terraform)
  (revision reason message : string) (k : metav1.Clock) :
  infrav1.MaxConditionMessageLength < strings.len message ->
  exists c,
    apimeta.FindStatusCondition
      (infrav1.Conditions (infrav1.Status
         (fst (infrav1.TerraformNotReady tf revision reason message k))))
      meta.ReadyCondition = Some c
    /\ strings.len (metav1.Message c) = infrav1.MaxConditionMessageLength + 3.
Proof.
  intros Hlong. rewrite TerraformNotReady_fst.
  assert (Hmax : 0 <= infrav1.MaxConditionMessageLength)
    by (unfold infrav1.MaxConditionMessageLength; lia).
  eexists. split.
  - apply (SetStatusCondition_find _
             (infrav1.newCondition meta.ReadyCondition metav1.ConditionFalse reason _)).
    reflexivity.
  - cbn [metav1.Message infrav1.newCondition].
    rewrite trimString_long; [reflexivity|].
    rewrite trimString_long; lia.
Qed.

Lemma longMessage_length :
  strings.len examples.longMessage = infrav1.MaxConditionMessageLength + 1.
Proof.
  unfold examples.longMessage, strings.len. rewrite length_replicate.
  unfold infrav1.MaxConditionMessageLength. lia.
Qed.

(** C8, the failing input.  A message of 20001 bytes recorded by
    [TerraformNotReady] is stored as 20003 bytes: the first 20000 and three
    dots. *)
Theorem TerraformNotReady_long_message :
  strings.len examples.longMessage = 20001
  /\ exists c,
       apimeta.FindStatusCondition
         (infrav1.Conditions (infrav1.Status
            (fst (infrav1.TerraformNotReady examples.app ""
                    infrav1.ArtifactFailedReason examples.longMessage examples.clock))))
         meta.ReadyCondition = Some c
       /\ strings.len (metav1.Message c) = 20003.
Proof.
  split.
  - rewrite longMessage_length. reflexivity.
  - destruct (TerraformNotReady_message_length examples.app ""
                infrav1.ArtifactFailedReason examples.longMessage examples.clock)
      as (c & Hc & Hlen).
    + rewrite longMessage_length. lia.
    + exists c. split; [exact Hc|]. rewrite Hlen. reflexivity.
Qed.

(** * Properties of the controller *)

(** ** Artifact verification *)

(** C4. The hasher is chosen by the length of the declared checksum: SHA-1
    for exactly 40 bytes, SHA-256 for any other length.  When the body is
    read to its end, [verifyArtifact] returns an error exactly when the
    lower-case hexadecimal digest differs from the declared checksum as a
    string; and a download that gets as far as verification returns the
    bytes when they match and an error, without the bytes, when they do
    not. *)
Theorem verifyArtifact_checksum (sha1 sha256 : string -> string)
  (http : controllers.HTTP) (artifact : sourcev1.Artifact) (reader : controllers.Reader)
  (Hread : controllers.failure reader = None)
  (Hfetch : fetches http artifact reader) :
  let checksum := sourcev1.Checksum artifact in
  let hasher := if Z.eqb (strings.len checksum) 40 then sha1 else sha256 in
  let digest := controllers.hex (hasher (controllers.delivered reader)) in
  controllers.hasherFor sha1 sha256 checksum = hasher
  /\ (snd (controllers.verifyArtifact sha1 sha256 artifact reader) = None
      <-> digest = checksum)
  /\ (digest = checksum ->
      controllers.downloadAsBytes sha1 sha256 http artifact
      = inl (controllers.delivered reader))
  /\ (digest <> checksum ->
      controllers.downloadAsBytes sha1 sha256 http artifact
      = inr (Errorf ("failed to verify artifact: computed checksum '" +:+ digest
                     +:+ "' doesn't match advertised '" +:+ checksum +:+ "'"))).
Proof.
  cbv zeta. split; [reflexivity|].
  assert (Hverify :
    controllers.verifyArtifact sha1 sha256 artifact reader
    = if String.eqb
           (controllers.hex (controllers.hasherFor sha1 sha256
                               (sourcev1.Checksum artifact)
                               (controllers.delivered reader)))
           (sourcev1.Checksum artifact)
      then (controllers.delivered reader, None)
      else (controllers.delivered reader,
            Some (Errorf ("failed to verify artifact: computed checksum '"
                          +:+ controllers.hex
                                (controllers.hasherFor sha1 sha256
                                   (sourcev1.Checksum artifact)
                                   (controllers.delivered reader))
                          +:+ "' doesn't match advertised '"
                          +:+ sourcev1.Checksum artifact +:+ "'")))).
  { unfold controllers.verifyArtifact. rewrite Hread.
    destruct (String.eqb _ _); reflexivity. }
  assert (Hdown :
    controllers.downloadAsBytes sha1 sha256 http artifact
    = match controllers.verifyArtifact sha1 sha256 artifact reader with
      | (_, Some err) => inr err
      | (buf, None) => inl buf
      end).
  { destruct Hfetch as (url & resp & Hurl & Hreq & Hdo & Hcode & Hbody).
    unfold controllers.downloadAsBytes. rewrite Hurl, Hreq, Hdo, Hcode, Hbody.
    reflexivity. }
  rewrite Hdown, Hverify. clear Hdown Hverify.
  unfold controllers.hasherFor.
  destruct (String.eqb _ _) eqn:E.
  - apply String.eqb_eq in E. split; [|split].
    + split; [intros _; exact E | reflexivity].
    + reflexivity.
    + intros Hne. contradiction.
  - apply String.eqb_neq in E. split; [|split].
    + split; [discriminate | intros Heq; contradiction].
    + intros Heq. contradiction.
    + reflexivity.
Qed.

Lemma verifyArtifact_checksum_witness :
  controllers.hasherFor examples.digest examples.digest "6f6b" = examples.digest
  /\ (snd (controllers.verifyArtifact examples.digest examples.digest
             examples.checked examples.body) = None
      <-> controllers.hex (examples.digest "ok") = "6f6b")
  /\ (controllers.hex (examples.digest "ok") = "6f6b" ->
      controllers.downloadAsBytes examples.digest examples.digest examples.http
        examples.checked = inl "ok")
  /\ (controllers.hex (examples.digest "ok") <> "6f6b" ->
      controllers.downloadAsBytes examples.digest examples.digest examples.http
        examples.checked
      = inr (Errorf ("failed to verify artifact: computed checksum '"
                     +:+ controllers.hex (examples.digest "ok")
                     +:+ "' doesn't match advertised '" +:+ "6f6b" +:+ "'"))).
Proof.
  apply (verifyArtifact_checksum examples.digest examples.digest examples.http
           examples.checked examples.body).
  - reflexivity.
  - exists "http://source-controller/repo.tar.gz",
      (controllers.mkResponse 200 "200 OK" examples.body).
    repeat split.
Defined.

(** The comparison is case-sensitive: the same digest in upper case is
    rejected. *)
Example verifyArtifact_upper_case_rejected :
  controllers.hex (examples.digest "ok") = "6f6b"
  /\ snd (controllers.verifyArtifact examples.digest examples.digest
            (sourcev1.mkArtifact "" "main/abc" "6F6B") examples.body)
     = Some (Errorf "failed to verify artifact: computed checksum '6f6b' doesn't match advertised '6F6B'").
Proof. vm_compute. split; reflexivity. Qed.

(** ** The dependency check *)

Section DependencyFacts.

Context {C : Type} `{Client C}.

(** The loop stops at the first dependency that fails, with its error. *)
Lemma checkDependencies_loop_app (source : sourcev1.Source)
  (terraform : infrav1.Terraform) (pre rest : list meta.NamespacedObjectReference)
  (c : C) :
  controllers.checkDependencies_loop source terraform (pre ++ rest)%list c
  = match controllers.checkDependencies_loop source terraform pre c with
    | (inl err, c') => (inl err, c')
    | (inr _, c') => controllers.checkDependencies_loop source terraform rest c'
    end.
Proof.
  revert c. induction pre as [|d pre IH]; intros c; simpl.
  - reflexivity.
  - unfold pbind. destruct (controllers.checkDependency source terraform d c) as [[e|[]] c'].
    + reflexivity.
    + apply IH.
Qed.

(** A failure of the check of one dependency, after the earlier ones
    passed, is the result of the whole check. *)
Lemma checkDependencies_abort (source : sourcev1.Source) (terraform : infrav1.Terraform)
  (pre post : list meta.NamespacedObjectReference) (d : meta.NamespacedObjectReference)
  (c c1 c2 : C) (tf : infrav1.Terraform) (err : error) :
  infrav1.DependsOn (infrav1.Spec terraform) = (pre ++ d :: post)%list ->
  controllers.checkDependencies_loop source terraform pre c = (inr tt, c1) ->
  controllers.fetchDependency terraform d c1 = (inr tf, c2) ->
  controllers.judgeDependency source terraform
    (controllers.dependencyName terraform d) tf c2 = (inl err, c2) ->
  controllers.checkDependencies source terraform c = (Some err, c2).
Proof.
  intros Hdeps Hpre Hfetch Hjudge.
  unfold controllers.checkDependencies. rewrite Hdeps, checkDependencies_loop_app, Hpre.
  simpl. unfold pbind at 1. unfold controllers.checkDependency, pbind.
  rewrite Hfetch, Hjudge. reflexivity.
Qed.

(** C6. When the earlier dependencies pass and the dependency [d] is
    fetched, if it has no condition or its observed generation differs from
    its generation, then, whatever its conditions say, the whole dependency
    check fails with the not-ready error of [d]. *)
Theorem checkDependencies_not_ready (source : sourcev1.Source)
  (terraform : infrav1.Terraform)
  (pre post : list meta.NamespacedObjectReference) (d : meta.NamespacedObjectReference)
  (c c1 c2 : C) (tf : infrav1.Terraform)
  (Hdeps : infrav1.DependsOn (infrav1.Spec terraform) = (pre ++ d :: post)%list)
  (Hpre : controllers.checkDependencies_loop source terraform pre c = (inr tt, c1))
  (Hfetch : controllers.fetchDependency terraform d c1 = (inr tf, c2))
  (Hstale : infrav1.Conditions (infrav1.Status tf) = []
            \/ metav1.Generation (infrav1.ObjectMeta tf)
               <> infrav1.ObservedGeneration (infrav1.Status tf)) :
  controllers.checkDependencies source terraform c
  = (Some (Errorf ("dependency '"
                   +:+ types.String (controllers.dependencyName terraform d)
                   +:+ "' is not ready")), c2).
Proof.
  eapply checkDependencies_abort; try eassumption.
  unfold controllers.judgeDependency.
  replace ((length (infrav1.Conditions (infrav1.Status tf)) =? 0)%nat
           || negb (Z.eqb (metav1.Generation (infrav1.ObjectMeta tf))
                      (infrav1.ObservedGeneration (infrav1.Status tf))))
    with true; [reflexivity|].
  symmetry. apply orb_true_iff. destruct Hstale as [Hnil | Hgen].
  - left. rewrite Hnil. reflexivity.
  - right. apply negb_true_iff, Z.eqb_neq. exact Hgen.
Qed.

(** C7. When the earlier dependencies pass and the dependency [d] is
    fetched, is ready at its observed generation, and has the source
    reference (kind, namespace, name) of the dependent: if the source's
    revision is neither the dependency's last applied nor its last planned
    revision, the whole check fails with the not-updated error of [d]; and
    if it is one of the two, the check of [d] does not fail with that
    error. *)
Theorem checkDependencies_not_updated (source : sourcev1.Source)
  (artifact : sourcev1.Artifact) (terraform : infrav1.Terraform)
  (pre post : list meta.NamespacedObjectReference) (d : meta.NamespacedObjectReference)
  (c c1 c2 : C) (tf : infrav1.Terraform)
  (Hdeps : infrav1.DependsOn (infrav1.Spec terraform) = (pre ++ d :: post)%list)
  (Hpre : controllers.checkDependencies_loop source terraform pre c = (inr tt, c1))
  (Hfetch : controllers.fetchDependency terraform d c1 = (inr tf, c2))
  (Hconds : infrav1.Conditions (infrav1.Status tf) <> [])
  (Hgen : metav1.Generation (infrav1.ObjectMeta tf)
          = infrav1.ObservedGeneration (infrav1.Status tf))
  (Hready : apimeta.IsStatusConditionTrue (infrav1.Conditions (infrav1.Status tf))
              meta.ReadyCondition = true)
  (Hartifact : sourcev1.GetArtifact source = Some artifact)
  (Hkind : infrav1.Kind (infrav1.SourceRef (infrav1.Spec tf))
           = infrav1.Kind (infrav1.SourceRef (infrav1.Spec terraform)))
  (Hnamespace : infrav1.Namespace (infrav1.SourceRef (infrav1.Spec tf))
                = infrav1.Namespace (infrav1.SourceRef (infrav1.Spec terraform)))
  (Hname : infrav1.Name (infrav1.SourceRef (infrav1.Spec tf))
           = infrav1.Name (infrav1.SourceRef (infrav1.Spec terraform))) :
  let notUpdated :=
    Errorf ("dependency '" +:+ types.String (controllers.dependencyName terraform d)
            +:+ "' is not updated yet") in
  (sourcev1.Revision artifact <> infrav1.LastAppliedRevision (infrav1.Status tf) ->
   sourcev1.Revision artifact <> infrav1.LastPlannedRevision (infrav1.Status tf) ->
   controllers.checkDependencies source terraform c = (Some notUpdated, c2))
  /\ (sourcev1.Revision artifact = infrav1.LastAppliedRevision (infrav1.Status tf)
      \/ sourcev1.Revision artifact = infrav1.LastPlannedRevision (infrav1.Status tf) ->
      fst (controllers.checkDependency source terraform d c1) <> inl notUpdated).
Proof.
  cbv zeta.
  assert (Hchecks :
    controllers.judgeDependency source terraform
      (controllers.dependencyName terraform d) tf
    = if negb (String.eqb (sourcev1.Revision artifact)
                 (infrav1.LastAppliedRevision (infrav1.Status tf)))
         && negb (String.eqb (sourcev1.Revision artifact)
                    (infrav1.LastPlannedRevision (infrav1.Status tf)))
      then Return (Errorf ("dependency '"
                           +:+ types.String (controllers.dependencyName terraform d)
                           +:+ "' is not updated yet"))
      else
        match infrav1.WriteOutputsToSecret (infrav1.Spec tf) with
        | Some w =>
            e <~ lift (GetSecret
                         (types.mkNamespacedName
                            (metav1.Namespace (infrav1.ObjectMeta tf))
                            (infrav1.SecretName w))) ;;
            match e with
            | Some _ =>
                Return (Errorf ("dependency output secret: '" +:+ infrav1.SecretName w
                                +:+ "' of '"
                                +:+ types.String (controllers.dependencyName terraform d)
                                +:+ "' is not ready yet"))
            | None => pret tt
            end
        | None => pret tt
        end).
  { unfold controllers.judgeDependency.
    destruct (infrav1.Conditions (infrav1.Status tf)) as [|c0 conds] eqn:Ec;
      [congruence|].
    rewrite Hgen, Z.eqb_refl, Hready, Hartifact, Hkind, Hnamespace, Hname.
    rewrite !String.eqb_refl. reflexivity. }
  split.
  - intros Hla Hlp. eapply checkDependencies_abort; try eassumption.
    rewrite Hchecks. apply String.eqb_neq in Hla, Hlp. rewrite Hla, Hlp. reflexivity.
  - intros Hsame. unfold controllers.checkDependency, pbind. rewrite Hfetch, Hchecks.
    replace (negb (String.eqb (sourcev1.Revision artifact)
                     (infrav1.LastAppliedRevision (infrav1.Status tf)))
             && negb (String.eqb (sourcev1.Revision artifact)
                        (infrav1.LastPlannedRevision (infrav1.Status tf))))
      with false.
    + destruct (infrav1.WriteOutputsToSecret (infrav1.Spec tf)) as [w|].
      * unfold pbind, lift.
        destruct (GetSecret _ c2) as [[e|] c3]; cbn; [|discriminate].
        intros Heq. simpl in Heq. discriminate Heq.
      * cbn. discriminate.
    + symmetry. apply andb_false_iff.
      destruct Hsame as [-> | ->]; [left | right];
        rewrite String.eqb_refl; reflexivity.
Qed.

End DependencyFacts.

Lemma checkDependencies_not_ready_witness :
  controllers.checkDependencies examples.source examples.dependent
    (examples.clusterWith examples.base)
  = (Some (Errorf "dependency 'infra/base' is not ready"),
     snd (controllers.fetchDependency examples.dependent examples.dependsOnBase
            (examples.clusterWith examples.base))).
Proof.
  apply (checkDependencies_not_ready examples.source examples.dependent
           [] [] examples.dependsOnBase
           (examples.clusterWith examples.base) (examples.clusterWith examples.base)
           (snd (controllers.fetchDependency examples.dependent examples.dependsOnBase
                   (examples.clusterWith examples.base)))
           (controllerutil.AddFinalizer examples.base "tf.dependency.of.app")).
  - reflexivity.
  - reflexivity.
  - vm_compute. reflexivity.
  - right. vm_compute. discriminate.
Defined.

Lemma checkDependencies_not_updated_witness :
  let c2 := snd (controllers.fetchDependency examples.dependent examples.dependsOnBase
                   (examples.clusterWith examples.baseObserved)) in
  ("main/def" <> "main/abc" -> "main/def" <> "main/abc" ->
   controllers.checkDependencies examples.newSource examples.dependent
     (examples.clusterWith examples.baseObserved)
   = (Some (Errorf "dependency 'infra/base' is not updated yet"), c2))
  /\ ("main/def" = "main/abc" \/ "main/def" = "main/abc" ->
      fst (controllers.checkDependency examples.newSource examples.dependent
             examples.dependsOnBase (examples.clusterWith examples.baseObserved))
      <> inl (Errorf "dependency 'infra/base' is not updated yet")).
Proof.
  apply (checkDependencies_not_updated examples.newSource
           (sourcev1.mkArtifact "http://source-controller/repo.tar.gz" "main/def" "")
           examples.dependent [] [] examples.dependsOnBase
           (examples.clusterWith examples.baseObserved)
           (examples.clusterWith examples.baseObserved)
           (snd (controllers.fetchDependency examples.dependent examples.dependsOnBase
                   (examples.clusterWith examples.baseObserved)))
           (controllerutil.AddFinalizer examples.baseObserved "tf.dependency.of.app")).
  - reflexivity.
  - reflexivity.
  - vm_compute. reflexivity.
  - discriminate.
  - reflexivity.
  - reflexivity.
  - reflexivity.
  - reflexivity.
  - reflexivity.
  - reflexivity.
Defined.

(** ** The reconciliation loop *)

Section Hoare.

Context {C : Type} `{Client C}.

Variable P : controllers.Action -> Prop.

Lemma step_ret {A : Type} (Q : A -> Prop) (a : A) :
  Q a -> step (C := C) P Q (ret a).
Proof.
  intros Ha w. split; [|exact Ha].
  exists []. split; [symmetry; apply app_nil_r | constructor].
Qed.

Lemma step_bind {A B : Type} (QA : A -> Prop) (QB : B -> Prop)
  (m : State (controllers.World C) A) (f : A -> State (controllers.World C) B) :
  step P QA m -> (forall a, QA a -> step P QB (f a)) -> step P QB (bind m f).
Proof.
  intros Hm Hf w. rewrite bind_run.
  destruct (Hm w) as [(l1 & E1 & F1) Ha].
  destruct (Hf _ Ha (snd (m w))) as [(l2 & E2 & F2) Hb].
  split; [|exact Hb].
  exists (l1 ++ l2)%list. split.
  - rewrite E2, E1, app_assoc. reflexivity.
  - apply Forall_app. split; assumption.
Qed.

Lemma step_weaken {A : Type} (Q Q' : A -> Prop) (m : State (controllers.World C) A) :
  step P Q m -> (forall a, Q a -> Q' a) -> step P Q' m.
Proof. intros Hm Himp w. destruct (Hm w) as [Hl Ha]. split; auto. Qed.

Lemma step_onCluster {A : Type} (m : State C A) :
  step P (fun _ => True) (controllers.onCluster m).
Proof.
  intros w. split; [|exact I]. unfold controllers.onCluster.
  destruct (m (controllers.cluster w)) as [a c]. cbn.
  exists []. split; [symmetry; apply app_nil_r | constructor].
Qed.

Lemma step_onClock {A : Type} (Q : A -> Prop) (m : State metav1.Clock A) :
  (forall k, Q (fst (m k))) -> step P Q (controllers.onClock (C := C) m).
Proof.
  intros Hm w. unfold controllers.onClock.
  specialize (Hm (controllers.clock w)).
  destruct (m (controllers.clock w)) as [a k]. cbn in *. split; [|exact Hm].
  exists []. split; [symmetry; apply app_nil_r | constructor].
Qed.

Lemma step_act (a : controllers.Action) :
  P a -> step (C := C) P (fun _ => True) (controllers.act a).
Proof.
  intros Ha w. split; [|exact I]. cbn.
  exists [a]. split; [reflexivity | repeat constructor; exact Ha].
Qed.

Section Procedures.

Context {R : Type}.

Variable QR : R -> Prop.

Lemma triple_pret {A : Type} (QA : A -> Prop) (a : A) :
  QA a -> triple (C := C) P QR QA (pret a).
Proof.
  intros Ha w. split; [|exact Ha].
  exists []. split; [symmetry; apply app_nil_r | constructor].
Qed.

Lemma triple_Return {A : Type} (QA : A -> Prop) (res : R) :
  QR res -> triple (C := C) (A := A) P QR QA (Return res).
Proof.
  intros Hr w. split; [|exact Hr].
  exists []. split; [symmetry; apply app_nil_r | constructor].
Qed.

Lemma triple_lift {A : Type} (QA : A -> Prop) (m : State (controllers.World C) A) :
  step P QA m -> triple P QR QA (lift m).
Proof.
  intros Hm w. destruct (Hm w) as [Hl Ha]. unfold lift.
  destruct (m w) as [a w']. cbn in *. split; assumption.
Qed.

Lemma triple_pbind {A B : Type} (QA : A -> Prop) (QB : B -> Prop)
  (m : Proc (controllers.World C) R A) (f : A -> Proc (controllers.World C) R B) :
  triple P QR QA m -> (forall a, QA a -> triple P QR QB (f a)) ->
  triple P QR QB (pbind m f).
Proof.
  intros Hm Hf w. unfold pbind.
  destruct (Hm w) as [(l1 & E1 & F1) Ha].
  destruct (m w) as [[res|a] w']; cbn in *.
  - split; [|exact Ha]. exists l1. split; assumption.
  - destruct (Hf _ Ha w') as [(l2 & E2 & F2) Hb]. split; [|exact Hb].
    exists (l1 ++ l2)%list. split.
    + rewrite E2, E1, app_assoc. reflexivity.
    + apply Forall_app. split; assumption.
Qed.

Lemma triple_weaken {A : Type} (QA QA' : A -> Prop)
  (p : Proc (controllers.World C) R A) :
  triple P QR QA p -> (forall a, QA a -> QA' a) -> triple P QR QA' p.
Proof.
  intros Hp Himp w. destruct (Hp w) as [Hl Ha]. split; [exact Hl|].
  destruct (fst (p w)); auto.
Qed.

Lemma triple_Defer {A : Type} (QA : A -> Prop) (d : State (controllers.World C) unit)
  (p : Proc (controllers.World C) R A) :
  step P (fun _ => True) d -> triple P QR QA p -> triple P QR QA (Defer d p).
Proof.
  intros Hd Hp w. unfold Defer.
  destruct (Hp w) as [(l1 & E1 & F1) Ha].
  destruct (p w) as [res w']. cbn in *.
  destruct (Hd w') as [(l2 & E2 & F2) _].
  split; [|exact Ha].
  exists (l1 ++ l2)%list. split.
  - rewrite E2, E1, app_assoc. reflexivity.
  - apply Forall_app. split; assumption.
Qed.

Lemma triple_run (p : Proc (controllers.World C) R R) :
  triple P QR QR p -> step P QR (run p).
Proof.
  intros Hp w. unfold run. destruct (Hp w) as [Hl Ha].
  destruct (p w) as [[res|res] w']; cbn in *; split; assumption.
Qed.

End Procedures.

End Hoare.

Section Consequence.

Context {C : Type} `{Client C}.

Lemma triple_consequence {R A : Type} (P P' : controllers.Action -> Prop)
  (QR QR' : R -> Prop) (QA QA' : A -> Prop) (p : Proc (controllers.World C) R A) :
  triple P QR QA p ->
  (forall a, P a -> P' a) -> (forall res, QR res -> QR' res) ->
  (forall a, QA a -> QA' a) ->
  triple P' QR' QA' p.
Proof.
  intros Hp HP HR HA w. destruct (Hp w) as [(added & E & F) Hq]. split.
  - exists added. split; [exact E|]. eapply Forall_impl; eassumption.
  - destruct (fst (p w)); auto.
Qed.

End Consequence.

Section ReconcileFacts.

Context {C : Type} `{Client C} (r : controllers.Collaborators C).

Variable fetched : infrav1.Terraform.

Lemma TerraformNotReady_sameObject (tf : infrav1.Terraform)
  (revision reason message : string) (k : metav1.Clock) :
  sameObject fetched tf ->
  sameObject fetched (fst (infrav1.TerraformNotReady tf revision reason message k)).
Proof.
  intros Hs. unfold infrav1.TerraformNotReady. rewrite bind_run, ret_run. cbn [fst].
  rewrite SetTerraformReadiness_fst. destruct (negb _); exact Hs.
Qed.

Lemma TerraformProgressing_sameObject (tf : infrav1.Terraform) (message : string)
  (k : metav1.Clock) :
  sameObject fetched tf ->
  sameObject fetched (fst (infrav1.TerraformProgressing tf message k)).
Proof.
  intros Hs. unfold infrav1.TerraformProgressing. rewrite setCondition_fst. exact Hs.
Qed.

Lemma AddFinalizer_sameObject (tf : infrav1.Terraform) (finalizer : string) :
  sameObject fetched tf ->
  sameObject fetched (controllerutil.AddFinalizer tf finalizer).
Proof.
  intros Hs. unfold controllerutil.AddFinalizer.
  destruct (controllerutil.ContainsFinalizer tf finalizer); exact Hs.
Qed.

Lemma decided_stop (e : option error) : decided fetched (ctrl.NoRequeue, e).
Proof. right. left. reflexivity. Qed.

Lemma decided_now (e : option error) : decided fetched (ctrl.RequeueNow, e).
Proof. right. left. reflexivity. Qed.

Lemma decided_retry (tf : infrav1.Terraform) (e : option error) :
  sameObject fetched tf ->
  decided fetched (ctrl.After (infrav1.GetRetryInterval tf), e).
Proof.
  intros [Hs _]. right. right. left. unfold infrav1.GetRetryInterval.
  rewrite Hs. reflexivity.
Qed.

Lemma decided_interval (tf : infrav1.Terraform) (e : option error) :
  sameObject fetched tf ->
  decided fetched (ctrl.After (infrav1.Interval (infrav1.Spec tf)), e).
Proof. intros [Hs _]. right. right. right. cbn. rewrite Hs. reflexivity. Qed.

Lemma patchStatusOrReturn_triple (req : types.NamespacedName)
  (status : infrav1.TerraformStatus) :
  triple (gated r) (decided fetched) (fun _ => True)
    (controllers.patchStatusOrReturn req status).
Proof.
  unfold controllers.patchStatusOrReturn.
  apply (triple_pbind _ _ (fun _ => True)).
  - apply triple_lift, step_onCluster.
  - intros [err|] _.
    + apply triple_Return, decided_now.
    + apply triple_pret. exact I.
Qed.

Ltac hoare :=
  lazymatch goal with
  | |- triple _ _ _ (controllers.patchStatusOrReturn _ _) =>
      apply patchStatusOrReturn_triple
  | |- triple _ _ _ (@pbind _ _ infrav1.Terraform _ _ _) =>
      apply (triple_pbind _ _ (sameObject fetched)); [ | intros ? ? ]
  | |- triple _ _ _ (pbind _ _) =>
      apply (triple_pbind _ _ (fun _ => True)); [ | intros ? _ ]
  | |- triple _ _ _ (Return _) =>
      apply triple_Return;
      first [ apply decided_stop | apply decided_now
            | apply decided_retry | apply decided_interval ]
  | |- triple _ _ _ (pret _) => apply triple_pret
  | |- triple _ _ _ (lift (controllers.onCluster _)) =>
      apply triple_lift, step_onCluster
  | |- triple _ _ _ (lift (controllers.onClock _)) =>
      apply triple_lift, step_onClock; intros ?
  | |- triple _ _ _ (lift (controllers.recordReadinessMetric _)) =>
      apply triple_lift, step_act; exact I
  | |- triple _ _ _ (lift (controllers.event _ _ _ _)) =>
      apply triple_lift, step_act; exact I
  | |- triple _ _ _ (lift (controllers.act _)) =>
      apply triple_lift, step_act
  | |- triple _ _ _ (lift (if ?b then _ else _)) => destruct b
  | |- triple _ _ _ (lift (ret _)) => apply triple_lift, step_ret
  | |- triple _ _ _ (if ?b then _ else _) => destruct b eqn:?
  | |- triple _ _ _ (match ?x with _ => _ end) => destruct x eqn:?
  | |- triple _ _ _ (let _ := _ in _) => cbv zeta
  end.

Ltac same_object :=
  cbn [fst];
  first [ assumption
        | apply TerraformNotReady_sameObject; assumption
        | apply TerraformProgressing_sameObject; assumption
        | apply AddFinalizer_sameObject; split; reflexivity
        | split; reflexivity ].

Lemma Reconcile_prepare_triple (req : types.NamespacedName) :
  triple (gated r) (decided fetched)
    (fun prepared => sameObject fetched (fst (fst (fst prepared))))
    (controllers.Reconcile_prepare r req fetched).
Proof.
  unfold controllers.Reconcile_prepare.
  repeat hoare; try exact I; same_object.
Qed.

Lemma Reconcile_finalize_triple (tf : infrav1.Terraform) (sourceObj : sourcev1.Source) :
  sameObject fetched tf ->
  triple (gated r) (decided fetched) (fun _ => True)
    (controllers.Reconcile_finalize r tf sourceObj).
Proof.
  intros [_ Hdel]. unfold controllers.Reconcile_finalize.
  destruct (negb (metav1.IsZeroPtr _)) eqn:Edel.
  - assert (Hdeleted : controllers.isBeingDeleted fetched = true)
      by (unfold controllers.isBeingDeleted; rewrite <- Hdel; exact Edel).
    apply (triple_pbind _ _ (fun _ => True)).
    + apply triple_lift, step_act. exact I.
    + intros _ _. apply (triple_pbind _ _ (fun _ => True)).
      * apply triple_lift, step_onCluster.
      * intros [result [err|]] _.
        -- apply triple_Return. left. exact Hdeleted.
        -- apply triple_pret. exact I.
  - apply triple_pret. exact I.
Qed.

Lemma clearPending_sameObject (tf : infrav1.Terraform) :
  sameObject fetched tf -> sameObject fetched (controllers.clearPending tf).
Proof. intros Hs. exact Hs. Qed.

Lemma Reconcile_gate_triple (req : types.NamespacedName) (tf : infrav1.Terraform)
  (sourceObj : sourcev1.Source) (artifact : sourcev1.Artifact) :
  sameObject fetched tf ->
  triple (gated r) (decided fetched)
    (fun let_through => sameObject fetched let_through /\ gateOpen r let_through)
    (controllers.Reconcile_gate r req tf sourceObj artifact).
Proof.
  intros Hs. unfold controllers.Reconcile_gate.
  apply (triple_pbind _ _ (sameObject fetched)).
  - destruct (negb _ && negb _).
    + apply (triple_pbind _ _ (fun _ => True)).
      * apply patchStatusOrReturn_triple.
      * intros _ _. apply triple_pret. apply clearPending_sameObject, Hs.
    + apply triple_pret, Hs.
  - intros tf' Hs'.
    destruct (negb (String.eqb (controllers.pendingPlan tf') "")) eqn:Ep;
      [destruct (controllers.forceOrAutoApply r tf') eqn:Ef;
       [|destruct (controllers.shouldApply r tf') eqn:Ea]|]; cbn [negb andb].
    + apply triple_pret. split; [exact Hs'|]. right. left. exact Ef.
    + apply triple_pret. split; [exact Hs'|]. right. right. exact Ea.
    + apply triple_Return, decided_stop.
    + apply triple_pret. split; [exact Hs'|]. left.
      apply negb_false_iff, String.eqb_eq in Ep. exact Ep.
Qed.

Lemma Reconcile_cycle_triple (req : types.NamespacedName) (tf : infrav1.Terraform)
  (sourceObj : sourcev1.Source) (artifact : sourcev1.Artifact) :
  sameObject fetched tf -> gateOpen r tf ->
  triple (gated r) (decided fetched) (decided fetched)
    (controllers.Reconcile_cycle r req tf sourceObj artifact).
Proof.
  intros Hs Hopen. unfold controllers.Reconcile_cycle.
  apply (triple_pbind _ _ (fun _ => True)).
  - apply triple_lift, step_act. exact Hopen.
  - intros _ _. apply (triple_pbind _ _ (fun _ => True)).
    + apply triple_lift, step_onCluster.
    + intros [reconciled reconcileErr] _. repeat hoare; try exact I; same_object.
Qed.

Lemma runnerCleanup_step (P : controllers.Action -> Prop) (closeConn : bool)
  (tf : infrav1.Terraform) :
  P controllers.CloseConn ->
  step P (fun _ => True) (controllers.runnerCleanup r closeConn tf).
Proof.
  intros Hclose. unfold controllers.runnerCleanup.
  apply (step_bind _ (fun _ => True)).
  - destruct closeConn; [apply step_act, Hclose | apply step_ret; exact I].
  - intros _ _. destruct (String.eqb _ _); [apply step_ret; exact I|].
    destruct (infrav1.GetAlwaysCleanupRunnerPod _);
      [apply step_onCluster | apply step_ret; exact I].
Qed.

Lemma Reconcile_fetched_triple (req : types.NamespacedName) :
  triple (gated r) (decided fetched) (decided fetched)
    (controllers.Reconcile_fetched r req fetched).
Proof.
  unfold controllers.Reconcile_fetched.
  apply (triple_pbind _ _ (fun prepared => sameObject fetched (fst (fst (fst prepared))))).
  - apply Reconcile_prepare_triple.
  - intros [[[tf sourceObj] artifact] closeConn] Hs. cbn [fst] in Hs.
    apply triple_Defer; [apply runnerCleanup_step; exact I|].
    apply (triple_pbind _ _ (fun _ => True)).
    + apply Reconcile_finalize_triple, Hs.
    + intros _ _.
      apply (triple_pbind _ _ (fun t => sameObject fetched t /\ gateOpen r t)).
      * apply Reconcile_gate_triple, Hs.
      * intros t [Hst Hopen]. apply Reconcile_cycle_triple; assumption.
Qed.

End ReconcileFacts.

Section ReconcileTheorems.

Context {C : Type} `{Client C} (r : controllers.Collaborators C).

Lemma certRotation_step (P : controllers.Action -> Prop) :
  P controllers.TriggerCARotation ->
  step P (fun _ => True) (controllers.certRotation r).
Proof.
  intros Ht. unfold controllers.certRotation.
  destruct (negb _ && _); [apply step_act, Ht | apply step_ret; exact I].
Qed.


(** The requeue directive is one of those the loop decides for the object
    it fetched. *)
Lemma Reconcile_decided (req : types.NamespacedName) (w w0 : controllers.World C)
  (fetched : infrav1.Terraform) :
  controllers.onCluster (GetTerraform req) (snd (controllers.certRotation r w))
  = (inl fetched, w0) ->
  decided fetched (fst (controllers.Reconcile r req w)).
Proof.
  intros Hget. unfold controllers.Reconcile, run.
  unfold pbind at 1. unfold lift at 1.
  destruct (controllers.certRotation r w) as [[] wr]. cbn [snd] in Hget.
  unfold pbind, lift. rewrite Hget. unfold Defer.
  destruct (Reconcile_fetched_triple r fetched req w0) as [_ Hq].
  destruct (controllers.Reconcile_fetched r req fetched w0) as [[o|o] w1];
    cbn in *; exact Hq.
Qed.






End ReconcileTheorems.



(** When the revision has changed and approval does not call for applying,
    the pending plan is cleared before the gate, and the cycle runs on the
    object without it. *)
Example Reconcile_new_revision_replans :
  map (fun a => match a with
                | controllers.RunReconcile tf => Some (controllers.pendingPlan tf)
                | _ => None
                end)
    (controllers.log
       (snd (controllers.Reconcile examples.collaborators examples.request
               (controllers.mkWorld
                  (fake.mkCluster {[ ("infra", "app") := examples.app ]}
                     {[ ("GitRepository", ("infra", "repo")) := examples.newSource ]}
                     ∅ false)
                  examples.clock []))))
  = [Some ""; None; None; None].
Proof. vm_compute. reflexivity. Qed.

Section RetryInterval.

Context {C : Type} `{Client C}.

(** C10. [GetRetryInterval] returns the duration of [Spec.RetryInterval]
    when there is one and the duration of [Spec.Interval] when there is
    none; so when [Reconcile] has fetched a live object without a retry
    interval, whatever delay it returns is none or the object's declared
    interval. *)
Theorem GetRetryInterval_fallback (tf : infrav1.Terraform) :
  match infrav1.RetryInterval (infrav1.Spec tf) with
  | Some d => infrav1.GetRetryInterval tf = d
  | None => infrav1.GetRetryInterval tf = infrav1.Interval (infrav1.Spec tf)
  end
  /\ forall (r : controllers.Collaborators C) (req : types.NamespacedName)
       (w w0 : controllers.World C),
       controllers.onCluster (GetTerraform req) (snd (controllers.certRotation r w))
       = (inl tf, w0) ->
       infrav1.RetryInterval (infrav1.Spec tf) = None ->
       controllers.isBeingDeleted tf = false ->
       ctrl.RequeueAfter (fst (fst (controllers.Reconcile r req w))) = 0
       \/ ctrl.RequeueAfter (fst (fst (controllers.Reconcile r req w)))
          = infrav1.Interval (infrav1.Spec tf).
Proof.
  split.
  - unfold infrav1.GetRetryInterval. destruct (infrav1.RetryInterval _); reflexivity.
  - intros r req w w0 Hget Hnone Hlive.
    destruct (Reconcile_decided r req w w0 tf Hget) as [Hd|[Hz|[Hr|Hi]]].
    + congruence.
    + left. exact Hz.
    + right. rewrite Hr. unfold infrav1.GetRetryInterval. rewrite Hnone. reflexivity.
    + right. exact Hi.
Qed.

End RetryInterval.

(** The source of [app] is absent: the attempt is requeued after the
    interval, 60, since [app] declares no retry interval. *)
Lemma GetRetryInterval_fallback_witness :
  infrav1.GetRetryInterval examples.app = 60
  /\ (ctrl.RequeueAfter
        (fst (fst (controllers.Reconcile examples.collaborators examples.request
                     examples.sourceless))) = 0
      \/ ctrl.RequeueAfter
           (fst (fst (controllers.Reconcile examples.collaborators examples.request
                        examples.sourceless))) = 60).
Proof.
  split.
  - exact (proj1 (GetRetryInterval_fallback (C := fake.Cluster) examples.app)).
  - refine (proj2 (GetRetryInterval_fallback examples.app)
              examples.collaborators examples.request examples.sourceless
              examples.sourceless _ _ _); vm_compute; reflexivity.
Defined.

(** The scenario in full: the status becomes not ready with the reason
    [ArtifactFailed], and the requeue is after the retry interval. *)
Example Reconcile_source_absent :
  fst (controllers.Reconcile examples.collaborators examples.request examples.sourceless)
  = (ctrl.After (infrav1.GetRetryInterval examples.app), None)
  /\ option_map
       (fun tf => apimeta.FindStatusCondition
                    (infrav1.Conditions (infrav1.Status tf)) meta.ReadyCondition)
       (fake.terraforms
          (controllers.cluster
             (snd (controllers.Reconcile examples.collaborators examples.request
                     examples.sourceless))) !! ("infra", "app"))
     = Some (Some (metav1.mkCondition "Ready" metav1.ConditionFalse 0 100
                     "ArtifactFailed" "Source 'GitRepository/repo' not found")).
Proof. vm_compute. split; reflexivity. Qed.

(** * More on the status transitions *)

Lemma substring_append_exact (s1 s2 : string) :
  substring 0 (String.length s1) (s1 +:+ s2) = s1.
Proof. induction s1 as [|a s1 IH]; simpl; [destruct s2|rewrite IH]; reflexivity. Qed.

Lemma substring_skip (s1 s2 : string) (m : nat) :
  substring (String.length s1) m (s1 +:+ s2) = substring 0 m s2.
Proof. induction s1 as [|a s1 IH]; simpl; [reflexivity | exact IH]. Qed.

(** X1. [trimString] with a limit that is not negative: the result is never
    longer than the limit and three bytes; a string within the limit comes
    back unchanged; a longer one comes back as its first [limit] bytes and
    three dots, [limit + 3] bytes in all; and trimming the result again with
    the same limit changes nothing. *)
Theorem trimString_idempotent (str : string) (limit : Z) (Hlimit : 0 <= limit) :
  strings.len (infrav1.trimString str limit) <= limit + 3
  /\ (strings.len str <= limit -> infrav1.trimString str limit = str)
  /\ (limit < strings.len str ->
      infrav1.trimString str limit = strings.slice str 0 limit +:+ "..."
      /\ strings.len (infrav1.trimString str limit) = limit + 3)
  /\ infrav1.trimString (infrav1.trimString str limit) limit
     = infrav1.trimString str limit.
Proof.
  pose proof (trimString_length str limit Hlimit) as Hlen.
  destruct (Z.leb (strings.len str) limit) eqn:E.
  - assert (Hid : infrav1.trimString str limit = str).
    { unfold infrav1.trimString. rewrite E. reflexivity. }
    apply Z.leb_le in E.
    repeat split.
    + lia.
    + intros _. exact Hid.
    + lia.
    + lia.
    + rewrite Hid. exact Hid.
  - assert (Hcut : infrav1.trimString str limit = strings.slice str 0 limit +:+ "...").
    { unfold infrav1.trimString. rewrite E. reflexivity. }
    apply Z.leb_gt in E.
    repeat split.
    + lia.
    + lia.
    + exact Hcut.
    + exact Hlen.
    + assert (Hslice : String.length (strings.slice str 0 limit) = Z.to_nat limit).
      { unfold strings.slice. rewrite length_substring; [lia|].
        unfold strings.len in E. lia. }
      unfold infrav1.trimString at 1.
      replace (Z.leb (strings.len (infrav1.trimString str limit)) limit) with false
        by (symmetry; apply Z.leb_gt; lia).
      rewrite Hcut. f_equal. unfold strings.slice at 1.
      replace (Z.to_nat 0) with 0%nat by reflexivity.
      replace (Z.to_nat (limit - 0)) with (String.length (strings.slice str 0 limit))
        by (rewrite Hslice; f_equal; lia).
      apply substring_append_exact.
Qed.

Lemma trimString_idempotent_witness :
  strings.len (infrav1.trimString "abcdef" 3) <= 3 + 3
  /\ (strings.len "abcdef" <= 3 -> infrav1.trimString "abcdef" 3 = "abcdef")
  /\ (3 < strings.len "abcdef" ->
      infrav1.trimString "abcdef" 3 = strings.slice "abcdef" 0 3 +:+ "..."
      /\ strings.len (infrav1.trimString "abcdef" 3) = 3 + 3)
  /\ infrav1.trimString (infrav1.trimString "abcdef" 3) 3
     = infrav1.trimString "abcdef" 3.
Proof. apply (trimString_idempotent "abcdef" 3). lia. Defined.

(** ** Every transition *)

Lemma setCondition_upserts (cs : list metav1.Condition) (tf : infrav1.Terraform)
  (type : string) (status : metav1.ConditionStatus) (reason message : string)
  (k : metav1.Clock) :
  upserts cs (infrav1.Conditions (infrav1.Status tf)) ->
  upserts cs
    (infrav1.Conditions (infrav1.Status
       (fst (infrav1.setCondition tf
               (infrav1.newCondition type status reason
                  (infrav1.trimString message infrav1.MaxConditionMessageLength)) k)))).
Proof. intros Hu. rewrite setCondition_fst. cbn. apply upserts_step, Hu. Qed.

Lemma SetTerraformReadiness_upserts (cs : list metav1.Condition) (tf : infrav1.Terraform)
  (status : metav1.ConditionStatus) (reason message revision : string)
  (k : metav1.Clock) :
  upserts cs (infrav1.Conditions (infrav1.Status tf)) ->
  upserts cs
    (infrav1.Conditions (infrav1.Status
       (fst (infrav1.SetTerraformReadiness tf status reason message revision k)))).
Proof. intros Hu. rewrite SetTerraformReadiness_fst. cbn. apply upserts_step, Hu. Qed.

Ltac step_through :=
  repeat first
    [ rewrite bind_run
    | rewrite ret_run
    | rewrite Now_run
    | progress cbn [fst snd] ].

Ltac unfold_transition :=
  cbn [transition];
  unfold infrav1.TerraformApplying, infrav1.TerraformOutputsAvailable,
    infrav1.TerraformOutputsWritten, infrav1.TerraformApplied,
    infrav1.TerraformPostPlanningWebhookFailed,
    infrav1.TerraformPlannedWithChanges, infrav1.TerraformPlannedNoChanges,
    infrav1.TerraformProgressing,
    infrav1.TerraformAppliedFailResetPlanAndNotReady, infrav1.TerraformNotReady,
    infrav1.TerraformDriftDetected, infrav1.TerraformNoDrift,
    infrav1.TerraformHealthCheckFailed, infrav1.TerraformHealthCheckSucceeded,
    infrav1.TerraformForceUnlock, infrav1.TerraformStateLocked;
  try destruct (infrav1.GetPlanIdAndApproveMessage _ _) as [planId approveMessage];
  step_through;
  repeat match goal with
    | |- context [if ?b then _ else _] => destruct b
    end;
  step_through.

Ltac status_fields :=
  cbn [infrav1.upd infrav1.set_Status infrav1.Status infrav1.Conditions
       infrav1.Spec infrav1.ObjectMeta
       infrav1.ObservedGeneration infrav1.LastAttemptedRevision
       infrav1.set_LastAttemptedRevision infrav1.set_Plan
       infrav1.set_LastAppliedRevision infrav1.set_Inventory
       infrav1.set_LastPlannedRevision infrav1.set_AvailableOutputs
       infrav1.set_LastDriftDetectedAt infrav1.set_Lock
       infrav1.set_LastAppliedByDriftDetectionAt infrav1.rotateLock
       infrav1.set_ObservedGeneration infrav1.set_Conditions].

Ltac through_sets :=
  repeat first
    [ rewrite SetTerraformReadiness_fst
    | rewrite setCondition_fst
    | progress status_fields ].

Lemma transition_upserts (t : Transition) (tf : infrav1.Terraform) (k : metav1.Clock) :
  upserts (infrav1.Conditions (infrav1.Status tf))
    (infrav1.Conditions (infrav1.Status (fst (transition t tf k)))).
Proof.
  destruct t; unfold_transition;
    repeat first
      [ apply upserts_refl
      | apply SetTerraformReadiness_upserts
      | apply setCondition_upserts
      | progress status_fields ].
Qed.

Lemma transition_frame (t : Transition) (tf : infrav1.Terraform) (k : metav1.Clock) :
  infrav1.Spec (fst (transition t tf k)) = infrav1.Spec tf
  /\ infrav1.ObjectMeta (fst (transition t tf k)) = infrav1.ObjectMeta tf.
Proof.
  destruct t; unfold_transition;
    repeat first
      [ rewrite SetTerraformReadiness_fst
      | rewrite setCondition_fst
      | progress status_fields ];
    split; reflexivity.
Qed.

(** *** What setting a condition keeps *)

Lemma SetStatusCondition_types (cs : list metav1.Condition) (c : metav1.Condition)
  (k : metav1.Clock) :
  map metav1.Type_ (fst (apimeta.SetStatusCondition cs c k))
  = match apimeta.FindStatusCondition cs (metav1.Type_ c) with
    | Some _ => map metav1.Type_ cs
    | None => (map metav1.Type_ cs ++ [metav1.Type_ c])%list
    end.
Proof.
  induction cs as [|c0 cs IH]; simpl.
  - rewrite bind_run, ret_run. cbn [fst map].
    unfold apimeta.appendNew. destruct (metav1.IsZero _); reflexivity.
  - destruct (String.eqb (metav1.Type_ c0) (metav1.Type_ c)) eqn:E;
      rewrite bind_run, ret_run; cbn [fst map].
    + rewrite updateExisting_Type. reflexivity.
    + rewrite IH. destruct (apimeta.FindStatusCondition cs (metav1.Type_ c)); reflexivity.
Qed.

Lemma FindStatusCondition_None (cs : list metav1.Condition) (type : string) :
  apimeta.FindStatusCondition cs type = None -> ~ In type (map metav1.Type_ cs).
Proof.
  induction cs as [|c0 cs IH]; simpl; [tauto|].
  destruct (String.eqb (metav1.Type_ c0) type) eqn:E; [discriminate|].
  apply String.eqb_neq in E. intros Hnone [Heq | Hin]; [contradiction|].
  exact (IH Hnone Hin).
Qed.

Lemma SetStatusCondition_uniqueTypes (cs : list metav1.Condition) (c : metav1.Condition)
  (k : metav1.Clock) :
  uniqueTypes cs -> uniqueTypes (fst (apimeta.SetStatusCondition cs c k)).
Proof.
  unfold uniqueTypes. intros Hu. rewrite SetStatusCondition_types.
  destruct (apimeta.FindStatusCondition cs (metav1.Type_ c)) eqn:E; [exact Hu|].
  apply FindStatusCondition_None in E.
  apply NoDup_app. split; [exact Hu|]. split.
  - intros x Hx Hin. apply list_elem_of_In in Hx.
    apply list_elem_of_In in Hin. destruct Hin as [<-|[]]. contradiction.
  - repeat constructor. intros Hin. apply list_elem_of_In in Hin. destruct Hin.
Qed.

Lemma SetStatusCondition_Forall (P : metav1.Condition -> Prop)
  (cs : list metav1.Condition) (c : metav1.Condition) (k : metav1.Clock) :
  (forall c', metav1.Message c' = metav1.Message c -> P c') ->
  Forall P cs -> Forall P (fst (apimeta.SetStatusCondition cs c k)).
Proof.
  intros Hnew. induction cs as [|c0 cs IH]; simpl; intros Hall.
  - rewrite bind_run, ret_run. cbn [fst]. constructor; [|constructor].
    apply Hnew. unfold apimeta.appendNew. destruct (metav1.IsZero _); reflexivity.
  - inversion Hall as [|? ? H0 Hrest]; subst.
    destruct (String.eqb (metav1.Type_ c0) (metav1.Type_ c));
      rewrite bind_run, ret_run; cbn [fst]; constructor; auto.
    apply Hnew. unfold apimeta.updateExisting.
    destruct (metav1.ConditionStatus_eqb _ _); [reflexivity|].
    destruct (negb _); reflexivity.
Qed.

Lemma SetStatusCondition_keeps (cs : list metav1.Condition) (c : metav1.Condition)
  (k : metav1.Clock) (type : string) :
  apimeta.FindStatusCondition cs type <> None ->
  apimeta.FindStatusCondition (fst (apimeta.SetStatusCondition cs c k)) type <> None.
Proof.
  induction cs as [|c0 cs IH]; simpl; [congruence|].
  destruct (String.eqb (metav1.Type_ c0) (metav1.Type_ c)) eqn:E;
    rewrite bind_run, ret_run; cbn [fst apimeta.FindStatusCondition].
  - rewrite updateExisting_Type.
    destruct (String.eqb (metav1.Type_ c0) type); [discriminate | tauto].
  - destruct (String.eqb (metav1.Type_ c0) type); [discriminate | exact IH].
Qed.

Lemma upserts_invariant (I : list metav1.Condition -> Prop) :
  (forall cs type status reason message k,
      I cs ->
      I (fst (apimeta.SetStatusCondition cs
                (infrav1.newCondition type status reason
                   (infrav1.trimString message infrav1.MaxConditionMessageLength)) k))) ->
  forall cs cs', upserts cs cs' -> I cs -> I cs'.
Proof.
  intros Hstep cs cs' Hu Hi. induction Hu; [exact Hi|]. apply Hstep. auto.
Qed.

(** X2. Every status transition leaves the spec and the object's metadata
    as they are, removes no condition type from the status, and keeps the
    condition types free of duplicates when they were. *)
Theorem transition_keeps (t : Transition) (tf : infrav1.Terraform) (k : metav1.Clock) :
  let after := fst (transition t tf k) in
  infrav1.Spec after = infrav1.Spec tf
  /\ infrav1.ObjectMeta after = infrav1.ObjectMeta tf
  /\ (forall type,
        apimeta.FindStatusCondition (infrav1.Conditions (infrav1.Status tf)) type
        <> None ->
        apimeta.FindStatusCondition (infrav1.Conditions (infrav1.Status after)) type
        <> None)
  /\ (uniqueTypes (infrav1.Conditions (infrav1.Status tf)) ->
      uniqueTypes (infrav1.Conditions (infrav1.Status after))).
Proof.
  cbv zeta. destruct (transition_frame t tf k) as [Hs Hm].
  pose proof (transition_upserts t tf k) as Hu.
  split; [exact Hs|]. split; [exact Hm|]. split.
  - intros type Hin.
    refine (upserts_invariant
              (fun cs => apimeta.FindStatusCondition cs type <> None) _ _ _ Hu Hin).
    intros. apply SetStatusCondition_keeps. assumption.
  - intros Hun. refine (upserts_invariant uniqueTypes _ _ _ Hu Hun).
    intros. apply SetStatusCondition_uniqueTypes. assumption.
Qed.

(** X3. When no condition's message is longer than
    [MaxConditionMessageLength] and three bytes, no status transition, with
    whatever message, makes one longer than that. *)
Theorem transition_boundedMessages (t : Transition) (tf : infrav1.Terraform)
  (k : metav1.Clock)
  (Hbounded : boundedMessages (infrav1.Conditions (infrav1.Status tf))) :
  boundedMessages (infrav1.Conditions (infrav1.Status (fst (transition t tf k)))).
Proof.
  refine (upserts_invariant boundedMessages _ _ _ (transition_upserts t tf k) Hbounded).
  intros cs type status reason message k' Hb.
  apply SetStatusCondition_Forall; [|exact Hb].
  intros c' ->. cbn [metav1.Message infrav1.newCondition].
  pose proof (trimString_length message infrav1.MaxConditionMessageLength) as Hlen.
  assert (Hmax : 0 <= infrav1.MaxConditionMessageLength)
    by (unfold infrav1.MaxConditionMessageLength; lia).
  rewrite (Hlen Hmax). destruct (Z.leb _ _) eqn:E; [apply Z.leb_le in E|]; lia.
Qed.

Lemma transition_boundedMessages_witness :
  boundedMessages
    (infrav1.Conditions (infrav1.Status
       (fst (transition (NotReady "" infrav1.ArtifactFailedReason examples.longMessage)
               examples.app examples.clock)))).
Proof.
  apply (transition_boundedMessages
           (NotReady "" infrav1.ArtifactFailedReason examples.longMessage)
           examples.app examples.clock).
  repeat constructor; vm_compute; discriminate.
Defined.

Lemma SetStatusCondition_find_status (cs : list metav1.Condition) (type : string)
  (status : metav1.ConditionStatus) (reason message : string) (k : metav1.Clock) :
  exists c,
    apimeta.FindStatusCondition
      (fst (apimeta.SetStatusCondition cs
              (infrav1.newCondition type status reason message) k)) type = Some c
    /\ metav1.Status c = status.
Proof.
  eexists. split.
  - apply (SetStatusCondition_find cs (infrav1.newCondition type status reason message)).
    reflexivity.
  - reflexivity.
Qed.

(** X4. What each transition does to the Ready condition.
    [TerraformOutputsWritten], [TerraformPlannedNoChanges] and
    [TerraformNoDrift] set it true; [TerraformApplied],
    [TerraformPlannedWithChanges] and [TerraformProgressing] set it unknown;
    [TerraformNotReady], [TerraformAppliedFailResetPlanAndNotReady],
    [TerraformDriftDetected] and [TerraformStateLocked] set it false;
    [SetTerraformReadiness] sets the status it is given; and
    [TerraformApplying], [TerraformOutputsAvailable],
    [TerraformPostPlanningWebhookFailed], the two health-check transitions
    and [TerraformForceUnlock] leave the Ready condition as it was. *)
Theorem transition_readiness (t : Transition) (tf : infrav1.Terraform)
  (k : metav1.Clock) :
  let ready (tf : infrav1.Terraform) :=
    apimeta.FindStatusCondition (infrav1.Conditions (infrav1.Status tf))
      meta.ReadyCondition in
  match readiness t with
  | Some status =>
      exists c, ready (fst (transition t tf k)) = Some c /\ metav1.Status c = status
  | None => ready (fst (transition t tf k)) = ready tf
  end.
Proof.
  cbv zeta.
  destruct t; cbn [readiness]; unfold_transition; through_sets;
    first [ apply SetStatusCondition_find_status
          | repeat (rewrite SetStatusCondition_find_other by discriminate);
            reflexivity ].
Qed.

(** X5. The transitions that go through [SetTerraformReadiness] record the
    revision they are given as the last attempted one, the empty revision
    included ([TerraformStateLocked] always passes the empty one), and the
    object's generation as the observed one; the other transitions leave the
    observed generation as it was. *)
Theorem transition_bookkeeping (t : Transition) (tf : infrav1.Terraform)
  (k : metav1.Clock) :
  let after := infrav1.Status (fst (transition t tf k)) in
  match attempted t with
  | Some revision =>
      infrav1.LastAttemptedRevision after = revision
      /\ infrav1.ObservedGeneration after = metav1.Generation (infrav1.ObjectMeta tf)
  | None =>
      infrav1.ObservedGeneration after = infrav1.ObservedGeneration (infrav1.Status tf)
  end.
Proof.
  cbv zeta.
  destruct t; cbn [attempted]; unfold_transition; through_sets;
    first [ split; reflexivity | reflexivity ].
Qed.

(** ** Drift *)

Lemma driftedSince_other (d : option metav1.Time) (c : metav1.Condition) :
  metav1.Type_ c <> infrav1.ConditionTypeApply -> infrav1.driftedSince d c = false.
Proof.
  intros Hne. unfold infrav1.driftedSince.
  apply String.eqb_neq in Hne. rewrite Hne. reflexivity.
Qed.

(** Setting a condition of another type than Apply does not change what
    [HasDrift] finds. *)
Lemma HasDrift_loop_set_other (d : option metav1.Time) (cs : list metav1.Condition)
  (c : metav1.Condition) (k : metav1.Clock) :
  metav1.Type_ c <> infrav1.ConditionTypeApply ->
  infrav1.HasDrift_loop d (fst (apimeta.SetStatusCondition cs c k))
  = infrav1.HasDrift_loop d cs.
Proof.
  intros Hne. induction cs as [|c0 cs IH]; simpl.
  - rewrite bind_run, ret_run. cbn [fst infrav1.HasDrift_loop].
    rewrite driftedSince_other; [reflexivity|].
    unfold apimeta.appendNew. destruct (metav1.IsZero _); exact Hne.
  - destruct (String.eqb (metav1.Type_ c0) (metav1.Type_ c)) eqn:E;
      rewrite bind_run, ret_run; cbn [fst infrav1.HasDrift_loop].
    + apply String.eqb_eq in E.
      rewrite (driftedSince_other d c0) by congruence.
      rewrite driftedSince_other; [reflexivity|].
      rewrite updateExisting_Type. congruence.
    + rewrite IH. reflexivity.
Qed.

(** X6. Right after [TerraformDriftDetected], [HasDrift] answers yes exactly
    when the object had a true Apply condition whose last transition is
    strictly before the instant the detection reads from the clock. *)
Theorem TerraformDriftDetected_HasDrift (tf : infrav1.Terraform)
  (revision reason message : string) (k : metav1.Clock) :
  infrav1.HasDrift (fst (infrav1.TerraformDriftDetected tf revision reason message k))
  = true
  <-> exists c,
        In c (infrav1.Conditions (infrav1.Status tf))
        /\ metav1.Type_ c = infrav1.ConditionTypeApply
        /\ metav1.Status c = metav1.ConditionTrue
        /\ metav1.LastTransitionTime c < metav1.readings k (metav1.reads k).
Proof.
  unfold infrav1.TerraformDriftDetected. rewrite bind_run, Now_run. cbn [fst snd].
  rewrite SetTerraformReadiness_fst. unfold infrav1.HasDrift.
  cbn [infrav1.upd infrav1.set_Status infrav1.Status infrav1.Conditions
       infrav1.LastDriftDetectedAt infrav1.set_LastAttemptedRevision
       infrav1.set_ObservedGeneration infrav1.set_Conditions
       infrav1.set_LastDriftDetectedAt].
  rewrite HasDrift_loop_set_other by discriminate.
  rewrite HasDrift_loop_true. split.
  - intros (c & Hin & Hd). apply driftedSince_true in Hd as (Hty & Hst & t & Ht & Hlt).
    injection Ht as <-. exists c. auto.
  - intros (c & Hin & Hty & Hst & Hlt). exists c. split; [exact Hin|].
    apply driftedSince_true. eauto.
Qed.

Lemma HasDrift_loop_false (d : option metav1.Time) (cs : list metav1.Condition) :
  (forall c, In c cs -> infrav1.driftedSince d c = false) ->
  infrav1.HasDrift_loop d cs = false.
Proof.
  intros Hall. apply not_true_is_false. intros E.
  apply HasDrift_loop_true in E as (c & Hin & Hd). rewrite (Hall c Hin) in Hd.
  discriminate.
Qed.

Lemma FindStatusCondition_unique (cs : list metav1.Condition) (c : metav1.Condition) :
  uniqueTypes cs -> In c cs -> apimeta.FindStatusCondition cs (metav1.Type_ c) = Some c.
Proof.
  unfold uniqueTypes. induction cs as [|c0 cs IH]; simpl; [tauto|].
  intros Hu [-> | Hin].
  - rewrite String.eqb_refl. reflexivity.
  - apply NoDup_cons in Hu as [Hnotin Hu].
    destruct (String.eqb (metav1.Type_ c0) (metav1.Type_ c)) eqn:E.
    + apply String.eqb_eq in E. exfalso. apply Hnotin. rewrite E.
      apply list_elem_of_In, in_map, Hin.
    + apply IH; assumption.
Qed.

(** X7. An apply clears the drift: when the condition types are free of
    duplicates, the clock does not go back and the last drift was detected
    no later than now, [HasDrift] answers no after [TerraformApplying]
    followed by [TerraformApplied]. *)
Theorem apply_resets_drift (tf : infrav1.Terraform)
  (revision message revision' message' : string) (isDestroyApply : bool)
  (entries : list infrav1.ResourceRef) (k : metav1.Clock)
  (Hunique : uniqueTypes (infrav1.Conditions (infrav1.Status tf)))
  (Hclock : monotone k)
  (Hpast : forall t, infrav1.LastDriftDetectedAt (infrav1.Status tf) = Some t ->
                     t <= metav1.readings k (metav1.reads k)) :
  infrav1.HasDrift
    (fst (infrav1.TerraformApplied
            (fst (infrav1.TerraformApplying tf revision message k))
            revision' message' isDestroyApply entries
            (snd (infrav1.TerraformApplying tf revision message k))))
  = false.
Proof.
  set (cUnknown := infrav1.newCondition infrav1.ConditionTypeApply
                     metav1.ConditionUnknown meta.ProgressingReason
                     (infrav1.trimString message infrav1.MaxConditionMessageLength)).
  set (cs := infrav1.Conditions (infrav1.Status tf)) in *.
  set (cs1 := fst (apimeta.SetStatusCondition cs cUnknown k)).
  set (k1 := snd (apimeta.SetStatusCondition cs cUnknown k)).
  assert (Hk1 : snd (infrav1.TerraformApplying tf revision message k) = k1).
  { unfold infrav1.TerraformApplying. rewrite bind_run, ret_run. cbn [snd].
    apply setCondition_snd. }
  assert (Hcs1 : infrav1.Conditions (infrav1.Status
                   (fst (infrav1.TerraformApplying tf revision message k))) = cs1).
  { unfold infrav1.TerraformApplying. rewrite bind_run, ret_run. cbn [fst].
    rewrite setCondition_fst. destruct (negb _); reflexivity. }
  assert (Hd1 : infrav1.LastDriftDetectedAt (infrav1.Status
                  (fst (infrav1.TerraformApplying tf revision message k)))
                = infrav1.LastDriftDetectedAt (infrav1.Status tf)).
  { unfold infrav1.TerraformApplying. rewrite bind_run, ret_run. cbn [fst].
    rewrite setCondition_fst. destruct (negb _); reflexivity. }
  rewrite Hk1. clear Hk1.
  generalize dependent (fst (infrav1.TerraformApplying tf revision message k)).
  intros tf1 Hcs1 Hd1.
  set (cTrue := infrav1.newCondition infrav1.ConditionTypeApply metav1.ConditionTrue
                  infrav1.TFExecApplySucceedReason
                  (infrav1.trimString message' infrav1.MaxConditionMessageLength)).
  set (cs2 := fst (apimeta.SetStatusCondition cs1 cTrue k1)).
  assert (Hloop : infrav1.HasDrift
                    (fst (infrav1.TerraformApplied tf1 revision' message'
                            isDestroyApply entries k1))
                  = infrav1.HasDrift_loop
                      (infrav1.LastDriftDetectedAt (infrav1.Status tf)) cs2).
  { unfold infrav1.HasDrift, infrav1.TerraformApplied.
    rewrite bind_run, setCondition_fst, Hcs1. fold cTrue. fold cs2.
    rewrite bind_run.
    destruct (infrav1.PlanStatus.IsDriftDetectionPlan _);
      [rewrite bind_run, Now_run, ret_run | rewrite ret_run];
      cbn [fst snd]; rewrite SetTerraformReadiness_fst;
      destruct (negb _), (0 <? length entries)%nat;
      cbn [infrav1.upd infrav1.set_Status infrav1.Status infrav1.Conditions
           infrav1.LastDriftDetectedAt infrav1.set_LastAttemptedRevision
           infrav1.set_ObservedGeneration infrav1.set_Conditions
           infrav1.set_Plan infrav1.set_LastAppliedRevision infrav1.set_Inventory
           infrav1.set_LastAppliedByDriftDetectionAt];
      rewrite HasDrift_loop_set_other by discriminate;
      rewrite Hd1; reflexivity. }
  rewrite Hloop. clear Hloop. apply HasDrift_loop_false. intros c' Hin.
  destruct (String.eqb (metav1.Type_ c') infrav1.ConditionTypeApply) eqn:Ety;
    [|apply driftedSince_other, String.eqb_neq, Ety].
  apply String.eqb_eq in Ety.
  assert (Hu2 : uniqueTypes cs2)
    by (apply SetStatusCondition_uniqueTypes, SetStatusCondition_uniqueTypes, Hunique).
  pose proof (FindStatusCondition_unique cs2 c' Hu2 Hin) as Hfind. rewrite Ety in Hfind.
  pose proof (SetStatusCondition_find cs1 cTrue k1 eq_refl) as Hset. fold cs2 in Hset.
  pose proof (SetStatusCondition_find cs cUnknown k eq_refl) as Hset1. fold cs1 in Hset1.
  cbn [metav1.Type_ cTrue cUnknown infrav1.newCondition] in Hset, Hset1.
  unfold infrav1.ConditionTypeApply in *.
  rewrite Hset1 in Hset. cbn in Hset. rewrite Hset in Hfind.
  injection Hfind as <-.
  unfold infrav1.driftedSince. cbn.
  destruct (infrav1.LastDriftDetectedAt (infrav1.Status tf)) as [t|] eqn:Ed;
    [|reflexivity].
  unfold metav1.After. apply Z.ltb_ge.
  pose proof (SetStatusCondition_extends cs cUnknown k) as [Hr Hl]. fold k1 in Hr, Hl.
  rewrite Hr. specialize (Hpast t eq_refl). specialize (Hclock _ _ Hl). lia.
Qed.

Lemma apply_resets_drift_witness :
  infrav1.HasDrift
    (fst (infrav1.TerraformApplied
            (fst (infrav1.TerraformApplying examples.drifted "main/abc" "Applying"
                    examples.clock))
            "main/abc" "Applied successfully" false []
            (snd (infrav1.TerraformApplying examples.drifted "main/abc" "Applying"
                    examples.clock))))
  = false.
Proof.
  apply (apply_resets_drift examples.drifted "main/abc" "Applying" "main/abc"
           "Applied successfully" false [] examples.clock).
  - repeat constructor; vm_compute; intros Hin;
      repeat (apply elem_of_cons in Hin as [Hin|Hin]; [discriminate Hin|]);
      apply elem_of_nil in Hin; exact Hin.
  - intros n m Hle. cbn. lia.
  - intros t Ht. injection Ht as <-. cbn. lia.
Defined.

Lemma drifted_survives_apply (d : option metav1.Time) (cs : list metav1.Condition)
  (c : metav1.Condition) (reason message : string) (k : metav1.Clock) :
  In c cs -> infrav1.driftedSince d c = true ->
  exists c',
    In c' (fst (apimeta.SetStatusCondition cs
                  (infrav1.newCondition infrav1.ConditionTypeApply metav1.ConditionTrue
                     reason message) k))
    /\ infrav1.driftedSince d c' = true.
Proof.
  intros Hin Hd. induction cs as [|c0 cs IH]; [destruct Hin|]. simpl.
  destruct (String.eqb (metav1.Type_ c0) infrav1.ConditionTypeApply) eqn:E;
    rewrite bind_run, ret_run; cbn [fst].
  - destruct Hin as [-> | Hin].
    + eexists. split; [left; reflexivity|].
      apply driftedSince_true in Hd as (Hty & Hst & t & -> & Hlt).
      rewrite updateExisting_run by reflexivity.
      apply driftedSince_true. cbn. rewrite Hst. cbn. eauto.
    + exists c. split; [right; exact Hin | exact Hd].
  - destruct Hin as [-> | Hin].
    + exists c. split; [left; reflexivity | exact Hd].
    + destruct (IH Hin) as (c' & Hin' & Hd'). exists c'. split; [right|]; assumption.
Qed.

(** X8. [TerraformApplied] alone does not clear the drift: on an object for
    which [HasDrift] answers yes, it still does afterwards, since the Apply
    condition was true already and keeps its transition time. *)
Theorem TerraformApplied_keeps_drift (tf : infrav1.Terraform)
  (revision message : string) (isDestroyApply : bool)
  (entries : list infrav1.ResourceRef) (k : metav1.Clock)
  (Hdrift : infrav1.HasDrift tf = true) :
  infrav1.HasDrift
    (fst (infrav1.TerraformApplied tf revision message isDestroyApply entries k))
  = true.
Proof.
  unfold infrav1.HasDrift in *. apply HasDrift_loop_true in Hdrift as (c & Hin & Hd).
  destruct (drifted_survives_apply _ _ c infrav1.TFExecApplySucceedReason
              (infrav1.trimString message infrav1.MaxConditionMessageLength) k Hin Hd)
    as (c' & Hin' & Hd').
  unfold infrav1.TerraformApplied. rewrite bind_run, setCondition_fst, bind_run.
  destruct (infrav1.PlanStatus.IsDriftDetectionPlan _);
    [rewrite bind_run, Now_run, ret_run | rewrite ret_run];
    cbn [fst snd]; rewrite SetTerraformReadiness_fst;
    destruct (negb _), (0 <? length entries)%nat;
    cbn [infrav1.upd infrav1.set_Status infrav1.Status infrav1.Conditions
         infrav1.LastDriftDetectedAt infrav1.set_LastAttemptedRevision
         infrav1.set_ObservedGeneration infrav1.set_Conditions
         infrav1.set_Plan infrav1.set_LastAppliedRevision infrav1.set_Inventory
         infrav1.set_LastAppliedByDriftDetectionAt];
    rewrite HasDrift_loop_set_other by discriminate;
    apply HasDrift_loop_true; exists c'; split; assumption.
Qed.

Lemma TerraformApplied_keeps_drift_witness :
  infrav1.HasDrift
    (fst (infrav1.TerraformApplied examples.drifted "main/abc" "Applied successfully"
            false [] examples.clock))
  = true.
Proof.
  apply (TerraformApplied_keeps_drift examples.drifted "main/abc"
           "Applied successfully" false [] examples.clock).
  reflexivity.
Defined.

(** ** Plans *)

Lemma TerraformApplied_stamp (tf : infrav1.Terraform) (revision message : string)
  (isDestroyApply : bool) (entries : list infrav1.ResourceRef) (k : metav1.Clock) :
  infrav1.LastAppliedByDriftDetectionAt
    (infrav1.Status
       (fst (infrav1.TerraformApplied tf revision message isDestroyApply entries k)))
  = if infrav1.PlanStatus.IsDriftDetectionPlan (infrav1.Plan (infrav1.Status tf))
    then Some (metav1.readings k
                 (metav1.reads
                    (snd (apimeta.SetStatusCondition
                            (infrav1.Conditions (infrav1.Status tf))
                            (infrav1.newCondition infrav1.ConditionTypeApply
                               metav1.ConditionTrue infrav1.TFExecApplySucceedReason
                               (infrav1.trimString message
                                  infrav1.MaxConditionMessageLength)) k))))
    else infrav1.LastAppliedByDriftDetectionAt (infrav1.Status tf).
Proof.
  unfold infrav1.TerraformApplied. rewrite bind_run.
  pose proof (setCondition_extends tf
                (infrav1.newCondition infrav1.ConditionTypeApply
                   metav1.ConditionTrue infrav1.TFExecApplySucceedReason
                   (infrav1.trimString message infrav1.MaxConditionMessageLength)) k)
    as [Hr _].
  rewrite setCondition_snd in Hr. rewrite setCondition_fst, setCondition_snd, bind_run.
  cbn [infrav1.upd infrav1.set_Status infrav1.Status infrav1.Plan
       infrav1.set_Conditions].
  destruct (infrav1.PlanStatus.IsDriftDetectionPlan (infrav1.Plan (infrav1.Status tf)));
    [rewrite bind_run, Now_run, ret_run | rewrite ret_run];
    cbn [fst snd]; rewrite SetTerraformReadiness_fst;
    destruct (negb _), (0 <? length entries)%nat; cbn; rewrite ?Hr; reflexivity.
Qed.

(** X9. [TerraformPlannedWithChanges] makes the plan of the given revision
    the pending one, keeps the last applied plan, copies the spec's destroy
    flag, and marks the plan as a drift-detection plan exactly when
    [HasDrift] holds of the object; a later [TerraformApplied] then stamps
    [LastAppliedByDriftDetectionAt] with its reading of the clock in that
    case, and leaves the field alone otherwise. *)
Theorem TerraformPlannedWithChanges_plan (tf : infrav1.Terraform) (revision : string)
  (forceOrAutoApply : bool) (message : string) (k : metav1.Clock) :
  let planned :=
    fst (infrav1.TerraformPlannedWithChanges tf revision forceOrAutoApply message k) in
  infrav1.Plan (infrav1.Status planned)
  = infrav1.PlanStatus.mk
      (infrav1.PlanStatus.LastApplied (infrav1.Plan (infrav1.Status tf)))
      (fst (infrav1.GetPlanIdAndApproveMessage revision message))
      (infrav1.Destroy (infrav1.Spec tf))
      (infrav1.HasDrift tf)
  /\ forall revision' message' isDestroyApply entries k',
       infrav1.LastAppliedByDriftDetectionAt
         (infrav1.Status
            (fst (infrav1.TerraformApplied planned revision' message' isDestroyApply
                    entries k')))
       = if infrav1.HasDrift tf
         then Some (metav1.readings k'
                      (metav1.reads
                         (snd (apimeta.SetStatusCondition
                                 (infrav1.Conditions (infrav1.Status planned))
                                 (infrav1.newCondition infrav1.ConditionTypeApply
                                    metav1.ConditionTrue
                                    infrav1.TFExecApplySucceedReason
                                    (infrav1.trimString message'
                                       infrav1.MaxConditionMessageLength)) k'))))
         else infrav1.LastAppliedByDriftDetectionAt (infrav1.Status tf).
Proof.
  cbv zeta.
  assert (Hplan :
    infrav1.Plan (infrav1.Status
      (fst (infrav1.TerraformPlannedWithChanges tf revision forceOrAutoApply message k)))
    = infrav1.PlanStatus.mk
        (infrav1.PlanStatus.LastApplied (infrav1.Plan (infrav1.Status tf)))
        (fst (infrav1.GetPlanIdAndApproveMessage revision message))
        (infrav1.Destroy (infrav1.Spec tf))
        (infrav1.HasDrift tf)
    /\ infrav1.LastAppliedByDriftDetectionAt (infrav1.Status
         (fst (infrav1.TerraformPlannedWithChanges tf revision forceOrAutoApply
                 message k)))
       = infrav1.LastAppliedByDriftDetectionAt (infrav1.Status tf)).
  { unfold infrav1.TerraformPlannedWithChanges.
    destruct (infrav1.GetPlanIdAndApproveMessage revision message)
      as [planId approveMessage].
    rewrite bind_run, setCondition_fst.
    assert (Hdrift :
      infrav1.HasDrift
        (infrav1.upd infrav1.set_Conditions tf
           (fst (apimeta.SetStatusCondition (infrav1.Conditions (infrav1.Status tf))
                   (infrav1.newCondition infrav1.ConditionTypePlan metav1.ConditionTrue
                      "TerraformPlannedWithChanges"
                      (infrav1.trimString message infrav1.MaxConditionMessageLength))
                   k)))
      = infrav1.HasDrift tf).
    { unfold infrav1.HasDrift. cbn. apply HasDrift_loop_set_other. discriminate. }
    rewrite Hdrift.
    destruct forceOrAutoApply, (negb (String.eqb revision ""));
      rewrite SetTerraformReadiness_fst; split; reflexivity. }
  destruct Hplan as [Hplan Hstamp]. split; [exact Hplan|].
  intros. rewrite TerraformApplied_stamp, Hplan, Hstamp. reflexivity.
Qed.

(** ** Locks *)

(** X10. The lock bookkeeping.  [TerraformStateLocked] makes the given
    lock id the pending one and remembers the holder that was pending before
    as the last applied one (the old last applied one stays when nothing was
    pending); a [TerraformForceUnlock] after it leaves nothing pending and
    makes that lock id the last applied one, unless the id was empty. *)
Theorem lock_history (tf : infrav1.Terraform) (lockID message message' : string)
  (k k' : metav1.Clock) :
  let held := infrav1.Lock (infrav1.Status tf) in
  let previous :=
    if String.eqb (infrav1.LockStatus.Pending held) ""
    then infrav1.LockStatus.LastApplied held
    else infrav1.LockStatus.Pending held in
  let locked := fst (infrav1.TerraformStateLocked tf lockID message k) in
  infrav1.Lock (infrav1.Status locked) = infrav1.LockStatus.mk previous lockID
  /\ infrav1.Lock (infrav1.Status (fst (infrav1.TerraformForceUnlock locked message' k')))
     = infrav1.LockStatus.mk (if String.eqb lockID "" then previous else lockID) "".
Proof.
  cbv zeta.
  assert (Hrotate : forall t pending,
    infrav1.Lock (infrav1.Status (infrav1.rotateLock t pending))
    = infrav1.LockStatus.mk
        (if String.eqb (infrav1.LockStatus.Pending (infrav1.Lock (infrav1.Status t))) ""
         then infrav1.LockStatus.LastApplied (infrav1.Lock (infrav1.Status t))
         else infrav1.LockStatus.Pending (infrav1.Lock (infrav1.Status t)))
        pending).
  { intros t pending. unfold infrav1.rotateLock. cbn.
    destruct (String.eqb (infrav1.LockStatus.Pending _) "") eqn:Ep; cbn; [reflexivity|].
    destruct (String.eqb (infrav1.LockStatus.LastApplied _) _) eqn:El; cbn;
      [|reflexivity].
    apply String.eqb_eq in El. rewrite El. reflexivity. }
  assert (Hlocked :
    infrav1.Lock (infrav1.Status (fst (infrav1.TerraformStateLocked tf lockID message k)))
    = infrav1.LockStatus.mk
        (if String.eqb (infrav1.LockStatus.Pending (infrav1.Lock (infrav1.Status tf))) ""
         then infrav1.LockStatus.LastApplied (infrav1.Lock (infrav1.Status tf))
         else infrav1.LockStatus.Pending (infrav1.Lock (infrav1.Status tf)))
        lockID).
  { unfold infrav1.TerraformStateLocked. rewrite !bind_run, ret_run. cbn [fst].
    rewrite Hrotate, SetTerraformReadiness_fst, setCondition_fst. reflexivity. }
  split; [exact Hlocked|].
  unfold infrav1.TerraformForceUnlock. rewrite bind_run, ret_run. cbn [fst].
  rewrite Hrotate, setCondition_fst.
  cbn [infrav1.upd infrav1.set_Status infrav1.Status infrav1.Lock infrav1.set_Conditions].
  rewrite Hlocked. reflexivity.
Qed.

(** ** Plan ids *)

Lemma index_slash_cons (a : ascii) (s : string) :
  String.index 0 "/" (String a s)
  = if ascii_dec "/" a then Some 0%nat
    else match String.index 0 "/" s with Some n => Some (S n) | None => None end.
Proof.
  cbn -[ascii_dec]. destruct (ascii_dec "/" a); [|reflexivity].
  destruct s; reflexivity.
Qed.

Lemma append_cons (a : ascii) (s t : string) : String a s +:+ t = String a (s +:+ t).
Proof. reflexivity. Qed.

Lemma index_first_slash (s t : string) :
  String.index 0 "/" s = None ->
  String.index 0 "/" (s +:+ String "/" t) = Some (String.length s).
Proof.
  induction s as [|a s IH]; intros Hnone.
  - change ("" +:+ String "/" t) with (String "/" t). rewrite index_slash_cons.
    destruct (ascii_dec "/" "/"); [reflexivity | congruence].
  - rewrite append_cons. cbn [String.length]. rewrite index_slash_cons in Hnone |- *.
    destruct (ascii_dec "/" a); [discriminate|].
    destruct (String.index 0 "/" s); [discriminate|].
    rewrite IH by reflexivity. reflexivity.
Qed.

Lemma substring_skip_more (s1 s2 : string) (n m : nat) :
  substring (String.length s1 + n) m (s1 +:+ s2) = substring n m s2.
Proof. induction s1 as [|a s1 IH]; simpl; [reflexivity | exact IH]. Qed.

Lemma substring_all (s : string) : substring 0 (String.length s) s = s.
Proof. induction s as [|a s IH]; simpl; [reflexivity | rewrite IH; reflexivity]. Qed.

Lemma Index_absent (s sep : string) :
  strings.Index s sep = -1 <-> String.index 0 sep s = None.
Proof.
  unfold strings.Index. destruct (String.index 0 sep s); split; try reflexivity;
    try discriminate. lia.
Qed.

(** A revision [branch/sha] is split at its first slash. *)
Lemma revision_parts (branch sha : string) :
  strings.Index branch "/" = -1 ->
  strings.Index (branch +:+ "/" +:+ sha) "/" = strings.len branch
  /\ strings.slice (branch +:+ "/" +:+ sha) 0 (strings.len branch) = branch
  /\ strings.slice_from (branch +:+ "/" +:+ sha) (strings.len branch + strings.len "/")
     = sha.
Proof.
  intros Hno. apply Index_absent in Hno.
  change (branch +:+ "/" +:+ sha) with (branch +:+ String "/" sha).
  split; [|split].
  - unfold strings.Index.
    rewrite (index_first_slash branch sha Hno). reflexivity.
  - unfold strings.slice, strings.len.
    replace (Z.to_nat 0) with 0%nat by reflexivity.
    replace (Z.to_nat (Z.of_nat (String.length branch) - 0))
      with (String.length branch) by lia.
    apply substring_append_exact.
  - unfold strings.slice_from, strings.slice, strings.len.
    rewrite !length_append. cbn [String.length].
    replace (Z.to_nat (Z.of_nat (String.length branch) + Z.of_nat 1))
      with (String.length branch + 1)%nat by lia.
    replace (Z.to_nat (Z.of_nat (String.length branch + S (String.length sha))
                       - (Z.of_nat (String.length branch) + Z.of_nat 1)))
      with (String.length sha) by lia.
    rewrite substring_skip_more.
    change (substring 1 (String.length sha) (String "/" sha))
      with (substring 0 (String.length sha) sha).
    apply substring_all.
Qed.

(** X11. [GetPlanIdAndApproveMessage] on a revision [branch/sha], where the
    branch has no slash: the plan id is [plan-branch-sha] with the whole
    hash, and the approve message names [plan-branch-] followed by the first
    ten bytes of the hash, or by the whole hash when it is shorter than ten
    bytes.  On a revision without a slash both are [plan-] followed by the
    revision. *)
Theorem GetPlanIdAndApproveMessage_revision (branch sha message : string)
  (Hbranch : strings.Index branch "/" = -1) :
  let approve (id : string) :=
    message +:+ ": set approvePlan: " +:+ strings.dquote +:+ id +:+ strings.dquote
    +:+ " to approve this plan." in
  infrav1.GetPlanIdAndApproveMessage (branch +:+ "/" +:+ sha) message
  = ("plan-" +:+ branch +:+ "-" +:+ sha,
     approve (if Z.leb 10 (strings.len sha)
              then "plan-" +:+ branch +:+ "-" +:+ strings.slice sha 0 10
              else "plan-" +:+ branch +:+ "-" +:+ sha))
  /\ infrav1.GetPlanIdAndApproveMessage branch message
     = ("plan-" +:+ branch, approve ("plan-" +:+ branch)).
Proof.
  cbv zeta. split.
  - destruct (revision_parts branch sha Hbranch) as (Hi & Hb & Hs).
    unfold infrav1.GetPlanIdAndApproveMessage, strings.Replace1, strings.SplitN2.
    rewrite Hi.
    replace (Z.ltb (strings.len branch) 0) with false
      by (symmetry; apply Z.ltb_ge; unfold strings.len; lia).
    rewrite Hb, Hs. destruct (Z.leb 10 (strings.len sha)); reflexivity.
  - unfold infrav1.GetPlanIdAndApproveMessage, strings.Replace1, strings.SplitN2.
    rewrite Hbranch. reflexivity.
Qed.

Lemma GetPlanIdAndApproveMessage_revision_witness :
  infrav1.GetPlanIdAndApproveMessage ("main" +:+ "/" +:+ "0123456789abcdef") "msg"
  = ("plan-" +:+ "main" +:+ "-" +:+ "0123456789abcdef",
     "msg" +:+ ": set approvePlan: " +:+ strings.dquote
     +:+ (if Z.leb 10 (strings.len "0123456789abcdef")
          then "plan-" +:+ "main" +:+ "-" +:+ strings.slice "0123456789abcdef" 0 10
          else "plan-" +:+ "main" +:+ "-" +:+ "0123456789abcdef")
     +:+ strings.dquote +:+ " to approve this plan.")
  /\ infrav1.GetPlanIdAndApproveMessage "main" "msg"
     = ("plan-" +:+ "main",
        "msg" +:+ ": set approvePlan: " +:+ strings.dquote +:+ ("plan-" +:+ "main")
        +:+ strings.dquote +:+ " to approve this plan.").
Proof.
  apply (GetPlanIdAndApproveMessage_revision "main" "0123456789abcdef" "msg").
  reflexivity.
Defined.

(** ** What a dependent sees after a transition *)

Lemma append_cancel (s a b : string) : s +:+ a = s +:+ b -> a = b.
Proof.
  induction s as [|x s IH]; intros Heq; [exact Heq|].
  rewrite !append_cons in Heq. injection Heq as Heq. exact (IH Heq).
Qed.

Lemma transition_dependency (t : Transition) (tf : infrav1.Terraform)
  (k : metav1.Clock) (status : metav1.ConditionStatus) :
  readiness t = Some status ->
  let after := fst (transition t tf k) in
  apimeta.IsStatusConditionTrue (infrav1.Conditions (infrav1.Status after))
    meta.ReadyCondition
  = metav1.ConditionStatus_eqb status metav1.ConditionTrue
  /\ infrav1.Conditions (infrav1.Status after) <> []
  /\ (status = metav1.ConditionTrue ->
      infrav1.ObservedGeneration (infrav1.Status after)
      = metav1.Generation (infrav1.ObjectMeta after)).
Proof.
  cbv zeta. unfold apimeta.IsStatusConditionTrue.
  destruct t; cbn [readiness]; intros Hs; try discriminate Hs;
    injection Hs as <-; unfold_transition; through_sets;
    match goal with
    | |- context [apimeta.SetStatusCondition ?cs
                    (infrav1.newCondition ?ty ?st ?re ?me) ?k'] =>
        destruct (SetStatusCondition_find_status cs ty st re me k') as (c & Hfind & Hst);
        rewrite Hfind, Hst;
        split; [reflexivity | split; [|first [reflexivity | discriminate]]];
        intros Hnil; rewrite Hnil in Hfind; discriminate Hfind
    end.
Qed.

Section Dependents.

Context {C : Type} `{Client C}.

(** X12. What a dependant sees of a dependency right after a transition:
    after one that sets Ready to unknown or false ([TerraformApplied],
    [TerraformPlannedWithChanges], [TerraformProgressing],
    [TerraformNotReady], [TerraformDriftDetected], ...) the checks of
    [checkDependencies] on it fail with the not-ready error; after one that
    sets Ready to true they do not fail with that error. *)
Theorem dependency_after_transition (t : Transition) (tf : infrav1.Terraform)
  (k : metav1.Clock) (source : sourcev1.Source) (terraform : infrav1.Terraform)
  (dName : types.NamespacedName) (c : C) :
  let notReady := Errorf ("dependency '" +:+ types.String dName +:+ "' is not ready") in
  let judged :=
    controllers.judgeDependency source terraform dName (fst (transition t tf k)) c in
  match readiness t with
  | Some metav1.ConditionTrue => fst judged <> inl notReady
  | Some _ => judged = (inl notReady, c)
  | None => True
  end.
Proof.
  cbv zeta. destruct (readiness t) as [status|] eqn:Et; [|exact I].
  destruct (transition_dependency t tf k status Et) as (Hready & Hconds & Hgen).
  unfold controllers.judgeDependency. rewrite Hready.
  destruct status; cbn [metav1.ConditionStatus_eqb negb];
    try (destruct (_ || _); reflexivity).
  destruct (infrav1.Conditions (infrav1.Status (fst (transition t tf k))))
    as [|c0 cs] eqn:Ec; [congruence|].
  rewrite Hgen, Z.eqb_refl by reflexivity. cbn [length Nat.eqb orb negb].
  destruct (sourcev1.GetArtifact source) as [artifact|]; [|cbn; discriminate].
  destruct (_ && _).
  - cbn. intros Heq. injection Heq as Heq.
    apply (append_cancel ""), append_cancel in Heq. discriminate Heq.
  - destruct (infrav1.WriteOutputsToSecret _) as [w|]; [|cbn; discriminate].
    unfold pbind, lift. destruct (GetSecret _ c) as [[e|] c']; cbn; discriminate.
Qed.

End Dependents.

(** * More on the controller *)

(** ** Downloads *)

(** X13. [downloadAsBytes] returns bytes in one case only: the request was
    made and answered with status 200, the body was read to its end, the
    bytes returned are the body, and their hexadecimal digest under the
    hasher chosen for the checksum is the artifact's checksum.  In every
    such case it does return them. *)
Theorem downloadAsBytes_verified (sha1 sha256 : string -> string)
  (http : controllers.HTTP) (artifact : sourcev1.Artifact) (buf : string) :
  controllers.downloadAsBytes sha1 sha256 http artifact = inl buf
  <-> exists reader,
        fetches http artifact reader
        /\ controllers.failure reader = None
        /\ controllers.delivered reader = buf
        /\ controllers.hex
             (controllers.hasherFor sha1 sha256 (sourcev1.Checksum artifact) buf)
           = sourcev1.Checksum artifact.
Proof.
  unfold controllers.downloadAsBytes, controllers.verifyArtifact, fetches. split.
  - destruct (controllers.artifactURL http artifact) as [url|err] eqn:Eurl;
      [|discriminate].
    destruct (controllers.NewRequest http url) as [err|] eqn:Ereq; [discriminate|].
    destruct (controllers.Do http url) as [resp|err] eqn:Edo; [|discriminate].
    destruct (Z.eqb (controllers.StatusCode resp) controllers.StatusOK) eqn:Ecode;
      [|discriminate].
    cbn [negb].
    destruct (controllers.failure (controllers.Body resp)) as [err|] eqn:Eread;
      [discriminate|].
    destruct (String.eqb _ _) eqn:Esum; [|discriminate].
    cbn [negb]. intros Hbuf. injection Hbuf as <-.
    exists (controllers.Body resp). split.
    + exists url, resp. apply Z.eqb_eq in Ecode. auto.
    + apply String.eqb_eq in Esum. auto.
  - intros (reader & (url & resp & Eurl & Ereq & Edo & Ecode & <-) & Eread & <- & Esum).
    rewrite Eurl, Ereq, Edo, Ecode, Eread. cbn [negb Z.eqb].
    apply String.eqb_eq in Esum. rewrite Esum. reflexivity.
Qed.

Lemma length_hex (bytes : string) :
  String.length (controllers.hex bytes) = (2 * String.length bytes)%nat.
Proof.
  induction bytes as [|b bytes IH]; [reflexivity|].
  cbn [controllers.hex String.length]. rewrite length_append, IH.
  unfold controllers.hexByte. cbn [String.length]. lia.
Qed.

(** X14. With hash functions of the sizes of SHA-1 and SHA-256 (20 and 32
    bytes), [verifyArtifact] accepts no artifact whose checksum is not 40 or
    64 bytes long. *)
Theorem verifyArtifact_checksum_length (sha1 sha256 : string -> string)
  (artifact : sourcev1.Artifact) (reader : controllers.Reader)
  (Hsha1 : forall bytes, strings.len (sha1 bytes) = 20)
  (Hsha256 : forall bytes, strings.len (sha256 bytes) = 32)
  (Hverified : snd (controllers.verifyArtifact sha1 sha256 artifact reader) = None) :
  strings.len (sourcev1.Checksum artifact) = 40
  \/ strings.len (sourcev1.Checksum artifact) = 64.
Proof.
  unfold controllers.verifyArtifact in Hverified.
  destruct (controllers.failure reader); [discriminate|].
  destruct (String.eqb _ _) eqn:Esum; [|discriminate]. apply String.eqb_eq in Esum.
  assert (Hlen : strings.len (sourcev1.Checksum artifact)
                 = 2 * strings.len (controllers.hasherFor sha1 sha256
                                      (sourcev1.Checksum artifact)
                                      (controllers.delivered reader))).
  { rewrite <- Esum at 1. unfold strings.len. rewrite length_hex. lia. }
  unfold controllers.hasherFor in Hlen.
  destruct (Z.eqb (strings.len (sourcev1.Checksum artifact)) 40) eqn:E.
  - left. apply Z.eqb_eq, E.
  - right. rewrite Hlen, Hsha256. reflexivity.
Qed.

(** Stand-ins of the right sizes: every digest is twenty, or thirty-two,
    bytes [a]. *)
Lemma verifyArtifact_checksum_length_witness :
  strings.len
    (sourcev1.Checksum
       (sourcev1.mkArtifact "http://source-controller/repo.tar.gz" "main/abc"
          (controllers.hex (examples.replicate 32 "a"%char)))) = 40
  \/ strings.len
       (sourcev1.Checksum
          (sourcev1.mkArtifact "http://source-controller/repo.tar.gz" "main/abc"
             (controllers.hex (examples.replicate 32 "a"%char)))) = 64.
Proof.
  apply (verifyArtifact_checksum_length
           (fun _ => examples.replicate 20 "a"%char)
           (fun _ => examples.replicate 32 "a"%char)
           (sourcev1.mkArtifact "http://source-controller/repo.tar.gz" "main/abc"
              (controllers.hex (examples.replicate 32 "a"%char)))
           examples.body).
  - intros bytes. reflexivity.
  - intros bytes. reflexivity.
  - vm_compute. reflexivity.
Defined.

(** ** Short revisions *)

Lemma substring_append_more (s1 s2 : string) (n : nat) :
  substring 0 (String.length s1 + n) (s1 +:+ s2) = s1 +:+ substring 0 n s2.
Proof.
  induction s1 as [|a s1 IH]; [reflexivity|].
  rewrite !append_cons. cbn [String.length Nat.add substring]. rewrite IH. reflexivity.
Qed.

(** X15. [shortRev] on a revision [branch/sha], where the branch has no
    slash, is the branch, the slash and the first seven bytes of the hash;
    it panics (slice out of range) when the hash is shorter than seven bytes.
    On a revision without a slash it is the first eight bytes, and it panics
    when the revision is shorter than eight bytes. *)
Theorem shortRev_revision (branch sha : string)
  (Hbranch : strings.Index branch "/" = -1) :
  controllers.shortRev (branch +:+ "/" +:+ sha)
  = (if Z.leb 7 (strings.len sha)
     then Some (branch +:+ "/" +:+ strings.slice sha 0 7) else None)
  /\ controllers.shortRev branch
     = (if Z.leb 8 (strings.len branch) then Some (strings.slice branch 0 8) else None).
Proof.
  split.
  - destruct (revision_parts branch sha Hbranch) as (Hi & _ & _).
    unfold controllers.shortRev, strings.Contains, strings.slice_checked.
    rewrite Hi.
    replace (Z.leb 0 (strings.len branch)) with true
      by (symmetry; apply Z.leb_le; unfold strings.len; lia).
    replace (Z.leb 0 (strings.len branch + 8)) with true
      by (symmetry; apply Z.leb_le; unfold strings.len; lia).
    cbn [Z.leb andb Z.compare].
    assert (Hlen : strings.len (branch +:+ "/" +:+ sha)
                   = strings.len branch + 1 + strings.len sha).
    { unfold strings.len. rewrite !length_append. cbn [String.length]. lia. }
    rewrite Hlen.
    destruct (Z.leb 7 (strings.len sha)) eqn:E.
    + replace (Z.leb (strings.len branch + 8) (strings.len branch + 1 + strings.len sha))
        with true by (symmetry; apply Z.leb_le; apply Z.leb_le in E; lia).
      f_equal. unfold strings.slice, strings.len.
      replace (Z.to_nat 0) with 0%nat by reflexivity.
      replace (Z.to_nat (Z.of_nat (String.length branch) + 8 - 0))
        with (String.length branch + 8)%nat by lia.
      rewrite substring_append_more.
      replace (Z.to_nat (7 - 0)) with 7%nat by reflexivity.
      reflexivity.
    + replace (Z.leb (strings.len branch + 8) (strings.len branch + 1 + strings.len sha))
        with false by (symmetry; apply Z.leb_gt; apply Z.leb_gt in E; lia).
      reflexivity.
  - unfold controllers.shortRev, strings.Contains, strings.slice_checked.
    rewrite Hbranch. reflexivity.
Qed.

Lemma shortRev_revision_witness :
  controllers.shortRev ("main" +:+ "/" +:+ "0123456789abcdef")
  = (if Z.leb 7 (strings.len "0123456789abcdef")
     then Some ("main" +:+ "/" +:+ strings.slice "0123456789abcdef" 0 7) else None)
  /\ controllers.shortRev "main"
     = (if Z.leb 8 (strings.len "main") then Some (strings.slice "main" 0 8) else None).
Proof. apply (shortRev_revision "main" "0123456789abcdef"). reflexivity. Defined.

(** ** Dependants *)






Section Dependants.

Context {C : Type} `{Client C}.





(** ** Sources *)

(** X18. The index agrees with the lookup.  When [getSource] returns a
    source, the kind of the reference is one of the three the controller
    knows, and the source is the one the client holds under the very key
    that [IndexBy] of that kind lists for the object, alone. *)
Theorem getSource_indexed (terraform : infrav1.Terraform) (c : C)
  (sourceObj : sourcev1.Source)
  (Hgot : fst (controllers.getSource terraform c) = inl sourceObj) :
  let kind := infrav1.Kind (infrav1.SourceRef (infrav1.Spec terraform)) in
  exists key,
    controllers.IndexBy kind terraform = [types.String key]
    /\ fst (GetSource kind key c) = inl sourceObj
    /\ (kind = sourcev1.GitRepositoryKind \/ kind = sourcev1.BucketKind
        \/ kind = sourcev1.OCIRepositoryKind).
Proof.
  cbv zeta. unfold controllers.getSource in Hgot.
  unfold controllers.IndexBy. rewrite String.eqb_refl.
  exists (types.mkNamespacedName
            (if negb (String.eqb
                        (infrav1.Namespace (infrav1.SourceRef (infrav1.Spec terraform)))
                        "")
             then infrav1.Namespace (infrav1.SourceRef (infrav1.Spec terraform))
             else metav1.Namespace (infrav1.ObjectMeta terraform))
            (infrav1.Name (infrav1.SourceRef (infrav1.Spec terraform)))).
  split; [reflexivity|].
  destruct (_ || _ || _) eqn:Ekind; [|discriminate Hgot].
  rewrite bind_run in Hgot.
  destruct (GetSource _ _ c) as [[s|err] c1] eqn:Eget; cbn [fst snd] in *.
  - rewrite ret_run in Hgot. cbn [fst] in Hgot. injection Hgot as <-.
    split; [reflexivity|].
    rewrite !orb_true_iff, !String.eqb_eq in Ekind. tauto.
  - destruct (apierrors.IsNotFound err); rewrite ret_run in Hgot; discriminate Hgot.
Qed.

End Dependants.



Lemma getSource_indexed_witness :
  exists key,
    controllers.IndexBy "GitRepository" examples.app = [types.String key]
    /\ fst (GetSource "GitRepository" key examples.cluster) = inl examples.source
    /\ ("GitRepository" = sourcev1.GitRepositoryKind
        \/ "GitRepository" = sourcev1.BucketKind
        \/ "GitRepository" = sourcev1.OCIRepositoryKind).
Proof.
  apply (getSource_indexed examples.app examples.cluster examples.source).
  vm_compute. reflexivity.
Defined.

(** ** Requests on a revision change *)

(** X19. Provided [dependency.Sort] returns only objects it was given,
    every request that [requestsForRevisionChangeOf] makes for a source names
    an object listed under the source's key whose last attempted revision is
    not the revision of the source's artifact; a source without an artifact
    makes no request. *)
Theorem requestsForRevisionChangeOf_attempted
  (List : string -> string -> list infrav1.Terraform + error)
  (Sort : list infrav1.Terraform -> list meta.NamespacedObjectReference + error)
  (indexKey : string) (objKey : types.NamespacedName) (obj : sourcev1.Source)
  (n : types.NamespacedName)
  (Hsort : forall dd sorted t,
      Sort dd = inl sorted -> In t sorted ->
      exists d, In d dd
                /\ metav1.Name (infrav1.ObjectMeta d) = meta.Name t
                /\ metav1.Namespace (infrav1.ObjectMeta d) = meta.Namespace t)
  (Hrequest : In n (controllers.requestsForRevisionChangeOf List Sort indexKey objKey obj)) :
  exists artifact items d,
    sourcev1.GetArtifact obj = Some artifact
    /\ List indexKey (types.String objKey) = inl items
    /\ In d items
    /\ metav1.Name (infrav1.ObjectMeta d) = types.Name n
    /\ metav1.Namespace (infrav1.ObjectMeta d) = types.Namespace n
    /\ infrav1.LastAttemptedRevision (infrav1.Status d) <> sourcev1.Revision artifact.
Proof.
  unfold controllers.requestsForRevisionChangeOf in Hrequest.
  destruct (sourcev1.GetArtifact obj) as [artifact|]; [|destruct Hrequest].
  destruct (List indexKey (types.String objKey)) as [items|err]; [|destruct Hrequest].
  destruct (Sort _) as [sorted|err] eqn:Esort; [|destruct Hrequest].
  apply in_map_iff in Hrequest as (t & <- & Hin).
  destruct (Hsort _ _ t Esort Hin) as (d & Hd & Hname & Hns).
  apply filter_In in Hd as [Hd Hrev].
  exists artifact, items, d. repeat split; try assumption.
  apply negb_true_iff, String.eqb_neq in Hrev. congruence.
Qed.

(** The source has moved on to [main/def]; [app] attempted [main/abc]. *)
Lemma requestsForRevisionChangeOf_attempted_witness :
  exists artifact items d,
    sourcev1.GetArtifact examples.newSource = Some artifact
    /\ examples.listed [examples.app] "GitRepository"
         (types.String (types.mkNamespacedName "infra" "repo")) = inl items
    /\ In d items
    /\ metav1.Name (infrav1.ObjectMeta d) = types.Name examples.request
    /\ metav1.Namespace (infrav1.ObjectMeta d) = types.Namespace examples.request
    /\ infrav1.LastAttemptedRevision (infrav1.Status d) <> sourcev1.Revision artifact.
Proof.
  apply (requestsForRevisionChangeOf_attempted (examples.listed [examples.app])
           examples.unsorted "GitRepository" (types.mkNamespacedName "infra" "repo")
           examples.newSource examples.request).
  - intros dd sorted t Hsorted Hin. unfold examples.unsorted in Hsorted.
    injection Hsorted as <-. apply in_map_iff in Hin as (d & <- & Hd).
    exists d. auto.
  - vm_compute. left. reflexivity.
Defined.

(** ** More on the reconciliation loop *)

Section ProcEquations.

Context {S R A B : Type}.

Lemma pbind_pret_run (a : A) (f : A -> Proc S R B) (s : S) :
  pbind (pret a) f s = f a s.
Proof. reflexivity. Qed.

Lemma pbind_Return_run (res : R) (f : A -> Proc S R B) (s : S) :
  pbind (Return res) f s = (inl res, s).
Proof. reflexivity. Qed.

Lemma pbind_lift_run (m : State S A) (f : A -> Proc S R B) (s : S) :
  pbind (lift m) f s = f (fst (m s)) (snd (m s)).
Proof. unfold pbind, lift. destruct (m s). reflexivity. Qed.

Lemma pbind_assoc_run {D : Type} (m : Proc S R A) (f : A -> Proc S R B)
  (g : B -> Proc S R D) (s : S) :
  pbind (pbind m f) g s = pbind m (fun a => pbind (f a) g) s.
Proof. unfold pbind. destruct (m s) as [[res|a] s']; reflexivity. Qed.

End ProcEquations.

Section Worlds.

Context {C : Type} `{Client C} (r : controllers.Collaborators C).

Lemma onCluster_run {A : Type} (m : State C A) (w : controllers.World C) :
  controllers.onCluster m w
  = (fst (m (controllers.cluster w)),
     controllers.mkWorld (snd (m (controllers.cluster w))) (controllers.clock w)
       (controllers.log w)).
Proof. unfold controllers.onCluster. destruct (m (controllers.cluster w)). reflexivity. Qed.

Lemma onClock_run {A : Type} (m : State metav1.Clock A) (w : controllers.World C) :
  controllers.onClock m w
  = (fst (m (controllers.clock w)),
     controllers.mkWorld (controllers.cluster w) (snd (m (controllers.clock w)))
       (controllers.log w)).
Proof. unfold controllers.onClock. destruct (m (controllers.clock w)). reflexivity. Qed.

(** What [Reconcile] is once the object is fetched, and when it is not. *)
Lemma Reconcile_fetched_run (req : types.NamespacedName) (w w0 : controllers.World C)
  (fetched : infrav1.Terraform) :
  controllers.onCluster (GetTerraform req) (snd (controllers.certRotation r w))
  = (inl fetched, w0) ->
  controllers.Reconcile r req w
  = (let (res, w1) := controllers.Reconcile_fetched r req fetched w0 in
     (match res with inl o | inr o => o end,
      snd (controllers.recordSuspensionMetric fetched w1))).
Proof.
  intros Hget. unfold controllers.Reconcile, run.
  unfold pbind at 1. unfold lift at 1.
  destruct (controllers.certRotation r w) as [[] wr]. cbn [snd] in Hget.
  unfold pbind, lift. rewrite Hget. unfold Defer.
  destruct (controllers.Reconcile_fetched r req fetched w0) as [[o|o] w1]; reflexivity.
Qed.

Lemma Reconcile_absent_run (req : types.NamespacedName)
  (w w0 : controllers.World C) (err : error) :
  controllers.onCluster (GetTerraform req) (snd (controllers.certRotation r w))
  = (inr err, w0) ->
  controllers.Reconcile r req w
  = ((ctrl.NoRequeue, if apierrors.IsNotFound err then None else Some err), w0).
Proof.
  intros Hget. unfold controllers.Reconcile, run.
  unfold pbind at 1. unfold lift at 1.
  destruct (controllers.certRotation r w) as [[] wr]. cbn [snd] in Hget.
  unfold pbind, lift. rewrite Hget. reflexivity.
Qed.

End Worlds.

(** *** On every path *)

Section Careful.

Context {C : Type} `{Client C} (r : controllers.Collaborators C).

Variable fetched : infrav1.Terraform.

Lemma undelayed_ok (result : ctrl.Result) : undelayed fetched (result, None).
Proof. right. left. reflexivity. Qed.

Lemma undelayed_stop (e : option error) : undelayed fetched (ctrl.NoRequeue, e).
Proof. right. right. reflexivity. Qed.

Lemma undelayed_now (e : option error) : undelayed fetched (ctrl.RequeueNow, e).
Proof. right. right. reflexivity. Qed.

Ltac walk :=
  lazymatch goal with
  | |- triple _ _ _ (controllers.patchStatusOrReturn _ _) =>
      unfold controllers.patchStatusOrReturn
  | |- triple _ _ _ (pbind _ _) =>
      apply (triple_pbind _ _ (fun _ => True)); [ | intros ? _ ]
  | |- triple _ _ _ (Return _) =>
      apply triple_Return;
      first [ apply undelayed_ok | apply undelayed_stop | apply undelayed_now ]
  | |- triple _ _ _ (pret _) => apply triple_pret; exact I
  | |- triple _ _ _ (lift (controllers.onCluster _)) =>
      apply triple_lift, step_onCluster
  | |- triple _ _ _ (lift (controllers.onClock _)) =>
      apply triple_lift, step_onClock; intros ?; exact I
  | |- triple _ _ _ (lift (controllers.recordReadinessMetric _)) =>
      apply triple_lift, step_act; exact I
  | |- triple _ _ _ (lift (controllers.event _ _ _ _)) =>
      apply triple_lift, step_act; exact I
  | |- triple _ _ _ (lift (if ?b then _ else _)) => destruct b
  | |- triple _ _ _ (lift (controllers.act controllers.CloseConn)) =>
      apply triple_lift, step_act; exact I
  | |- triple _ _ _ (lift (ret _)) => apply triple_lift, step_ret; exact I
  | |- triple _ _ _ (if ?b then _ else _) => destruct b eqn:?
  | |- triple _ _ _ (match ?x with _ => _ end) => destruct x eqn:?
  | |- triple _ _ _ (let _ := _ in _) => cbv zeta
  end.

Lemma unblocked_frame (tf tf' : infrav1.Terraform) :
  infrav1.Spec tf' = infrav1.Spec tf ->
  infrav1.ObjectMeta tf' = infrav1.ObjectMeta tf ->
  unblocked tf -> unblocked tf'.
Proof.
  unfold unblocked, controllers.isBeingDeleted, controllers.dependantsOf.
  intros -> ->. tauto.
Qed.

Lemma sameObject_frame (tf tf' : infrav1.Terraform) :
  infrav1.Spec tf' = infrav1.Spec tf ->
  infrav1.ObjectMeta tf' = infrav1.ObjectMeta tf ->
  sameObject fetched tf -> sameObject fetched tf'.
Proof. unfold sameObject. intros -> ->. tauto. Qed.

Lemma Reconcile_prepare_careful (req : types.NamespacedName) :
  triple withinAttempt (undelayed fetched)
    (fun prepared =>
       sameObject fetched (fst (fst (fst prepared)))
       /\ unblocked (fst (fst (fst prepared))))
    (controllers.Reconcile_prepare r req fetched).
Proof.
  unfold controllers.Reconcile_prepare.
  apply (triple_pbind _ _ (sameObject fetched)).
  { destruct (negb _).
    - cbv zeta. apply (triple_pbind _ _ (fun _ => True)); [walk|].
      intros [err|] _; [walk|].
      apply triple_pret. apply AddFinalizer_sameObject. split; reflexivity.
    - apply triple_pret. split; reflexivity. }
  intros tf Hs.
  apply (triple_pbind _ _ (fun _ => infrav1.Suspend (infrav1.Spec tf) = false)).
  { destruct (infrav1.Suspend (infrav1.Spec tf)); [walk | apply triple_pret; reflexivity]. }
  intros _ Hsuspend.
  apply (triple_pbind _ _ (fun _ => unblocked tf)).
  { destruct (controllers.isBeingDeleted tf) eqn:Edel.
    - destruct (controllers.dependantsOf tf) as [|n deps] eqn:Edeps.
      + cbn. apply triple_pret. split; [exact Hsuspend | intros _; exact Edeps].
      + cbn [length Nat.ltb Nat.leb andb]. repeat walk.
    - cbn [andb]. apply triple_pret. split; [exact Hsuspend | congruence]. }
  intros _ Hfree.
  apply (triple_pbind _ _ (fun _ => True)); [walk|]. intros got _.
  apply (triple_pbind _ _ (fun _ => True)); [repeat walk|]. intros sourceObj _.
  apply (triple_pbind _ _ (fun _ => True)); [repeat walk|]. intros artifact _.
  apply (triple_pbind _ _ (fun _ => True)); [repeat walk|]. intros _ _.
  apply (triple_pbind _ _ (fun t => sameObject fetched t /\ unblocked t)).
  { cbv zeta.
    destruct (match apimeta.FindStatusCondition _ _ with Some _ => _ | None => _ end).
    - apply (triple_pbind _ _ (fun t => sameObject fetched t /\ unblocked t)).
      + apply triple_lift, step_onClock. intros k.
        destruct (transition_frame
                    (Progressing (if controllers.isBeingDeleted tf
                                  then "Deletion in progress"
                                  else "Reconciliation in progress")) tf k)
          as [Hspec Hmeta].
        cbn [transition] in Hspec, Hmeta.
        split; [eapply sameObject_frame | eapply unblocked_frame]; eassumption.
      + intros t Ht. apply (triple_pbind _ _ (fun _ => True)); [repeat walk|].
        intros _ _. apply (triple_pbind _ _ (fun _ => True)); [repeat walk|].
        intros _ _. apply triple_pret, Ht.
    - apply triple_pret. split; assumption. }
  intros t Ht.
  apply (triple_pbind _ _ (fun _ => True)); [walk|].
  intros [closeConn [err|]] _.
  - apply (triple_pbind _ _ (fun _ => True)); [repeat walk|].
    intros _ _. walk.
  - apply triple_pret. exact Ht.
Qed.

Lemma Reconcile_finalize_careful (tf : infrav1.Terraform) (sourceObj : sourcev1.Source) :
  sameObject fetched tf -> unblocked tf ->
  triple withinAttempt (undelayed fetched) (fun _ => True)
    (controllers.Reconcile_finalize r tf sourceObj).
Proof.
  intros [_ Hdel] [Hsuspend Hfree]. unfold controllers.Reconcile_finalize.
  destruct (negb (metav1.IsZeroPtr _)) eqn:Edel; [|apply triple_pret; exact I].
  assert (Hdeleted : controllers.isBeingDeleted fetched = true)
    by (unfold controllers.isBeingDeleted; rewrite <- Hdel; exact Edel).
  apply (triple_pbind _ _ (fun _ => True)).
  - apply triple_lift, step_act. cbn. auto.
  - intros _ _. apply (triple_pbind _ _ (fun _ => True)); [walk|].
    intros [result [err|]] _.
    + apply triple_Return. left. exact Hdeleted.
    + apply triple_pret. exact I.
Qed.

Lemma Reconcile_gate_careful (req : types.NamespacedName) (tf : infrav1.Terraform)
  (sourceObj : sourcev1.Source) (artifact : sourcev1.Artifact) :
  infrav1.Suspend (infrav1.Spec tf) = false ->
  triple withinAttempt (undelayed fetched)
    (fun let_through => infrav1.Suspend (infrav1.Spec let_through) = false)
    (controllers.Reconcile_gate r req tf sourceObj artifact).
Proof.
  intros Hsuspend. unfold controllers.Reconcile_gate.
  apply (triple_pbind _ _ (fun t => infrav1.Suspend (infrav1.Spec t) = false)).
  - destruct (negb _ && negb _).
    + cbv zeta. apply (triple_pbind _ _ (fun _ => True)); [repeat walk|].
      intros _ _. apply triple_pret. exact Hsuspend.
    + apply triple_pret, Hsuspend.
  - intros t Ht. destruct (_ && _); [walk | apply triple_pret, Ht].
Qed.

Lemma Reconcile_cycle_careful (req : types.NamespacedName) (tf : infrav1.Terraform)
  (sourceObj : sourcev1.Source) (artifact : sourcev1.Artifact) :
  infrav1.Suspend (infrav1.Spec tf) = false ->
  triple withinAttempt (undelayed fetched) (undelayed fetched)
    (controllers.Reconcile_cycle r req tf sourceObj artifact).
Proof.
  intros Hsuspend. unfold controllers.Reconcile_cycle.
  apply (triple_pbind _ _ (fun _ => True)).
  - apply triple_lift, step_act. exact Hsuspend.
  - intros _ _. apply (triple_pbind _ _ (fun _ => True)); [walk|].
    intros [reconciled reconcileErr] _. repeat walk.
Qed.

Lemma Reconcile_fetched_careful (req : types.NamespacedName) :
  triple withinAttempt (undelayed fetched) (undelayed fetched)
    (controllers.Reconcile_fetched r req fetched).
Proof.
  unfold controllers.Reconcile_fetched.
  apply (triple_pbind _ _
           (fun prepared =>
              sameObject fetched (fst (fst (fst prepared)))
              /\ unblocked (fst (fst (fst prepared))))).
  - apply Reconcile_prepare_careful.
  - intros [[[tf sourceObj] artifact] closeConn] [Hs Hfree]. cbn [fst] in Hs, Hfree.
    apply triple_Defer; [apply runnerCleanup_step; exact I|].
    apply (triple_pbind _ _ (fun _ => True)).
    + apply Reconcile_finalize_careful; assumption.
    + intros _ _.
      apply (triple_pbind _ _ (fun t => infrav1.Suspend (infrav1.Spec t) = false)).
      * apply Reconcile_gate_careful, Hfree.
      * intros t Ht. apply Reconcile_cycle_careful, Ht.
Qed.

End Careful.

Section CarefulTheorems.

Context {C : Type} `{Client C} (r : controllers.Collaborators C).

Lemma withinAttempt_careful (a : controllers.Action) : withinAttempt a -> careful a.
Proof. destruct a; cbn; tauto. Qed.

(** X20. Whatever the cluster holds and whatever the collaborators do:
    [Reconcile] calls [finalize] only on an object that is under deletion,
    not suspended and free of dependants' finalizers, and runs the cycle
    only on an object that is not suspended. *)
Theorem Reconcile_careful (req : types.NamespacedName) (w : controllers.World C) :
  exists added,
    controllers.log (snd (controllers.Reconcile r req w))
    = (controllers.log w ++ added)%list
    /\ Forall careful added.
Proof.
  assert (Hstep : step careful (fun _ => True) (controllers.Reconcile r req)).
  { unfold controllers.Reconcile. apply triple_run.
    apply (triple_pbind _ _ (fun _ => True)).
    - apply triple_lift, certRotation_step. exact I.
    - intros _ _. apply (triple_pbind _ _ (fun _ => True)).
      + apply triple_lift, step_onCluster.
      + intros [fetched|err] _.
        * apply triple_Defer; [apply step_act; exact I|].
          apply (triple_consequence _ _ _ _ _ _ _
                   (Reconcile_fetched_careful r fetched req));
            auto using withinAttempt_careful.
        * apply triple_Return. exact I. }
  apply Hstep.
Qed.

(** X21. [Reconcile] never returns an error together with a delay: when the
    error is not nil, [RequeueAfter] is zero, unless the object fetched is
    under deletion (the result is then the one [finalize] gave). *)
Theorem Reconcile_error_undelayed (req : types.NamespacedName) (w : controllers.World C) :
  let got := controllers.onCluster (GetTerraform req)
               (snd (controllers.certRotation r w)) in
  let outcome := fst (controllers.Reconcile r req w) in
  snd outcome = None
  \/ ctrl.RequeueAfter (fst outcome) = 0
  \/ exists fetched,
       fst got = inl fetched /\ controllers.isBeingDeleted fetched = true.
Proof.
  cbv zeta.
  destruct (controllers.onCluster (GetTerraform req)
              (snd (controllers.certRotation r w))) as [[fetched|err] w0] eqn:Hget.
  - rewrite (Reconcile_fetched_run r req w w0 fetched Hget).
    destruct (Reconcile_fetched_careful r fetched req w0) as [_ Hq].
    destruct (controllers.Reconcile_fetched r req fetched w0) as [[o|o] w1];
      cbn [fst snd] in *; destruct Hq as [Hd|[Hn|Hz]];
      first [ left; exact Hn
            | right; left; exact Hz
            | right; right; exists fetched; split; [reflexivity | exact Hd] ].
  - rewrite (Reconcile_absent_run r req w w0 err Hget). right. left. reflexivity.
Qed.

(** X22. Once the object is fetched, the deferred [recordSuspensionMetric]
    is called on every path, the paths that return an error included:
    exactly once, with the object as it was fetched, and as the last thing
    the loop does. *)
Theorem Reconcile_records_suspension (req : types.NamespacedName)
  (w w0 : controllers.World C) (fetched : infrav1.Terraform)
  (Hget : controllers.onCluster (GetTerraform req) (snd (controllers.certRotation r w))
          = (inl fetched, w0)) :
  exists added,
    controllers.log (snd (controllers.Reconcile r req w))
    = (controllers.log w0 ++ added ++ [controllers.SuspensionMetric fetched])%list
    /\ Forall (fun a => forall tf, a <> controllers.SuspensionMetric tf) added.
Proof.
  rewrite (Reconcile_fetched_run r req w w0 fetched Hget).
  destruct (Reconcile_fetched_careful r fetched req w0) as [(added & Hlog & Hall) _].
  destruct (controllers.Reconcile_fetched r req fetched w0) as [res w1].
  cbn [snd] in *. exists added. split.
  - cbn. rewrite Hlog, app_assoc. reflexivity.
  - eapply List.Forall_impl; [|exact Hall].
    intros a Ha tf ->. exact Ha.
Qed.

(** *** Path by path *)

(** X23. When the object asked for cannot be fetched, [Reconcile] stops
    there: no requeue, with no error when the object is not found and with
    the error of the fetch otherwise; nothing is written, and neither a
    metric nor an event function is called. *)
Theorem Reconcile_absent (req : types.NamespacedName) (w w0 : controllers.World C)
  (err : error)
  (Hget : controllers.onCluster (GetTerraform req) (snd (controllers.certRotation r w))
          = (inr err, w0)) :
  fst (controllers.Reconcile r req w)
  = (ctrl.NoRequeue, if apierrors.IsNotFound err then None else Some err)
  /\ snd (controllers.Reconcile r req w) = w0
  /\ controllers.log w0 = controllers.log (snd (controllers.certRotation r w)).
Proof.
  rewrite (Reconcile_absent_run r req w w0 err Hget).
  split; [reflexivity|]. split; [reflexivity|].
  rewrite onCluster_run in Hget. injection Hget as _ <-. reflexivity.
Qed.

(** X24. On a suspended object [Reconcile] asks for no requeue and calls
    [recordSuspensionMetric], nothing else: no cycle, no finalization (also
    when the object is under deletion), no event, no readiness metric.  When
    the object has the controller's finalizer already, nothing is written to
    the cluster and no error is returned; otherwise the finalizer is added
    first, suspended or not. *)
Theorem Reconcile_suspended (req : types.NamespacedName) (w w0 : controllers.World C)
  (fetched : infrav1.Terraform)
  (Hget : controllers.onCluster (GetTerraform req) (snd (controllers.certRotation r w))
          = (inl fetched, w0))
  (Hsuspend : infrav1.Suspend (infrav1.Spec fetched) = true) :
  fst (fst (controllers.Reconcile r req w)) = ctrl.NoRequeue
  /\ controllers.log (snd (controllers.Reconcile r req w))
     = (controllers.log w0 ++ [controllers.SuspensionMetric fetched])%list
  /\ (controllerutil.ContainsFinalizer fetched infrav1.TerraformFinalizer = true ->
      controllers.Reconcile r req w
      = ((ctrl.NoRequeue, None),
         snd (controllers.recordSuspensionMetric fetched w0)))
  /\ (controllerutil.ContainsFinalizer fetched infrav1.TerraformFinalizer = false ->
      controllers.cluster (snd (controllers.Reconcile r req w))
      = snd (Patch (controllerutil.AddFinalizer fetched infrav1.TerraformFinalizer)
               (controllers.cluster w0))).
Proof.
  rewrite (Reconcile_fetched_run r req w w0 fetched Hget).
  unfold controllers.Reconcile_fetched, controllers.Reconcile_prepare.
  rewrite !pbind_assoc_run.
  destruct (controllerutil.ContainsFinalizer fetched infrav1.TerraformFinalizer) eqn:Ef;
    cbn [negb].
  - rewrite pbind_pret_run, pbind_assoc_run, Hsuspend, pbind_Return_run.
    cbn. repeat split; try reflexivity. discriminate.
  - cbv zeta. rewrite pbind_assoc_run, pbind_lift_run, onCluster_run. cbn [fst snd].
    destruct (Patch _ (controllers.cluster w0)) as [[err|] c1]; cbn [fst snd].
    + rewrite pbind_Return_run. cbn. repeat split; try reflexivity. discriminate.
    + assert (Hspec : infrav1.Suspend
                        (infrav1.Spec (controllerutil.AddFinalizer fetched
                                         infrav1.TerraformFinalizer)) = true).
      { unfold controllerutil.AddFinalizer. rewrite Ef. exact Hsuspend. }
      rewrite pbind_pret_run, pbind_assoc_run, Hspec, pbind_Return_run.
      cbn. repeat split; try reflexivity. discriminate.
Qed.

(** X25. An object under deletion that still carries a dependant's
    finalizer is not finalized.  With the controller's finalizer in place
    and the object not suspended, [Reconcile] patches the status that
    [TerraformNotReady] makes with the reason [DeletionBlockedByDependants]
    and a message that lists the dependants, and asks to be called again
    after the retry interval (at once, with the error, when the patch
    fails); it calls [recordSuspensionMetric] and neither [finalize] nor the
    cycle, the event or the readiness metric. *)
Theorem Reconcile_deletion_blocked (req : types.NamespacedName)
  (w w0 : controllers.World C) (fetched : infrav1.Terraform)
  (Hget : controllers.onCluster (GetTerraform req) (snd (controllers.certRotation r w))
          = (inl fetched, w0))
  (Hfinalizer : controllerutil.ContainsFinalizer fetched infrav1.TerraformFinalizer
                = true)
  (Hsuspend : infrav1.Suspend (infrav1.Spec fetched) = false)
  (Hdeleted : controllers.isBeingDeleted fetched = true)
  (Hdependants : controllers.dependantsOf fetched <> []) :
  let msg := "Deletion in progress, but blocked. Please delete "
             +:+ strings.Join (controllers.dependantsOf fetched) ", "
             +:+ " to resume ..." in
  let blocked :=
    fst (infrav1.TerraformNotReady fetched "" infrav1.DeletionBlockedByDependants msg
           (controllers.clock w0)) in
  let patched :=
    controllers.patchStatus req (infrav1.Status blocked) (controllers.cluster w0) in
  fst (controllers.Reconcile r req w)
  = match fst patched with
    | Some err => (ctrl.RequeueNow, Some err)
    | None => (ctrl.After (infrav1.GetRetryInterval fetched), None)
    end
  /\ controllers.cluster (snd (controllers.Reconcile r req w)) = snd patched
  /\ controllers.log (snd (controllers.Reconcile r req w))
     = (controllers.log w0 ++ [controllers.SuspensionMetric fetched])%list.
Proof.
  cbv zeta. rewrite (Reconcile_fetched_run r req w w0 fetched Hget).
  unfold controllers.Reconcile_fetched, controllers.Reconcile_prepare.
  rewrite !pbind_assoc_run, Hfinalizer. cbn [negb].
  rewrite pbind_pret_run, pbind_assoc_run, Hsuspend, pbind_pret_run, pbind_assoc_run.
  rewrite Hdeleted.
  destruct (controllers.dependantsOf fetched) as [|n deps] eqn:Edeps; [congruence|].
  cbn [length Nat.ltb Nat.leb andb]. cbv zeta.
  rewrite !pbind_assoc_run, pbind_lift_run, onClock_run. cbn [fst snd].
  set (blocked := fst (infrav1.TerraformNotReady fetched ""
                         infrav1.DeletionBlockedByDependants _ (controllers.clock w0))).
  assert (Hretry : infrav1.GetRetryInterval blocked = infrav1.GetRetryInterval fetched).
  { pose proof (transition_frame
                  (NotReady "" infrav1.DeletionBlockedByDependants
                     ("Deletion in progress, but blocked. Please delete "
                      +:+ strings.Join (n :: deps) ", " +:+ " to resume ..."))
                  fetched (controllers.clock w0)) as [Hspec _].
    cbn [transition] in Hspec. fold blocked in Hspec.
    unfold infrav1.GetRetryInterval. rewrite Hspec. reflexivity. }
  unfold controllers.patchStatusOrReturn.
  rewrite !pbind_assoc_run, pbind_lift_run, onCluster_run.
  cbn [fst snd controllers.cluster controllers.clock controllers.log].
  destruct (controllers.patchStatus req (infrav1.Status blocked) (controllers.cluster w0))
    as [[err|] c1]; cbn [fst snd].
  - rewrite pbind_Return_run. cbn. auto.
  - rewrite pbind_pret_run, pbind_Return_run. cbn. rewrite Hretry. auto.
Qed.

(** X26. A source reference of a kind other than GitRepository, Bucket and
    OCIRepository: on an object that has the finalizer, is not suspended and
    not under deletion, [Reconcile] returns the not-supported error of
    [getSource] with an immediate requeue, writes nothing to the cluster and
    sets no condition. *)
Theorem Reconcile_unsupported_kind (req : types.NamespacedName)
  (w w0 : controllers.World C) (fetched : infrav1.Terraform)
  (Hget : controllers.onCluster (GetTerraform req) (snd (controllers.certRotation r w))
          = (inl fetched, w0))
  (Hfinalizer : controllerutil.ContainsFinalizer fetched infrav1.TerraformFinalizer
                = true)
  (Hsuspend : infrav1.Suspend (infrav1.Spec fetched) = false)
  (Hlive : controllers.isBeingDeleted fetched = false)
  (Hkind : let kind := infrav1.Kind (infrav1.SourceRef (infrav1.Spec fetched)) in
           kind <> sourcev1.GitRepositoryKind /\ kind <> sourcev1.BucketKind
           /\ kind <> sourcev1.OCIRepositoryKind) :
  controllers.Reconcile r req w
  = ((ctrl.RequeueNow,
      Some (Errorf ("source `"
                    +:+ infrav1.Name (infrav1.SourceRef (infrav1.Spec fetched))
                    +:+ "` kind '"
                    +:+ infrav1.Kind (infrav1.SourceRef (infrav1.Spec fetched))
                    +:+ "' not supported"))),
     snd (controllers.recordSuspensionMetric fetched w0)).
Proof.
  cbv zeta in Hkind. destruct Hkind as (Hgit & Hbucket & Hoci).
  rewrite (Reconcile_fetched_run r req w w0 fetched Hget).
  unfold controllers.Reconcile_fetched, controllers.Reconcile_prepare.
  rewrite !pbind_assoc_run, Hfinalizer. cbn [negb].
  rewrite pbind_pret_run, pbind_assoc_run, Hsuspend, pbind_pret_run, pbind_assoc_run.
  rewrite Hlive. cbn [andb].
  rewrite pbind_pret_run, pbind_assoc_run, pbind_lift_run, onCluster_run.
  unfold controllers.getSource.
  apply String.eqb_neq in Hgit, Hbucket, Hoci. rewrite Hgit, Hbucket, Hoci.
  cbn [orb]. rewrite ret_run. cbn [fst snd apierrors.IsNotFound].
  rewrite pbind_assoc_run, pbind_Return_run.
  destruct w0. reflexivity.
Qed.

End CarefulTheorems.

Lemma Reconcile_records_suspension_witness :
  exists added,
    controllers.log
      (snd (controllers.Reconcile examples.collaborators examples.request
              examples.world))
    = (controllers.log examples.world ++ added
       ++ [controllers.SuspensionMetric examples.app])%list
    /\ Forall (fun a => forall tf, a <> controllers.SuspensionMetric tf) added.
Proof.
  apply (Reconcile_records_suspension examples.collaborators examples.request
           examples.world examples.world examples.app).
  vm_compute. reflexivity.
Defined.

Lemma Reconcile_absent_witness :
  fst (controllers.Reconcile examples.collaborators
         (types.mkNamespacedName "infra" "ghost") examples.world)
  = (ctrl.NoRequeue, None)
  /\ snd (controllers.Reconcile examples.collaborators
            (types.mkNamespacedName "infra" "ghost") examples.world)
     = examples.world
  /\ controllers.log examples.world
     = controllers.log (snd (controllers.certRotation examples.collaborators
                               examples.world)).
Proof.
  apply (Reconcile_absent examples.collaborators
           (types.mkNamespacedName "infra" "ghost") examples.world examples.world
           (fake.notFound (types.mkNamespacedName "infra" "ghost"))).
  vm_compute. reflexivity.
Defined.

Lemma Reconcile_suspended_witness :
  fst (fst (controllers.Reconcile examples.collaborators examples.request
              (examples.worldOf examples.suspended))) = ctrl.NoRequeue
  /\ controllers.log
       (snd (controllers.Reconcile examples.collaborators examples.request
               (examples.worldOf examples.suspended)))
     = [controllers.SuspensionMetric examples.suspended].
Proof.
  pose proof (Reconcile_suspended examples.collaborators examples.request
                (examples.worldOf examples.suspended)
                (examples.worldOf examples.suspended)
                examples.suspended) as Hw.
  destruct Hw as (Hresult & Hlog & _).
  - vm_compute. reflexivity.
  - reflexivity.
  - split; [exact Hresult | exact Hlog].
Defined.

Lemma Reconcile_deletion_blocked_witness :
  fst (controllers.Reconcile examples.collaborators
         (types.mkNamespacedName "infra" "base")
         (examples.worldOf examples.deleting))
  = (ctrl.After (infrav1.GetRetryInterval examples.deleting), None)
  /\ controllers.log
       (snd (controllers.Reconcile examples.collaborators
               (types.mkNamespacedName "infra" "base")
               (examples.worldOf examples.deleting)))
     = [controllers.SuspensionMetric examples.deleting].
Proof.
  pose proof (Reconcile_deletion_blocked examples.collaborators
                (types.mkNamespacedName "infra" "base")
                (examples.worldOf examples.deleting)
                (examples.worldOf examples.deleting)
                examples.deleting) as Hw.
  destruct Hw as (Hresult & _ & Hlog).
  - vm_compute. reflexivity.
  - reflexivity.
  - reflexivity.
  - reflexivity.
  - vm_compute. discriminate.
  - split; [exact Hresult | exact Hlog].
Defined.

Lemma Reconcile_unsupported_kind_witness :
  controllers.Reconcile examples.collaborators examples.request
    (examples.worldOf examples.charted)
  = ((ctrl.RequeueNow, Some (Errorf "source `chart` kind 'HelmChart' not supported")),
     snd (controllers.recordSuspensionMetric examples.charted
            (examples.worldOf examples.charted))).
Proof.
  apply (Reconcile_unsupported_kind examples.collaborators examples.request
           (examples.worldOf examples.charted) (examples.worldOf examples.charted)
           examples.charted).
  - vm_compute. reflexivity.
  - reflexivity.
  - reflexivity.
  - reflexivity.
  - cbv zeta. repeat split; vm_compute; discriminate.
Defined.

Section CycleFailure.

Context {C : Type} `{Client C} (r : controllers.Collaborators C).

(** X27. A cycle that fails does not make [Reconcile] fail.  When
    [r.reconcile] returns an error and the status patch goes through, the
    result is a requeue after the retry interval of the object the cycle
    was run on, with a nil error; [recordReadinessMetric] is called with the
    reconciled object, and an event follows, of type Warning with the error
    as its message and the reason of the reconciled object's Ready condition
    (the severity when it has none), unless the error is the drift-detected
    one, which gives no event. *)
Theorem Reconcile_cycle_failed (req : types.NamespacedName) (tf : infrav1.Terraform)
  (sourceObj : sourcev1.Source) (artifact : sourcev1.Artifact)
  (w w1 w2 : controllers.World C) (reconciled : infrav1.Terraform) (err : error)
  (Hcycle : controllers.onCluster (controllers.reconcile r tf sourceObj)
              (snd (controllers.act (controllers.RunReconcile tf) w))
            = ((reconciled, Some err), w1))
  (Hpatch : controllers.onCluster
              (controllers.patchStatus req (infrav1.Status reconciled)) w1
            = (None, w2)) :
  let reason :=
    match apimeta.FindStatusCondition (infrav1.Conditions (infrav1.Status reconciled))
            meta.ReadyCondition with
    | Some c => metav1.Reason c
    | None => "error"
    end in
  fst (controllers.Reconcile_cycle r req tf sourceObj artifact w)
  = inl (ctrl.After (infrav1.GetRetryInterval tf), None)
  /\ controllers.log (snd (controllers.Reconcile_cycle r req tf sourceObj artifact w))
     = (controllers.log w
        ++ [controllers.RunReconcile tf; controllers.ReadinessMetric reconciled]
        ++ (if String.eqb (Error err) infrav1.DriftDetectedReason then []
            else [controllers.AnnotatedEvent (sourcev1.Revision artifact) "Warning"
                    reason (Error err)]))%list.
Proof.
  cbv zeta.
  assert (Hlog1 : controllers.log w1 = (controllers.log w ++ [controllers.RunReconcile tf])%list).
  { rewrite onCluster_run in Hcycle. injection Hcycle as _ <-. reflexivity. }
  assert (Hlog2 : controllers.log w2 = controllers.log w1).
  { rewrite onCluster_run in Hpatch. injection Hpatch as _ <-. reflexivity. }
  unfold controllers.Reconcile_cycle.
  rewrite pbind_lift_run, pbind_lift_run, Hcycle. cbn [fst snd].
  unfold controllers.patchStatusOrReturn.
  rewrite pbind_assoc_run, pbind_lift_run, Hpatch. cbn [fst snd].
  rewrite pbind_pret_run, pbind_lift_run.
  unfold controllers.recordReadinessMetric at 1 2.
  destruct (String.eqb (Error err) infrav1.DriftDetectedReason) eqn:Edrift.
  - cbn. rewrite Hlog2, Hlog1, <- app_assoc. split; reflexivity.
  - rewrite pbind_lift_run. cbn. rewrite Hlog2, Hlog1, <- !app_assoc. split; reflexivity.
Qed.

End CycleFailure.

(** The cycle of the example fails with [boom]. *)
Lemma Reconcile_cycle_failed_witness :
  fst (controllers.Reconcile_cycle
         (controllers.mkCollaborators fake.Cluster true false
            (fun _ => ret (true, None)) (fun _ => ret tt)
            (fun _ _ => ret (ctrl.NoRequeue, None))
            (fun tf _ => ret (tf, Some (Failure "boom")))
            approval.shouldApply approval.forceOrAutoApply ""
            (fun ref => infrav1.Kind ref +:+ "/" +:+ infrav1.Name ref)
            (fun _ => "1m0s"))
         examples.request examples.fresh examples.source examples.artifact
         examples.freshWorld)
  = inl (ctrl.After (infrav1.GetRetryInterval examples.fresh), None).
Proof.
  refine (proj1 (Reconcile_cycle_failed
                   (controllers.mkCollaborators fake.Cluster true false
                      (fun _ => ret (true, None)) (fun _ => ret tt)
                      (fun _ _ => ret (ctrl.NoRequeue, None))
                      (fun tf _ => ret (tf, Some (Failure "boom")))
                      approval.shouldApply approval.forceOrAutoApply ""
                      (fun ref => infrav1.Kind ref +:+ "/" +:+ infrav1.Name ref)
                      (fun _ => "1m0s"))
                   examples.request examples.fresh examples.source examples.artifact
                   examples.freshWorld
                   (snd (controllers.act (controllers.RunReconcile examples.fresh)
                           examples.freshWorld))
                   (snd (controllers.act (controllers.RunReconcile examples.fresh)
                           examples.freshWorld))
                   examples.fresh (Failure "boom") _ _)).
  - vm_compute. reflexivity.
  - vm_compute. reflexivity.
Defined.

(** ** The runner's host name *)

Lemma index_char_cons (c a : ascii) (s : string) :
  String.index 0 (String c "") (String a s)
  = if ascii_dec c a then Some 0%nat
    else match String.index 0 (String c "") s with
         | Some n => Some (S n)
         | None => None
         end.
Proof.
  cbn -[ascii_dec]. destruct (ascii_dec c a); [|reflexivity].
  destruct s; reflexivity.
Qed.

Lemma index_first_char (c : ascii) (s t : string) :
  String.index 0 (String c "") s = None ->
  String.index 0 (String c "") (s +:+ String c t) = Some (String.length s).
Proof.
  induction s as [|a s IH]; intros Hnone.
  - change ("" +:+ String c t) with (String c t). rewrite index_char_cons.
    destruct (ascii_dec c c); [reflexivity | congruence].
  - rewrite append_cons. cbn [String.length]. rewrite index_char_cons in Hnone |- *.
    destruct (ascii_dec c a); [discriminate|].
    destruct (String.index 0 (String c "") s); [discriminate|].
    rewrite IH by reflexivity. reflexivity.
Qed.

Lemma ReplaceAllByte_dots (ip : string) :
  String.length (strings.ReplaceAllByte ip "." "-") = String.length ip
  /\ String.index 0 "." (strings.ReplaceAllByte ip "." "-") = None.
Proof.
  induction ip as [|a ip [IHlen IHdot]]; [split; reflexivity|].
  cbn [strings.ReplaceAllByte].
  destruct (Ascii.eqb a ".") eqn:E.
  - change ("-" +:+ ?s) with (String "-" s). cbn [String.length].
    rewrite index_char_cons, IHlen, IHdot.
    destruct (ascii_dec "." "-"); [discriminate | split; reflexivity].
  - change (String a "" +:+ ?s) with (String a s). cbn [String.length].
    rewrite index_char_cons, IHlen, IHdot.
    destruct (ascii_dec "." a) as [<-|]; [discriminate E | split; reflexivity].
Qed.

(** X28. The host name [GetRunnerHostname] makes for an address: its first
    label is the address with every dot replaced by a dash, as long as the
    address and free of dots, and what follows is a dot, the object's
    namespace and [.pod.cluster.local]. *)
Theorem GetRunnerHostname_label (tf : infrav1.Terraform) (ip : string) :
  let host := infrav1.GetRunnerHostname tf ip in
  strings.Index host "." = strings.len ip
  /\ strings.slice host 0 (strings.len ip) = strings.ReplaceAllByte ip "." "-"
  /\ strings.Contains (strings.slice host 0 (strings.len ip)) "." = false
  /\ strings.slice_from host (strings.len ip)
     = "." +:+ metav1.Namespace (infrav1.ObjectMeta tf) +:+ ".pod.cluster.local".
Proof.
  cbv zeta. unfold infrav1.GetRunnerHostname.
  destruct (ReplaceAllByte_dots ip) as [Hlen Hdot].
  set (label := strings.ReplaceAllByte ip "." "-") in *.
  set (rest := metav1.Namespace (infrav1.ObjectMeta tf) +:+ ".pod.cluster.local").
  change (label +:+ "." +:+ rest) with (label +:+ String "." rest).
  assert (Hslice : strings.slice (label +:+ String "." rest) 0 (strings.len ip) = label).
  { unfold strings.slice, strings.len.
    replace (Z.to_nat 0) with 0%nat by reflexivity.
    replace (Z.to_nat (Z.of_nat (String.length ip) - 0)) with (String.length label)
      by lia.
    apply substring_append_exact. }
  split; [|split; [|split]].
  - unfold strings.Index. rewrite (index_first_char "." label rest Hdot).
    unfold strings.len. rewrite Hlen. reflexivity.
  - exact Hslice.
  - rewrite Hslice. unfold strings.Contains, strings.Index. rewrite Hdot. reflexivity.
  - unfold strings.slice_from, strings.slice, strings.len. rewrite length_append.
    replace (Z.to_nat (Z.of_nat (String.length ip)))
      with (String.length label + 0)%nat by lia.
    replace (Z.to_nat (Z.of_nat (String.length label + String.length (String "." rest))
                       - Z.of_nat (String.length ip)))
      with (String.length (String "." rest)) by lia.
    rewrite substring_skip_more. apply substring_all.
Qed.

(** ** The pending plan *)

(** X29. Which transitions touch the pending plan.
    [TerraformPlannedWithChanges] makes the plan id of the revision the
    pending one; [TerraformApplied] moves the pending plan to the last
    applied one and leaves none pending; [TerraformPlannedNoChanges],
    [TerraformPostPlanningWebhookFailed] and
    [TerraformAppliedFailResetPlanAndNotReady] leave none pending and keep
    the last applied one; every other transition leaves the plan status as
    it was. *)
Theorem transition_pending (t : Transition) (tf : infrav1.Terraform)
  (k : metav1.Clock) :
  let before := infrav1.Plan (infrav1.Status tf) in
  let after := infrav1.Plan (infrav1.Status (fst (transition t tf k))) in
  match t with
  | PlannedWithChanges revision _ message =>
      infrav1.PlanStatus.Pending after
      = fst (infrav1.GetPlanIdAndApproveMessage revision message)
      /\ infrav1.PlanStatus.LastApplied after = infrav1.PlanStatus.LastApplied before
  | Applied _ _ _ _ =>
      infrav1.PlanStatus.Pending after = ""
      /\ infrav1.PlanStatus.LastApplied after = infrav1.PlanStatus.Pending before
  | PlannedNoChanges _ _ | PostPlanningWebhookFailed _ _
  | AppliedFailResetPlanAndNotReady _ _ _ =>
      infrav1.PlanStatus.Pending after = ""
      /\ infrav1.PlanStatus.LastApplied after = infrav1.PlanStatus.LastApplied before
  | _ => after = before
  end.
Proof.
  cbv zeta.
  destruct t; unfold_transition; through_sets;
    cbn [infrav1.Plan infrav1.PlanStatus.Pending infrav1.PlanStatus.LastApplied fst];
    first [ split; reflexivity | reflexivity ].
Qed.

Section SourceNotReady.

Context {C : Type} `{Client C} (r : controllers.Collaborators C).

(** X30. No source, or a source without an artifact.  On an object that has
    the finalizer, is not suspended and is not blocked by dependants, when
    [getSource] fails with a not-found error or returns a source whose
    artifact is nil, [Reconcile] patches the status that [TerraformNotReady]
    makes with the reason [ArtifactFailedReason], calls
    [recordReadinessMetric] with that object and asks to be called again
    after the retry interval, with a nil error; when the patch fails it
    returns the error with an immediate requeue and does not call
    [recordReadinessMetric]. *)
Theorem Reconcile_source_not_ready (req : types.NamespacedName)
  (w w0 : controllers.World C) (fetched : infrav1.Terraform) (msg : string)
  (Hget : controllers.onCluster (GetTerraform req) (snd (controllers.certRotation r w))
          = (inl fetched, w0))
  (Hfinalizer : controllerutil.ContainsFinalizer fetched infrav1.TerraformFinalizer
                = true)
  (Hsuspend : infrav1.Suspend (infrav1.Spec fetched) = false)
  (Hfree : controllers.isBeingDeleted fetched
           && (0 <? length (controllers.dependantsOf fetched))%nat = false)
  (Hsource :
     (exists err,
         fst (controllers.getSource fetched (controllers.cluster w0)) = inr err
         /\ apierrors.IsNotFound err = true
         /\ msg = "Source '"
                  +:+ controllers.SourceRefString r
                        (infrav1.SourceRef (infrav1.Spec fetched))
                  +:+ "' not found")
     \/ (exists sourceObj,
           fst (controllers.getSource fetched (controllers.cluster w0)) = inl sourceObj
           /\ sourcev1.GetArtifact sourceObj = None
           /\ msg = "Source is not ready, artifact not found")) :
  let c1 := snd (controllers.getSource fetched (controllers.cluster w0)) in
  let notReady :=
    fst (infrav1.TerraformNotReady fetched "" infrav1.ArtifactFailedReason msg
           (controllers.clock w0)) in
  let patched := controllers.patchStatus req (infrav1.Status notReady) c1 in
  fst (controllers.Reconcile r req w)
  = match fst patched with
    | Some err => (ctrl.RequeueNow, Some err)
    | None => (ctrl.After (infrav1.GetRetryInterval fetched), None)
    end
  /\ controllers.cluster (snd (controllers.Reconcile r req w)) = snd patched
  /\ controllers.log (snd (controllers.Reconcile r req w))
     = (controllers.log w0
        ++ match fst patched with
           | Some _ => []
           | None => [controllers.ReadinessMetric notReady]
           end
        ++ [controllers.SuspensionMetric fetched])%list.
Proof.
  cbv zeta. rewrite (Reconcile_fetched_run r req w w0 fetched Hget).
  assert (Hretry : forall reason message k,
    infrav1.GetRetryInterval (fst (infrav1.TerraformNotReady fetched "" reason message k))
    = infrav1.GetRetryInterval fetched).
  { intros reason message k.
    destruct (transition_frame (NotReady "" reason message) fetched k) as [Hspec _].
    cbn [transition] in Hspec. unfold infrav1.GetRetryInterval. rewrite Hspec.
    reflexivity. }
  unfold controllers.Reconcile_fetched, controllers.Reconcile_prepare.
  rewrite !pbind_assoc_run, Hfinalizer. cbn [negb].
  rewrite pbind_pret_run, pbind_assoc_run, Hsuspend, pbind_pret_run, pbind_assoc_run.
  rewrite Hfree.
  rewrite pbind_pret_run, pbind_assoc_run, pbind_lift_run, onCluster_run.
  cbn [fst snd].
  destruct Hsource as [(err & Hgot & Hnotfound & ->) | (sourceObj & Hgot & Hnil & ->)];
    rewrite Hgot.
  - cbv beta iota. rewrite Hnotfound. cbv zeta.
    rewrite !pbind_assoc_run, pbind_lift_run, onClock_run. cbn [fst snd].
    unfold controllers.patchStatusOrReturn.
    rewrite !pbind_assoc_run, pbind_lift_run, onCluster_run.
    cbn [fst snd controllers.cluster controllers.clock controllers.log].
    destruct (controllers.patchStatus req _ _) as [[e|] c2]; cbn [fst snd].
    + rewrite pbind_Return_run. cbn. auto.
    + rewrite pbind_pret_run, pbind_assoc_run, pbind_lift_run, pbind_Return_run.
      cbn. rewrite Hretry, <- app_assoc. auto.
  - cbv beta iota.
    rewrite pbind_assoc_run, pbind_pret_run, pbind_assoc_run, Hnil. cbv zeta.
    rewrite !pbind_assoc_run, pbind_lift_run, onClock_run. cbn [fst snd].
    unfold controllers.patchStatusOrReturn.
    rewrite !pbind_assoc_run, pbind_lift_run, onCluster_run.
    cbn [fst snd controllers.cluster controllers.clock controllers.log].
    destruct (controllers.patchStatus req _ _) as [[e|] c2]; cbn [fst snd].
    + rewrite pbind_Return_run. cbn. auto.
    + rewrite pbind_pret_run, pbind_assoc_run, pbind_lift_run, pbind_Return_run.
      cbn. rewrite Hretry, <- app_assoc. auto.
Qed.

End SourceNotReady.

Lemma Reconcile_source_not_ready_witness :
  fst (controllers.Reconcile examples.collaborators examples.request examples.sourceless)
  = (ctrl.After (infrav1.GetRetryInterval examples.app), None)
  /\ controllers.log
       (snd (controllers.Reconcile examples.collaborators examples.request
               examples.sourceless))
     = [controllers.ReadinessMetric
          (fst (infrav1.TerraformNotReady examples.app "" infrav1.ArtifactFailedReason
                  "Source 'GitRepository/repo' not found" examples.clock));
        controllers.SuspensionMetric examples.app].
Proof.
  pose proof (Reconcile_source_not_ready examples.collaborators examples.request
                examples.sourceless examples.sourceless examples.app
                "Source 'GitRepository/repo' not found") as Hw.
  destruct Hw as (Hresult & _ & Hlog).
  - vm_compute. reflexivity.
  - reflexivity.
  - reflexivity.
  - reflexivity.
  - left. exists (fake.notFound (types.mkNamespacedName "infra" "repo")).
    repeat split; vm_compute; reflexivity.
  - split; [exact Hresult | exact Hlog].
Defined.
